(** * libvzctl: the cgroup core (lib/cgroup.c)

    A shallow embedding of the cgroup management code of libvzctl and the
    properties of it that its specification states.

    The C code is a sequence of system calls whose results decide the
    control flow.  The embedding keeps that shape: every function of
    cgroup.c is a computation in a state-and-failure monad over

    - an abstract kernel state [W] reached only through the system calls of
      the class [Kernel], each of which returns a value or an errno;
    - the process' own mutable data: [errno], the controller table with its
      lazily resolved mount paths, the cached slice name and the log.

    [int] values are [Z], [useconds_t] and [unsigned long] are [Z] with the
    wrap-around written out, loops that C does not bound take a fuel
    argument and yield [None] when it runs out. *)

From Stdlib Require Import ZArith List String Ascii Bool Lia.
From Stdlib Require Import Floats.SpecFloat.
Import ListNotations.

Local Open Scope string_scope.
Local Open Scope list_scope.
Local Open Scope Z_scope.

Infix "+++" := String.append (at level 60, right associativity).

(** ** errno values (Linux, asm-generic/errno-base.h) *)

Module Errno.
Definition ENOENT : Z := 2.
Definition EBADF : Z := 9.
Definition EFAULT : Z := 14.
Definition ENOMEM : Z := 12.
Definition EACCES : Z := 13.
Definition EBUSY : Z := 16.
Definition EEXIST : Z := 17.
Definition ENOTDIR : Z := 20.
Definition EINVAL : Z := 22.
Definition EMFILE : Z := 24.
End Errno.
Import Errno.

(** The result of a system call: a value, or [-1] with [errno] set. *)
Inductive res (A : Type) : Type :=
| Ok (a : A)
| Err (e : Z).
Arguments Ok {A} a.
Arguments Err {A} e.

Definition is_err {A} (r : res A) : bool :=
  match r with Ok _ => false | Err _ => true end.

(** [struct stat], the fields cgroup.c looks at. *)
Record stat : Type := mkStat {
  st_dev : Z;
  st_ino : Z;
  st_isdir : bool          (* S_ISDIR(st_mode) *)
}.

(** The identity of a file as the spec has it: device and inode. *)
Definition same_identity (a b : stat) : bool :=
  ((st_dev a =? st_dev b) && (st_ino a =? st_ino b))%bool.

Inductive oflag : Type :=
| O_RDONLY
| O_WRONLY
| O_WRONLY_CLOEXEC
| O_DIRECTORY.

(** mount(2) flags used by the bind-mount code. *)
Inductive mflag : Type :=
| MS_NONE
| MS_SLAVE
| MS_BIND
| MS_BIND_PRIVATE.

(** ** The kernel and the library helpers outside cgroup.c

    A call answers [Ok] with its non-negative return value or [Err] with
    the errno of a return of -1.

    [os_readdir] stands for [fdopendir]/[rewinddir] followed by the
    [readdir] calls up to [NULL]: the names the enumeration yields, in its
    order.  The names can be stale; that shows in the later [os_fstatat]
    and [os_openat] on them.

    [os_proc_mounts] and [os_proc_cgroups] stand for [fopen] of the two
    files: the lines of the file, each without the newline that ends it.

    [os_make_dir], [os_get_global_param] and [os_alloc] stand for
    [make_dir(path, 1)], [get_global_param] and the allocating helpers
    ([malloc], [xstrdup], [add_str_param]) of the library, which live
    outside cgroup.c.  [os_make_dir] answers with the return value and
    with the errno the call leaves, [None] when it leaves errno alone:
    cgroup.c reads errno after a [make_dir] that failed. *)
Class Kernel (W : Type) : Type := {
  os_open : string -> oflag -> W -> res Z * W;
  os_openat : Z -> string -> W -> res Z * W;
  os_close : Z -> W -> res unit * W;
  os_read : Z -> Z -> W -> res (list ascii) * W;
  os_write : Z -> string -> Z -> W -> res Z * W;
  os_fstat : Z -> W -> res stat * W;
  os_fstatat : Z -> string -> W -> res stat * W;
  os_readdir : Z -> W -> res (list string) * W;
  os_unlinkat : Z -> string -> W -> res unit * W;
  os_rmdir : string -> W -> res unit * W;
  os_usleep : Z -> W -> W;
  os_sleep : Z -> W -> W;
  os_access : string -> W -> res unit * W;
  os_mount : option string -> string -> option string -> mflag -> W -> res unit * W;
  os_umount : string -> W -> res unit * W;
  os_unlink : string -> W -> res unit * W;
  os_symlink : string -> string -> W -> res unit * W;
  os_proc_mounts : W -> res (list string) * W;
  os_proc_cgroups : W -> res (list string) * W;
  os_make_dir : string -> W -> Z * option Z * W;
  os_get_global_param : string -> W -> option string * W;
  os_alloc : W -> bool * W
}.

(** ** Constants of the headers outside cgroup.c

    cgroup.h, vzerror.h and util.h are not part of the file; their
    constants are parameters.  The error codes are non-zero, as every
    caller that tests [if (ret)] relies on. *)
Class Consts : Type := {
  VZCTL_E_SYSTEM : Z;
  VZCTL_E_NOMEM : Z;
  VZCTL_E_RESOURCE : Z;
  VZCTL_E_INVAL : Z;
  VZCTL_E_CREATE_DIR : Z;
  VZCTL_E_CPUMASK : Z;
  STR_SIZE : Z;
  VZCTL_CMD_RESUME : Z;
  VZCTL_CMD_SUSPEND : Z;
  SYSTEMD_CTID_SCOPE : string -> string;   (* SYSTEMD_CTID_SCOPE_FMT applied to a ctid *)
  VZCTL_E_SYSTEM_nz : VZCTL_E_SYSTEM <> 0;
  VZCTL_E_NOMEM_nz : VZCTL_E_NOMEM <> 0;
  VZCTL_E_RESOURCE_nz : VZCTL_E_RESOURCE <> 0;
  VZCTL_E_CREATE_DIR_nz : VZCTL_E_CREATE_DIR <> 0;
  VZCTL_E_CPUMASK_nz : VZCTL_E_CPUMASK <> 0
}.

(** Modelled from the spec: the controller names behind the CG_* macros of
    cgroup.h, in the order of section 3 of the specification. *)
Definition CG_CPU := "cpu".
Definition CG_CPUSET := "cpuset".
Definition CG_NET_CLS := "net_cls".
Definition CG_MEMORY := "memory".
Definition CG_DEVICES := "devices".
Definition CG_BLKIO := "blkio".
Definition CG_FREEZER := "freezer".
Definition CG_UB := "beancounter".
Definition CG_VE := "ve".
Definition CG_PERF_EVENT := "perf_event".
Definition CG_HUGETLB := "hugetlb".
Definition CG_PIDS := "pids".

(** ** Process state *)

Record cg_ctl : Type := mkCtl {
  subsys : string;
  is_prvt : bool;
  mount_path : option string      (* NULL until resolved *)
}.

Definition cg_ctl_map : list cg_ctl :=
  [ mkCtl CG_CPU false None;
    mkCtl CG_CPUSET false None;
    mkCtl CG_NET_CLS false None;
    mkCtl CG_MEMORY false None;
    mkCtl CG_DEVICES false None;
    mkCtl CG_BLKIO false None;
    mkCtl CG_FREEZER false None;
    mkCtl CG_UB true None;
    mkCtl CG_VE true None;
    mkCtl CG_PERF_EVENT false None;
    mkCtl CG_HUGETLB false None;
    mkCtl CG_PIDS false None;
    mkCtl "systemd" false None ].

(** One message handed to the logging sink by [logger] or [vzctl_err]. *)
Record logent : Type := mkLog {
  log_level : Z;
  log_errno : Z;
  log_msg : string
}.

Record state (W : Type) : Type := mkState {
  os : W;
  errno : Z;
  ctl_map : list cg_ctl;          (* the static cg_ctl_map[] *)
  slice : option string;          (* statics of cg_get_slice_name; None: !inited *)
  log : list logent
}.
Arguments mkState {W}.
Arguments os {W}.
Arguments errno {W}.
Arguments ctl_map {W}.
Arguments slice {W}.
Arguments log {W}.

Definition init_state {W} (w : W) : state W := mkState w 0 cg_ctl_map None [].

(** ** The monad: state, and [None] when a loop runs out of fuel *)

Definition M (W A : Type) : Type := state W -> option (A * state W).

Definition ret {W A} (a : A) : M W A := fun s => Some (a, s).

Definition bind {W A B} (m : M W A) (k : A -> M W B) : M W B :=
  fun s => match m s with
           | Some (a, s') => k a s'
           | None => None
           end.

Definition diverge {W A} : M W A := fun _ => None.

Declare Scope cg_scope.
Delimit Scope cg_scope with cg.
Notation "x <- m ;; k" := (bind m (fun x => k))
  (at level 100, m at next level, right associativity) : cg_scope.
Notation "m ;;; k" := (bind m (fun _ => k))
  (at level 100, right associativity) : cg_scope.
Local Open Scope cg_scope.

Definition get_errno {W} : M W Z := fun s => Some (errno s, s).

Definition set_errno {W} (e : Z) : M W unit :=
  fun s => Some (tt, mkState (os s) e (ctl_map s) (slice s) (log s)).

(** A system call: the kernel moves on, and a failure stores its errno. *)
Definition sys {W A} (f : W -> res A * W) : M W (res A) :=
  fun s => let (r, w) := f (os s) in
           Some (r, mkState w (match r with Ok _ => errno s | Err e => e end)
                            (ctl_map s) (slice s) (log s)).

(** A helper that cannot set errno in a way the code looks at. *)
Definition ext {W A} (f : W -> A * W) : M W A :=
  fun s => let (r, w) := f (os s) in
           Some (r, mkState w (errno s) (ctl_map s) (slice s) (log s)).

(** A helper that reports in its return value and leaves an errno. *)
Definition ext_errno {W A} (f : W -> A * option Z * W) : M W A :=
  fun s => let '(r, e, w) := f (os s) in
           Some (r, mkState w (match e with Some e => e | None => errno s end)
                            (ctl_map s) (slice s) (log s)).

Definition logger {W} (level eno : Z) (msg : string) : M W unit :=
  fun s => Some (tt, mkState (os s) (errno s) (ctl_map s) (slice s)
                             (log s ++ [mkLog level eno msg])).

(** [vzctl_err(rc, eno, fmt, ...)]: log at level -1 and evaluate to [rc]. *)
Definition vzctl_err {W} (rc eno : Z) (msg : string) : M W Z :=
  logger (-1) eno msg ;;; ret rc.

Notation "' pat <- m ;; k" := (bind m (fun x => match x with pat => k end))
  (at level 100, pat pattern, m at next level, right associativity) : cg_scope.

(** ** C strings and buffers *)

Definition PATH_MAX : Z := 4096.

Definition NUL : ascii := Ascii.zero.
Definition LF : ascii := "010"%char.

(** [snprintf(out, size, "%s", s)]: at most [size - 1] characters. *)
Definition snprintf (size : Z) (s : string) : string :=
  substring 0 (Z.to_nat (size - 1)) s.

(** The string of a C [unsigned long]: ["%lu"]. *)
Definition ULONG_MOD : Z := 2 ^ 64.

Definition ulong (z : Z) : Z := z mod ULONG_MOD.

Fixpoint dec_digits (fuel : nat) (n : Z) (acc : string) : string :=
  match fuel with
  | O => acc
  | S f =>
      let d := ascii_of_nat (48 + Z.to_nat (n mod 10)) in
      if n / 10 =? 0 then String d acc else dec_digits f (n / 10) (String d acc)
  end.

Definition fmt_lu (v : Z) : string := dec_digits 20 (ulong v) "".

(** ["%d"] *)
Definition fmt_d (v : Z) : string :=
  if v <? 0 then "-" +++ dec_digits 20 (- v) "" else dec_digits 20 v "".

Definition isspace (c : ascii) : bool :=
  let n := nat_of_ascii c in
  (Nat.eqb n 32 || (Nat.leb 9 n && Nat.leb n 13))%bool.

Definition isdigit (c : ascii) : bool :=
  let n := nat_of_ascii c in (Nat.leb 48 n && Nat.leb n 57)%bool.

(** [strsep] applied until [NULL]: the tokens between the separators, empty
    tokens included. *)
Fixpoint strsep_all (sep : ascii) (s : string) : list string :=
  match s with
  | EmptyString => [EmptyString]
  | String c r =>
      if Ascii.eqb c sep then EmptyString :: strsep_all sep r
      else match strsep_all sep r with
           | t :: ts => String c t :: ts
           | [] => [String c EmptyString]
           end
  end.

Definition cg_is_systemd (subsys : string) : bool := String.eqb subsys "systemd".

Definition has_substr (buf str : string) : bool :=
  existsb (fun token => String.eqb token str) (strsep_all ","%char buf).

(** *** [sscanf(buf, "%*s %4095s cgroup %4095s", target, ops)] *)

Fixpoint skip_ws (s : string) : string :=
  match s with
  | String c r => if isspace c then skip_ws r else s
  | EmptyString => s
  end.

(** [%Ns]: up to [n] characters that are not white space. *)
Fixpoint scan_token (n : nat) (s : string) : string * string :=
  match n, s with
  | S n', String c r =>
      if isspace c then (EmptyString, s)
      else let (t, rest) := scan_token n' r in (String c t, rest)
  | _, _ => (EmptyString, s)
  end.

(** [%*s]: the whole run of characters that are not white space. *)
Fixpoint scan_skip (s : string) : string :=
  match s with
  | String c r => if isspace c then s else scan_skip r
  | EmptyString => s
  end.

Fixpoint scan_lit (lit s : string) : option string :=
  match lit, s with
  | EmptyString, _ => Some s
  | String a l, String c r => if Ascii.eqb a c then scan_lit l r else None
  | String _ _, EmptyString => None
  end.

(** The number of conversions stored, with [target] and [ops]. *)
Definition sscanf_mounts (buf : string) : Z * string * string :=
  let s0 := skip_ws buf in
  let s1 := scan_skip s0 in
  if String.eqb s0 s1 then (-1, "", "") else
  let (target, s2) := scan_token 4095 (skip_ws s1) in
  if String.eqb target "" then (if String.eqb (skip_ws s1) "" then -1 else 0, "", "") else
  match scan_lit "cgroup" (skip_ws s2) with
  | None => (1, target, "")
  | Some s3 =>
      let (ops, _) := scan_token 4095 (skip_ws s3) in
      if String.eqb ops "" then (1, target, "") else (2, target, ops)
  end.

Fixpoint set_nth {A} (i : nat) (a : A) (l : list A) : list A :=
  match l, i with
  | [], _ => []
  | _ :: r, O => a :: r
  | x :: r, S j => x :: set_nth j a r
  end.

(** A [char out[size]] as the callee sees it: the cells [0 .. size-1], and
    [below], the byte of whatever object lies at [out - 1].  Index
    [i] is inside the array when [0 <= i < size]. *)
Record cbuf : Type := mkBuf {
  below : ascii;
  cells : list ascii
}.

Definition buf_size (b : cbuf) : Z := Z.of_nat (List.length (cells b)).

Definition buf_in_bounds (b : cbuf) (i : Z) : bool :=
  ((0 <=? i) && (i <? buf_size b))%bool.

Definition buf_get (b : cbuf) (i : Z) : ascii :=
  if i <? 0 then below b else nth (Z.to_nat i) (cells b) NUL.

Definition buf_set (b : cbuf) (i : Z) (c : ascii) : cbuf :=
  if i <? 0 then mkBuf c (cells b)
  else mkBuf (below b) (set_nth (Z.to_nat i) c (cells b)).

(** [read] stores its bytes from [out[0]] on. *)
Fixpoint blit (data dst : list ascii) : list ascii :=
  match data, dst with
  | d :: ds, _ :: cs => d :: blit ds cs
  | _, _ => dst
  end.

(** The C string that starts at [out[0]]. *)
Fixpoint cstr (l : list ascii) : string :=
  match l with
  | [] => EmptyString
  | c :: r => if Ascii.eqb c NUL then EmptyString else String c (cstr r)
  end.

Definition buf_str (b : cbuf) : string := cstr (cells b).

(** The end of [cg_read] after [r = read(...)] returned [r >= 0]: the new
    buffer, and the indices of [out] the two statements touch. *)
Definition cg_read_strip (out : cbuf) (r : Z) : cbuf * list Z :=
  if Ascii.eqb (buf_get out (r - 1)) LF
  then (buf_set out (r - 1) NUL, [r - 1; r - 1])
  else (buf_set out r NUL, [r - 1; r]).

(** Modelled from the spec: [parse_ul] of util.c, which is not part of the
    file: decimal text to [unsigned long], an error on a character that is
    not a digit or on a value out of range.  Returns the code and the
    value. *)
Fixpoint parse_digits (s : string) (acc : Z) : option Z :=
  match s with
  | EmptyString => Some acc
  | String c r =>
      if isdigit c
      then parse_digits r (10 * acc + Z.of_nat (nat_of_ascii c) - 48)
      else None
  end.


(** ** C [float] (IEEE binary32) and its conversions

    x86-64 evaluates [float] expressions in [float]; the operations are
    those of [SpecFloat] at precision 24. *)








(** Modelled from the spec: the bitmap helpers of bitmap.h, which is not
    part of the file: "a bitmap type supporting text-parse, bitwise AND,
    and text-format".  A bitmap of [size] bytes is the [Z] of its bits, bit
    [i] for element [i]; the text is the kernel's list format
    ("1-3,5"). *)
Module Bitmap.

Definition nbits (size : Z) : Z := 8 * size.

Fixpoint split_dash (s : string) : string * option string :=
  match s with
  | EmptyString => (EmptyString, None)
  | String c r =>
      if Ascii.eqb c "-"%char then (EmptyString, Some r)
      else let (a, b) := split_dash r in (String c a, b)
  end.

Definition parse_num (s : string) : option Z :=
  match s with
  | EmptyString => None
  | _ => parse_digits s 0
  end.

Definition parse_range (s : string) : option (Z * Z) :=
  match split_dash s with
  | (a, None) => match parse_num a with Some x => Some (x, x) | None => None end
  | (a, Some b) =>
      match parse_num a, parse_num b with
      | Some x, Some y => if x <=? y then Some (x, y) else None
      | _, _ => None
      end
  end.

Definition range_bits (a b : Z) : Z := Z.shiftl (Z.ones (b - a + 1)) a.

Fixpoint parse_tokens (ts : list string) (size : Z) (acc : Z) : option Z :=
  match ts with
  | [] => Some acc
  | t :: ts =>
      match parse_range t with
      | Some (a, b) =>
          if b <? nbits size
          then parse_tokens ts size (Z.lor acc (range_bits a b))
          else None
      | None => None
      end
  end.

(** [vzctl2_bitmap_parse(str, maskp, size)]: [None] for a non-zero
    return. *)
Definition vzctl2_bitmap_parse (str : string) (size : Z) : option Z :=
  if String.eqb str "" then Some 0
  else parse_tokens (strsep_all ","%char str) size 0.

(** [bitmap_and(dst, src1, src2, size)]: the value (non-zero when a bit
    is left) and [dst]. *)
Definition bitmap_and (src1 src2 size : Z) : Z * Z :=
  let dst := Z.land (Z.land src1 src2) (Z.ones (nbits size)) in
  (if dst =? 0 then 0 else 1, dst).

(** The runs of set bits among [i .. i+n-1], last run first. *)
Fixpoint runs (n : nat) (i : Z) (m : Z) (cur : option (Z * Z))
  (acc : list (Z * Z)) : list (Z * Z) :=
  match n with
  | O => match cur with Some r => r :: acc | None => acc end
  | S n =>
      if Z.testbit m i then
        runs n (i + 1) m
             (match cur with Some (a, _) => Some (a, i) | None => Some (i, i) end)
             acc
      else
        runs n (i + 1) m None
             (match cur with Some r => r :: acc | None => acc end)
  end.

Definition fmt_run (r : Z * Z) : string :=
  let (a, b) := r in
  if a =? b then fmt_lu a else fmt_lu a +++ "-" +++ fmt_lu b.

Fixpoint join (sep : string) (l : list string) : string :=
  match l with
  | [] => ""
  | [x] => x
  | x :: r => x +++ sep +++ join sep r
  end.

(** [bitmap_snprintf(buf, buflen, maskp, size)] *)
Definition bitmap_snprintf (buflen : Z) (mask size : Z) : string :=
  snprintf buflen
    (join "," (map fmt_run (rev (runs (Z.to_nat (nbits size)) 0 mask None [])))).

(** The bitmap of a list of elements. *)
Definition of_list (l : list Z) : Z :=
  fold_right (fun i m => Z.lor (Z.shiftl 1 i) m) 0 l.

End Bitmap.

(** Modelled from the spec: the string list of list.h ("an ordered
    growable string container"): [add_str_param] appends, [find_str]
    compares with [strcmp]. *)
Definition find_str (head : list string) (str : string) : bool :=
  existsb (fun it => String.eqb it str) head.

(** [strncmp(a, b, n)] on C strings. *)
Fixpoint strncmp (a b : string) (n : nat) {struct n} : Z :=
  match n with
  | O => 0
  | S n =>
      match a, b with
      | EmptyString, EmptyString => 0
      | EmptyString, String d _ => - Z.of_nat (nat_of_ascii d)
      | String c _, EmptyString => Z.of_nat (nat_of_ascii c)
      | String c a, String d b =>
          if Ascii.eqb c d then strncmp a b n
          else Z.of_nat (nat_of_ascii c) - Z.of_nat (nat_of_ascii d)
      end
  end.

(** A C string holds no NUL. *)
Fixpoint no_nul (s : string) : bool :=
  match s with
  | EmptyString => true
  | String c r => (negb (Ascii.eqb c NUL) && no_nul r)%bool
  end.

(** [strrchr(path, '/') + 1], or [None] without a slash. *)
Fixpoint after_last_slash (path : string) : option string :=
  match path with
  | EmptyString => None
  | String c r =>
      match after_last_slash r with
      | Some t => Some t
      | None => if Ascii.eqb c "/"%char then Some r else None
      end
  end.

(** ** More of libc *)

Definition ERANGE : Z := 34.

(** Does [c] occur in [s]? *)
Fixpoint has_char (c : ascii) (s : string) : bool :=
  match s with
  | EmptyString => false
  | String d r => (Ascii.eqb d c || has_char c r)%bool
  end.

(** Is a character of [s] white space? *)
Fixpoint has_space (s : string) : bool :=
  match s with
  | EmptyString => false
  | String d r => (isspace d || has_space r)%bool
  end.

(** The decimal digits at the head of [s]: their value, what follows them,
    and whether there was a digit at all. *)
Fixpoint scan_digits (s : string) (acc : Z) (any : bool) : Z * string * bool :=
  match s with
  | String c r =>
      if isdigit c
      then scan_digits r (10 * acc + (Z.of_nat (nat_of_ascii c) - 48)) true
      else (acc, s, any)
  | EmptyString => (acc, s, any)
  end.

(** [strtoull(nptr, &tail, 10)]: the value, [tail], and whether [errno]
    becomes ERANGE.  White space and one sign are accepted in front;
    without a digit the value is 0 and [tail] is [nptr]; a value that does
    not fit gives ULLONG_MAX; a minus sign negates in [unsigned long
    long]. *)
Definition strtoull (nptr : string) : Z * string * bool :=
  let s := skip_ws nptr in
  let (neg, s) := match s with
                  | String c r =>
                      if Ascii.eqb c "-"%char then (true, r)
                      else if Ascii.eqb c "+"%char then (false, r)
                      else (false, s)
                  | EmptyString => (false, s)
                  end in
  let '(v, rest, any) := scan_digits s 0 false in
  if negb any then (0, nptr, false)
  else if ULONG_MOD <=? v then (ULONG_MOD - 1, rest, true)
  else (if neg then ulong (- v) else v, rest, false).

(** The first word of a line, as [sscanf(buf, "%s", buf)] stores it; empty
    when the line has none. *)
Definition first_word (buf : string) : string :=
  fst (scan_token (String.length buf) (skip_ws buf)).

(** The names a listing like /proc/cgroups gives: the first word of every
    line that has one, comment lines left out. *)
Definition cgroup_names (lines : list string) : list string :=
  filter (fun t => (negb (String.eqb t "") && negb (prefix "#" t))%bool)
         (map first_word lines).

(** *** [fgets]

    [while (fgets(buf, size, fp))] on a file of the given lines: a call
    stores at most [size - 1] characters and stops behind a newline, so a
    line of [size - 1] characters or more, its newline counted, comes in
    pieces. *)
Fixpoint cut (fuel n : nat) (s : string) : list string :=
  match fuel with
  | O => []
  | S fuel =>
      match s with
      | EmptyString => []
      | _ => substring 0 n s :: cut fuel n (substring n (String.length s - n) s)
      end
  end.

(** A line as the file has it, with its newline. *)
Definition with_nl (line : string) : string := line +++ String LF "".

(** The pieces of one line; [size] is at least 2. *)
Definition fgets_line (size : Z) (line : string) : list string :=
  cut (String.length (with_nl line)) (Z.to_nat (size - 1)) (with_nl line).

(** What the successive calls store in [buf]. *)
Definition fgets_all (size : Z) (lines : list string) : list string :=
  flat_map (fgets_line size) lines.

(** ** The model of cgroup.c *)

Section Model.
Context {W : Type} {K : Kernel W} {C : Consts}.

#[local] Abbreviation M := (M W).
#[local] Abbreviation St := (state W).

(** *** Mount resolver *)

Fixpoint scan_mounts (subsys : string) (lines : list string) : option string :=
  match lines with
  | [] => None
  | buf :: rest =>
      let '(n, target, ops) := sscanf_mounts buf in
      if negb (n =? 2) then scan_mounts subsys rest
      else if has_substr ops (if negb (cg_is_systemd subsys) then subsys
                              else "name=systemd")
           then Some target
           else scan_mounts subsys rest
  end.

(** Returns [ret] and what is left in [out]. *)
Definition get_mount_path (subsys out : string) (size : Z) : M (Z * string) :=
  fp <- sys os_proc_mounts ;;
  match fp with
  | Err e =>
      rc <- vzctl_err (-1) e "Can't open /proc/mounts" ;;
      ret (rc, out)
  | Ok lines =>
      (* char buf[PATH_MAX] *)
      match scan_mounts subsys (fgets_all PATH_MAX lines) with
      | Some target => ret (0, snprintf size target)
      | None => ret (1, out)
      end
  end.

(** A [struct cg_ctl *] into the table is the index of the entry. *)
Fixpoint find_cg_ctl_from (i : nat) (name : string) (tbl : list cg_ctl)
  : option nat :=
  match tbl with
  | [] => None
  | c :: rest =>
      if String.eqb (subsys c) name then Some i
      else find_cg_ctl_from (S i) name rest
  end.

Definition find_cg_ctl (subsys : string) (tbl : list cg_ctl) : option nat :=
  find_cg_ctl_from 0 subsys tbl.

Definition null_ctl : cg_ctl := mkCtl "" false None.

Definition ctl_at (s : state W) (i : nat) : cg_ctl := nth i (ctl_map s) null_ctl.

Definition get_ctl (i : nat) : M cg_ctl := fun s => Some (ctl_at s i, s).

Definition set_mount_path (i : nat) (p : string) : M unit :=
  fun s =>
    let c := ctl_at s i in
    Some (tt, mkState (os s) (errno s)
                (set_nth i (mkCtl (subsys c) (is_prvt c) (Some p)) (ctl_map s))
                (slice s) (log s)).

(** [cg_get_ctl(subsys, &ctl)]: the return value and [*ctl].  The mutex
    only brackets the body; one thread runs here. *)
Definition cg_get_ctl (subsys : string) : M (Z * option nat) :=
  fun s =>
    match find_cg_ctl subsys (ctl_map s) with
    | None =>
        (rc <- vzctl_err (-1) 0 ("Unknown cgroup subsystem " +++ subsys) ;;
         ret (rc, None)) s
    | Some i =>
        match mount_path (ctl_at s i) with
        | Some _ => ret (0, Some i) s
        | None =>
            ('(r, mount_path) <- get_mount_path subsys "" PATH_MAX ;;
             if negb (r =? 0) then
               (if negb (r =? -1)
                then vzctl_err (-1) 0
                       ("Unable to find mount point for " +++ subsys +++ " cgroup")
                else ret 0) ;;;
               ret (r, Some i)
             else
               ok <- ext os_alloc ;;          (* xstrdup *)
               if negb ok then ret (-1, Some i)
               else set_mount_path i mount_path ;;; ret (0, Some i)) s
        end
    end.

(** *** Parameter I/O *)

Definition do_write_data (fd : Z) (fname : option string) (data : string)
  (len : Z) : M Z :=
  w <- sys (os_write fd data len) ;;
  let wv := match w with Ok n => n | Err _ => -1 end in
  if negb (wv =? len) then
    eno <- get_errno ;;
    (if wv <? 0
     then logger (-1) eno ("Error writing to "
                           +++ match fname with Some f => f | None => "" end
                           +++ " data='" +++ data +++ "'")
     else logger (-1) 0 ("Output truncated while writing to "
                         +++ match fname with Some f => f | None => "" end)) ;;;
    set_errno eno ;;;
    ret (-1)
  else ret 0.

Definition strlen (s : string) : Z := Z.of_nat (String.length s).

Definition write_data (path data : string) : M Z :=
  fd <- sys (os_open path O_WRONLY) ;;
  match fd with
  | Err e =>
      vzctl_err (if e =? ENOENT then 1 else -1) e
                ("Can't open " +++ path +++ " for writing")
  | Ok fd =>
      logger 3 0 ("Write " +++ path +++ " <" +++ data +++ ">") ;;;
      r <- do_write_data fd (Some path) data (strlen data) ;;
      if r =? -1 then
        eno <- get_errno ;;
        sys (os_close fd) ;;;
        set_errno eno ;;;
        ret (-1)
      else
        c <- sys (os_close fd) ;;
        match c with
        | Err e => vzctl_err (-1) e ("Error on on close fd " +++ path)
        | Ok _ => ret 0
        end
  end.

Definition cg_read (path : string) (out : cbuf) (size : Z) : M (Z * cbuf) :=
  fd <- sys (os_open path O_RDONLY) ;;
  match fd with
  | Err _ =>
      eno <- get_errno ;;
      rc <- vzctl_err (- eno) eno ("Can't open " +++ path +++ " for reading") ;;
      ret (rc, out)
  | Ok fd =>
      r <- sys (os_read fd (size - 1)) ;;
      sys (os_close fd) ;;;
      match r with
      | Err _ =>
          eno <- get_errno ;;
          rc <- vzctl_err (- eno) eno ("Error reading from file " +++ path) ;;
          ret (rc, out)
      | Ok data =>
          (* read stores at most size-1 bytes *)
          let data := firstn (Z.to_nat (size - 1)) data in
          let r := Z.of_nat (List.length data) in
          let out := mkBuf (below out) (blit data (cells out)) in
          ret (0, fst (cg_read_strip out r))
      end
  end.

(** [cg_get_slice_name]: the static [slice] is filled on the first call. *)
Definition cg_get_slice_name : M string :=
  fun s =>
    match slice s with
    | Some v => Some (v, s)
    | None =>
        (p <- ext (os_get_global_param "VE_CGROUP_SLICE") ;;
         let v := match p with
                  | Some v => snprintf 64 v
                  | None => "machine.slice"
                  end in
         fun s' => Some (v, mkState (os s') (errno s') (ctl_map s') (Some v)
                                    (log s'))) s
    end.

(** ["%s"] of a [char *]: glibc prints a null pointer as ["(null)"]. *)
Definition mp_str (ctl : cg_ctl) : string :=
  match mount_path ctl with Some p => p | None => "(null)" end.

Definition get_cgroup_name (ctid : string) (ctl : nat) (size : Z) : M string :=
  c <- get_ctl ctl ;;
  if cg_is_systemd (subsys c) then
    ret (snprintf size (mp_str c +++ "/" +++ SYSTEMD_CTID_SCOPE ctid))
  else if is_prvt c then
    ret (snprintf size (mp_str c +++ "/" +++ ctid))
  else
    sl <- cg_get_slice_name ;;
    ret (snprintf size (mp_str c +++ "/" +++ sl +++ "/" +++ ctid)).

(** [ctid] can be [NULL]: the path is then under the mount point itself.
    [out] is written only when the result is 0. *)
Definition cg_get_path (ctid : option string) (subsys name : string)
  (size : Z) : M (Z * string) :=
  '(r, ctl) <- cg_get_ctl subsys ;;
  match ctl with
  | Some ctl =>
      if negb (r =? 0) then ret (r, "")
      else match ctid with
           | None =>
               c <- get_ctl ctl ;;
               ret (0, snprintf size (mp_str c +++ "/" +++ name))
           | Some ctid =>
               path <- get_cgroup_name ctid ctl PATH_MAX ;;
               ret (0, snprintf size (path +++ "/" +++ name))
           end
  | None => ret (r, "")
  end.

Definition cg_set_param (ctid : option string) (subsys name data : string)
  : M Z :=
  '(r, path) <- cg_get_path ctid subsys name PATH_MAX ;;
  if negb (r =? 0) then ret r else write_data path data.

Definition cg_set_ul (ctid : option string) (subsys name : string) (value : Z)
  : M Z :=
  cg_set_param ctid subsys name (snprintf 32 (fmt_lu value)).

Definition cg_get_param (ctid : option string) (subsys name : string)
  (out : cbuf) (size : Z) : M (Z * cbuf) :=
  '(r, path) <- cg_get_path ctid subsys name PATH_MAX ;;
  if negb (r =? 0) then ret (r, out) else cg_read path out size.


(** *** Hierarchy lifecycle and tree removal *)

Definition cg_create (ctid : string) (ctl : nat) : M Z :=
  path <- get_cgroup_name ctid ctl PATH_MAX ;;
  logger 3 0 ("Create cgroup " +++ path) ;;;
  ext_errno (os_make_dir path).

Definition UINT_MOD : Z := 2 ^ 32.
Definition maxwait : Z := 500000.
Definition timeout : Z := 30 * 1000000.

(** The [do ... while (total < timeout)] of [rmdir_retry]; [useconds_t]
    is a 32-bit unsigned. *)
Fixpoint rmdir_retry_loop (fuel : nat) (fd : Z) (name : string)
  (total wait : Z) : M Z :=
  match fuel with
  | O => diverge
  | S fuel =>
      r <- sys (os_unlinkat fd name) ;;
      match r with
      | Ok _ => ret 0
      | Err e =>
          if negb (e =? EBUSY) then
            eno <- get_errno ;;
            vzctl_err (-1) eno ("Cannot remove dir " +++ name)
          else
            ext (fun w => (tt, os_usleep wait w)) ;;;
            let total := (total + wait) mod UINT_MOD in
            let wait := (wait * 2) mod UINT_MOD in
            let wait := if wait >? maxwait then maxwait else wait in
            if total <? timeout then rmdir_retry_loop fuel fd name total wait
            else
              eno <- get_errno ;;
              vzctl_err (-1) eno ("Cannot remove dir " +++ name)
      end
  end.

Definition rmdir_retry (fuel : nat) (fd : Z) (name : string) : M Z :=
  rmdir_retry_loop fuel fd name 0 10000.

Definition close_unless_unset (fd : Z) : M unit :=
  if negb (fd =? -1) then sys (os_close fd) ;;; ret tt else ret tt.

(** The [while ((ent = readdir(dir)) != NULL)] of [goto_next_dir] over the
    names still to come.  [st] is the local [struct stat]: a failed
    [fstatat] leaves in it what it held.  The result is the return value
    with [*parentfd], [*fd] and [out]. *)
Fixpoint goto_next_dir_scan (ents : list string) (parentfd fd : Z)
  (out : string) (size : Z) (st : stat) : M (Z * Z * Z * string) :=
  match ents with
  | [] => ret (1, parentfd, fd, out)        (* do not release fd *)
  | d_name :: ents =>
      if (String.eqb d_name "." || String.eqb d_name "..")%bool then
        goto_next_dir_scan ents parentfd fd out size st
      else
        r <- sys (os_fstatat fd d_name) ;;
        let inspect (st : stat) : M (Z * Z * Z * string) :=
          if st_isdir st then
            next <- sys (os_openat fd d_name) ;;
            match next with
            | Err e =>
                if e =? ENOENT then
                  goto_next_dir_scan ents parentfd fd out size st
                else
                  rc <- vzctl_err (-1) e ("openat " +++ d_name) ;;
                  ret (rc, parentfd, fd, out)
            | Ok next =>
                close_unless_unset parentfd ;;;
                ret (0, fd, next, snprintf size d_name)
            end
          else goto_next_dir_scan ents parentfd fd out size st in
        match r with
        | Ok st' => inspect st'
        | Err e =>
            if negb (e =? ENOENT) then
              vzctl_err (-1) e ("goto_next_dir fstatat " +++ d_name) ;;;
              goto_next_dir_scan ents parentfd fd out size st
            else inspect st
        end
  end.

(** [st0] is what the uninitialised local [st] holds on entry. *)
Definition goto_next_dir (parentfd fd : Z) (out : string) (size : Z)
  (st0 : stat) : M (Z * Z * Z * string) :=
  dir <- sys (os_readdir fd) ;;
  match dir with
  | Err e =>
      rc <- vzctl_err (-1) e "Can't opendir" ;;
      ret (rc, parentfd, fd, out)
  | Ok ents => goto_next_dir_scan ents parentfd fd out size st0
  end.

(** The [do ... while (level >= 0)] of [rm_tree]; the result is [ret] with
    the two descriptors the function closes afterwards. *)
Fixpoint rm_tree_loop (fuel rfuel : nat) (st0 st : stat) (rv : Z)
  (parentfd fd : Z) (name : string) (level : Z) : M (Z * Z * Z) :=
  match fuel with
  | O => diverge
  | S fuel =>
      '(rc, parentfd, fd, name) <- goto_next_dir parentfd fd name PATH_MAX st0 ;;
      if rc =? 0 then
        let level := level + 1 in
        if level >=? 0
        then rm_tree_loop fuel rfuel st0 st rv parentfd fd name level
        else ret (rv, parentfd, fd)
      else if rc =? -1 then ret (-1, parentfd, fd)
      else
        p <- sys (os_fstat fd) ;;
        match p with
        | Err e =>
            rc <- vzctl_err (-1) e "rm_tree fstat()" ;;
            ret (rc, parentfd, fd)
        | Ok pst =>
            if st_ino st =? st_ino pst then ret (rv, parentfd, fd)
            else
              pfd <- sys (os_openat parentfd "..") ;;
              match pfd with
              | Err e =>
                  rc <- vzctl_err (-1) e "openad .." ;;
                  ret (rc, parentfd, fd)
              | Ok pfd =>
                  sys (os_close fd) ;;;
                  let fd := parentfd in
                  let parentfd := pfd in
                  r <- (if negb (String.eqb name "")
                        then rmdir_retry rfuel fd name else ret 0) ;;
                  if negb (r =? 0) then ret (-1, parentfd, fd)
                  else
                    let level := level - 1 in
                    if level >=? 0
                    then rm_tree_loop fuel rfuel st0 st rv parentfd fd "" level
                    else ret (rv, parentfd, fd)
              end
        end
  end.

Definition rm_tree (fuel : nat) (st0 : stat) (path : string) : M Z :=
  fd <- sys (os_open path O_DIRECTORY) ;;
  match fd with
  | Err e =>
      if e =? ENOENT then ret 0
      else vzctl_err (-1) e ("Can't open " +++ path)
  | Ok fd =>
      st <- sys (os_fstat fd) ;;
      match st with
      | Err e =>
          vzctl_err (-1) e ("fstat " +++ path) ;;;
          sys (os_close fd) ;;;
          ret (-1)
      | Ok st =>
          '(rv, parentfd, fd) <- rm_tree_loop fuel fuel st0 st 0 (-1) fd "" 0 ;;
          close_unless_unset fd ;;;
          close_unless_unset parentfd ;;;
          sys (os_rmdir path) ;;;
          ret rv
      end
  end.

Definition cg_destroy (fuel : nat) (st0 : stat) (ctid : string) (ctl : nat)
  : M Z :=
  c <- get_ctl ctl ;;
  match mount_path c with
  | None => ret 0
  | Some _ =>
      path <- get_cgroup_name ctid ctl PATH_MAX ;;
      r <- rm_tree fuel st0 path ;;
      if negb (r =? 0) then ret VZCTL_E_SYSTEM else ret 0
  end.

Definition ctl_subsys (i : nat) : M string :=
  fun s => Some (subsys (ctl_at s i), s).

(** [sizeof(cg_ctl_map)/sizeof(cg_ctl_map[0])] *)
Definition NCTL : nat := Eval compute in List.length cg_ctl_map.

(** The [for] of [cg_new_cgroup] from index [i] with [n] entries to go:
    [None] when it runs to its end, [Some (ret, i)] at a [goto err]. *)
Fixpoint cg_new_cgroup_for (n i : nat) (ctid : string) : M (option (Z * nat)) :=
  match n with
  | O => ret None
  | S n =>
      name <- ctl_subsys i ;;
      '(r, ctl) <- cg_get_ctl name ;;
      if r =? -1 then ret (Some (r, i))
      else if negb (r =? 0) then cg_new_cgroup_for n (S i) ctid   (* Skip non exists *)
      else
        r <- cg_create ctid (match ctl with Some c => c | None => i end) ;;
        if negb (r =? 0) then ret (Some (r, i))
        else cg_new_cgroup_for n (S i) ctid
  end.

(** [for (i = i - 1; i >= 0; i--) cg_destroy(ctid, &cg_ctl_map[i]);] *)
Fixpoint cg_new_cgroup_err (fuel : nat) (st0 : stat) (i : nat) (ctid : string)
  : M unit :=
  match i with
  | O => ret tt
  | S i =>
      cg_destroy fuel st0 ctid i ;;;
      cg_new_cgroup_err fuel st0 i ctid
  end.

Definition cg_new_cgroup (fuel : nat) (st0 : stat) (ctid : string) : M Z :=
  r <- cg_new_cgroup_for NCTL 0 ctid ;;
  match r with
  | None => ret 0
  | Some (rv, i) =>
      cg_new_cgroup_err fuel st0 i ctid ;;;
      ret rv
  end.

Fixpoint cg_destroy_cgroup_for (fuel : nat) (st0 : stat) (n i : nat)
  (ctid : string) (rv : Z) : M Z :=
  match n with
  | O => ret rv
  | S n =>
      name <- ctl_subsys i ;;
      '(rc, ctl) <- cg_get_ctl name ;;
      if negb (rc =? 0) then cg_destroy_cgroup_for fuel st0 n (S i) ctid rv
      else
        r <- cg_destroy fuel st0 ctid (match ctl with Some c => c | None => i end) ;;
        cg_destroy_cgroup_for fuel st0 n (S i) ctid (Z.lor rv r)
  end.

Definition cg_destroy_cgroup (fuel : nat) (st0 : stat) (ctid : string) : M Z :=
  cg_destroy_cgroup_for fuel st0 NCTL 0 ctid 0.

(** *** Resource limit accessors *)



(** [buf] is the local [char buf[4096]], not initialised. *)
Definition cg_env_set_mask (ctid name : string) (cpumask size : Z) (buf : cbuf)
  : M Z :=
  let cg_name := snprintf 64 ("cpuset." +++ name) in
  '(r, buf) <- cg_get_param (Some "") CG_CPUSET cg_name buf 4096 ;;
  if r <? 0 then
    vzctl_err VZCTL_E_CPUMASK 0 ("Unable to get active " +++ cg_name +++ " mask")
  else
    ok <- ext os_alloc ;;                     (* malloc(size) *)
    if negb ok then vzctl_err VZCTL_E_NOMEM ENOMEM "cg_env_set_mask"
    else
      let buf := buf_str buf in
      match Bitmap.vzctl2_bitmap_parse buf size with
      | None =>
          vzctl_err VZCTL_E_CPUMASK 0
                    ("Can't parse active " +++ name +++ " mask: " +++ buf)
      | Some mask =>
          (* Autocorrect mask *)
          let (nonempty, mask) := Bitmap.bitmap_and cpumask mask size in
          if nonempty =? 0 then
            let val := Bitmap.bitmap_snprintf 4096 cpumask size in
            vzctl_err VZCTL_E_CPUMASK 0
                      ("Unable to set " +++ name +++ " value " +++ val
                       +++ ", supported range: " +++ buf)
          else
            let buf := Bitmap.bitmap_snprintf 4096 mask size in
            let cg_name := snprintf 64 ("cpuset." +++ name) in
            r <- cg_set_param (Some ctid) CG_CPUSET cg_name buf ;;
            if negb (r =? 0) then
              eno <- get_errno ;;
              vzctl_err VZCTL_E_CPUMASK eno ("Unable to set " +++ cg_name)
            else ret 0
      end.

Definition cg_env_set_cpumask (ctid : string) (cpumask size : Z) (buf : cbuf)
  : M Z :=
  cg_env_set_mask ctid "cpus" cpumask size buf.

Definition cg_env_set_nodemask (ctid : string) (nodemask size : Z) (buf : cbuf)
  : M Z :=
  cg_env_set_mask ctid "mems" nodemask size buf.

(** *** Freezer *)

(** The [while (1)] of [cg_set_freezer_state]; [buf] is the local
    [char buf[STR_SIZE]], kept from one poll to the next. *)
Fixpoint cg_set_freezer_state_poll (fuel : nat) (ctid state : string)
  (len : Z) (buf : cbuf) : M Z :=
  match fuel with
  | O => diverge
  | S fuel =>
      '(r, buf) <- cg_get_param (Some ctid) CG_FREEZER "freezer.state" buf STR_SIZE ;;
      if negb (r =? 0) then ret r
      else if strncmp (buf_str buf) state (Z.to_nat len) =? 0 then ret 0
      else
        ext (fun w => (tt, os_sleep 1 w)) ;;;
        cg_set_freezer_state_poll fuel ctid state len buf
  end.

Definition cg_set_freezer_state (fuel : nat) (ctid state : string) (buf : cbuf)
  : M Z :=
  r <- cg_set_param (Some ctid) CG_FREEZER "freezer.state" state ;;
  if negb (r =? 0) then ret r
  else cg_set_freezer_state_poll fuel ctid state (strlen state) buf.

Definition cg_freezer_cmd (fuel : nat) (ctid : string) (cmd : Z) (buf : cbuf)
  : M Z :=
  if cmd =? VZCTL_CMD_RESUME then
    logger 0 0 "	unfreeze" ;;;
    cg_set_freezer_state fuel ctid "THAWED" buf
  else if cmd =? VZCTL_CMD_SUSPEND then
    logger 0 0 "	freeze" ;;;
    cg_set_freezer_state fuel ctid "FROZEN" buf
  else vzctl_err (-1) 0 ("Unsupported freezer command " +++ fmt_d cmd).

(** *** Bind-mount namespace setup *)

Definition do_bindmount (src dst : string) (mnt_flags : mflag) : M Z :=
  a <- sys (os_access dst) ;;
  m <- (if is_err a then ext_errno (os_make_dir dst) else ret 0) ;;
  if negb (m =? 0) then
    eno <- get_errno ;; vzctl_err VZCTL_E_RESOURCE eno ("Can't create " +++ dst)
  else
    a <- sys (os_access src) ;;
    m <- (if is_err a then ext_errno (os_make_dir src) else ret 0) ;;
    if negb (m =? 0) then
      eno <- get_errno ;; vzctl_err VZCTL_E_RESOURCE eno ("Can't create " +++ src)
    else
      logger 5 0 ("bindmount " +++ src +++ " -> " +++ dst) ;;;
      r <- sys (os_mount (Some src) dst None mnt_flags) ;;
      match r with
      | Err e =>
          vzctl_err VZCTL_E_RESOURCE e
                    ("Can't bindmount " +++ src +++ " -> " +++ dst)
      | Ok _ => ret 0
      end.

(** The [while (1)] of [create_perctl_symlink] over the names between the
    commas. *)
Fixpoint create_perctl_symlink_loop (names : list string)
  (root path oldpath : string) : M Z :=
  match names with
  | [] => ret 0
  | name :: names =>
      let newpath := snprintf PATH_MAX (root +++ "/" +++ path +++ "/../" +++ name) in
      logger 10 0 ("Create symlink " +++ oldpath +++ " -> " +++ name) ;;;
      sys (os_unlink newpath) ;;;
      r <- sys (os_symlink oldpath newpath) ;;
      match r with
      | Err e =>
          if negb (e =? EEXIST) then
            vzctl_err (-1) e ("Cant create symlink " +++ path +++ " -> " +++ name)
          else create_perctl_symlink_loop names root path oldpath
      | Ok _ => create_perctl_symlink_loop names root path oldpath
      end
  end.

Definition create_perctl_symlink (root path : string) : M Z :=
  match after_last_slash path with
  | None => ret 0
  | Some p =>
      let buf := snprintf STR_SIZE p in
      let oldpath := snprintf STR_SIZE p in
      match strsep_all ","%char buf with
      | [] | [_] => ret 0                   (* no comma *)
      | names => create_perctl_symlink_loop names root path oldpath
      end
  end.

(** The [while (fgets(...))] of [get_cgroups] over what the calls of
    [fgets] store in [buf]: the value of [ret] and the list. *)
Fixpoint get_cgroups_loop (bufs head : list string) : M (Z * list string) :=
  match bufs with
  | [] => ret (0, head)
  | buf :: bufs =>
      let (tok, _) := scan_token (String.length buf) (skip_ws buf) in
      if String.eqb tok "" then get_cgroups_loop bufs head
      else if String.eqb (substring 0 1 tok) "#" then get_cgroups_loop bufs head
      else
        ok <- ext os_alloc ;;                 (* add_str_param *)
        if negb ok then ret (VZCTL_E_NOMEM, head)
        else get_cgroups_loop bufs (head ++ [tok])
  end.

Definition get_cgroups : M (Z * list string) :=
  fp <- sys os_proc_cgroups ;;
  match fp with
  | Err e =>
      rc <- vzctl_err VZCTL_E_SYSTEM e "Unable to open /proc/cgroups" ;;
      ret (rc, [])
  | Ok lines =>
      (* char buf[STR_SIZE]; with [fgets(buf, 1, fp)] nothing is ever
         read and the loop does not end *)
      if STR_SIZE <=? 1 then diverge
      else
        '(r, head) <- get_cgroups_loop (fgets_all STR_SIZE lines) [] ;;
        if negb (r =? 0) then ret (r, []) else ret (r, head)
  end.

(** The [for] of [cg_bindmount_cgroup]: the value of [ret] on leaving it
    (by its end, [break] or [goto err]) and [head]. *)
Fixpoint cg_bindmount_cgroup_for (n i : nat) (ve_root ctid : string)
  (cgroups head : list string) (rv : Z) : M (Z * list string) :=
  match n with
  | O => ret (rv, head)
  | S n =>
      name <- ctl_subsys i ;;
      '(rv, ctl) <- cg_get_ctl name ;;
      let ctl := match ctl with Some c => c | None => i end in
      c <- get_ctl ctl ;;
      if rv =? -1 then ret (rv, head)
      else if is_prvt c then
        cg_bindmount_cgroup_for n (S i) ve_root ctid cgroups head rv
      else if (negb (cg_is_systemd (subsys c)) && negb (find_str cgroups (subsys c)))%bool then
        cg_bindmount_cgroup_for n (S i) ve_root ctid cgroups head rv
      else
        match mount_path c with
        | None =>
            (* find_str(head, NULL) compares with a null pointer as soon as
               the list has an entry; mount() on a null target is EFAULT *)
            match head with
            | _ :: _ => diverge
            | [] =>
                set_errno EFAULT ;;;
                rc <- vzctl_err VZCTL_E_SYSTEM EFAULT
                        "Remounting cgroup (null) as slaves failed" ;;
                ret (rc, head)
            end
        | Some mnt =>
            if find_str head mnt then
              cg_bindmount_cgroup_for n (S i) ve_root ctid cgroups head rv
            else
              r <- sys (os_mount None mnt None MS_SLAVE) ;;
              match r with
              | Err e =>
                  rc <- vzctl_err VZCTL_E_SYSTEM e
                          ("Remounting cgroup " +++ mnt +++ " as slaves failed") ;;
                  ret (rc, head)
              | Ok _ =>
                  ok <- ext os_alloc ;;       (* add_str_param *)
                  if negb ok then ret (VZCTL_E_NOMEM, head)
                  else
                    let head := head ++ [mnt] in
                    let d := snprintf PATH_MAX (ve_root +++ mnt) in
                    s <- get_cgroup_name ctid ctl PATH_MAX ;;
                    let flags := if negb (cg_is_systemd (subsys c))
                                 then MS_BIND_PRIVATE else MS_BIND in
                    rv <- do_bindmount s d flags ;;
                    if negb (rv =? 0) then ret (rv, head)
                    else
                      rv <- create_perctl_symlink ve_root mnt ;;
                      if negb (rv =? 0) then ret (rv, head)
                      else cg_bindmount_cgroup_for n (S i) ve_root ctid
                                                   cgroups head rv
              end
        end
  end.

(** [list_for_each(it, head, list) umount(ve_root/it)] *)
Fixpoint umount_each (ve_root : string) (head : list string) : M unit :=
  match head with
  | [] => ret tt
  | it :: head =>
      sys (os_umount (snprintf PATH_MAX (ve_root +++ "/" +++ it))) ;;;
      umount_each ve_root head
  end.

(** [h] gives [ve_root] and the container id [EID(h)]; [head] is the
    caller's list.  The result is the return value and [head]. *)
Definition cg_bindmount_cgroup (ve_root ctid : string) (head : list string)
  : M (Z * list string) :=
  let s := snprintf PATH_MAX (ve_root +++ "/sys") in
  a <- sys (os_access s) ;;
  m <- (if is_err a then ext_errno (os_make_dir s) else ret 0) ;;
  if negb (m =? 0) then
    eno <- get_errno ;;
    rc <- vzctl_err VZCTL_E_CREATE_DIR eno ("Can't create " +++ s) ;;
    ret (rc, head)
  else
    r <- sys (os_mount None s (Some "sysfs") MS_NONE) ;;
    if is_err r then
      eno <- get_errno ;;
      rc <- vzctl_err VZCTL_E_RESOURCE eno ("Can't pre-mount sysfs in " +++ s) ;;
      ret (rc, head)
    else
      let s := snprintf PATH_MAX (ve_root +++ "/sys/fs/cgroup") in
      a <- sys (os_access s) ;;
      m <- (if is_err a then ext_errno (os_make_dir s) else ret 0) ;;
      if negb (m =? 0) then
        eno <- get_errno ;;
        rc <- vzctl_err VZCTL_E_RESOURCE eno ("Can't pre-mount tmpfs in " +++ s) ;;
        ret (rc, head)
      else
        r <- sys (os_mount None s (Some "tmpfs") MS_NONE) ;;
        if is_err r then
          eno <- get_errno ;;
          rc <- vzctl_err VZCTL_E_RESOURCE eno ("Can't pre-mount tmpfs in " +++ s) ;;
          ret (rc, head)
        else
          '(rv, cgroups) <- get_cgroups ;;
          if negb (rv =? 0) then ret (rv, head)
          else
            '(rv, head) <- cg_bindmount_cgroup_for NCTL 0 ve_root ctid cgroups head rv ;;
            (* err: *)
            (if negb (rv =? 0) then
               umount_each ve_root head ;;;
               sys (os_umount (snprintf PATH_MAX (ve_root +++ "/sys/fs/cgroup"))) ;;;
               sys (os_umount (snprintf PATH_MAX (ve_root +++ "/sys"))) ;;;
               ret tt
             else ret tt) ;;;
            ret (rv, head).

Definition bindmount_env_cgroup (ve_root ctid : string) : M Z :=
  '(rv, _) <- cg_bindmount_cgroup ve_root ctid [] ;;
  ret rv.

(** *** Further functions of cgroup.c *)

Definition cg_set_ull (ctid : option string) (subsys name : string) (value : Z)
  : M Z :=
  cg_set_param ctid subsys name (snprintf 32 (fmt_lu value)).

(** The result and [*value]; [data] is the local [char data[32]].
    [*value] is stored whenever the parameter was read. *)
Definition cg_get_ull (ctid : option string) (subsys name : string)
  (data : cbuf) : M (Z * option Z) :=
  '(r, data) <- cg_get_param ctid subsys name data 32 ;;
  if negb (r =? 0) then ret (r, None)
  else
    set_errno 0 ;;;
    let '(value, tail, erange) := strtoull (buf_str data) in
    (if erange then set_errno ERANGE else ret tt) ;;;
    if (negb (String.eqb tail "") || erange)%bool
    then ret (-1, Some value)
    else ret (0, Some value).

(** The [for] of [cg_attach_task] from index [i] with [n] entries to go.
    [cg_subsys_except] can be [NULL]. *)
Fixpoint cg_attach_task_for (n i : nat) (ctid : string) (pid : Z)
  (cg_subsys_except : option string) : M Z :=
  match n with
  | O => ret 0
  | S n =>
      name <- ctl_subsys i ;;
      if match cg_subsys_except with
         | Some e => String.eqb name e
         | None => false
         end
      then cg_attach_task_for n (S i) ctid pid cg_subsys_except
      else
        r <- cg_set_ul (Some ctid) name "tasks" pid ;;
        if r =? -1 then ret (-1)
        else cg_attach_task_for n (S i) ctid pid cg_subsys_except   (* Skip non exists *)
  end.

Definition cg_attach_task (ctid : string) (pid : Z)
  (cg_subsys_except : option string) : M Z :=
  cg_attach_task_for NCTL 0 ctid pid cg_subsys_except.

(** [cpuunits] is an [unsigned int]: the product wraps at 32 bits. *)
Definition cg_env_set_cpuunits (ctid : string) (cpuunits : Z) : M Z :=
  cg_set_ul (Some ctid) CG_CPU "cpu.shares"
            (((cpuunits mod UINT_MOD) * 1024) mod UINT_MOD / 1000).

(** [below] is the byte under the local [char buf[64] = ""]. *)
Definition cg_env_get_ve_state (ctid : string) (below : ascii) : M Z :=
  let buf := mkBuf below (repeat NUL 64) in
  '(r, path) <- cg_get_path (Some ctid) CG_VE "ve.state" PATH_MAX ;;
  if negb (r =? 0) then ret r
  else
    a <- sys (os_access path) ;;
    if is_err a then ret 0
    else
      '(_, buf) <- cg_read path buf 64 ;;
      let buf := buf_str buf in
      if (String.eqb buf "STOPPED" || String.eqb buf "STOPPING")%bool
      then ret 0 else ret 1.

(** [id] is the local [char id[12]]; [sprintf] does not know its size. *)
Definition cg_set_veid (ctid : string) (veid : Z) : M Z :=
  '(r, path) <- cg_get_path (Some ctid) CG_VE "ve.veid" PATH_MAX ;;
  if negb (r =? 0) then ret r
  else
    a <- sys (os_access path) ;;
    if is_err a then ret 0
    else
      let id := fmt_d veid in
      if 12 <=? strlen id then diverge        (* written past id[12] *)
      else write_data path id.


(** [p += snprintf(p, ep - p, ...)] on the buffer [out] of [size] bytes:
    [p] is the offset of the write, [text] what the format expands to.
    The result is the string in the buffer and the new offset.  With
    [ep - p = 0] nothing is written; a negative [ep - p] becomes a huge
    [size_t], and the write is not bounded by the buffer. *)
Definition append_at (out : string) (p size : Z) (text : string)
  : option (string * Z) :=
  if size - p <? 0 then None
  else if size - p =? 0 then Some (out, p + strlen text)
  else Some (substring 0 (Z.to_nat p) out +++ snprintf (size - p) text,
             p + strlen text).

(** What [" %s:%s"] expands to for the controller [c] at index [ctl]:
    name and directory of the container, or, without a [ctid], mount
    path and name. *)
Definition mount_map_entry (ctid : option string) (ctl : nat) (c : cg_ctl)
  : M string :=
  match ctid with
  | Some ctid =>
      path <- get_cgroup_name ctid ctl PATH_MAX ;;
      ret (" " +++ subsys c +++ ":" +++ path)
  | None => ret (" " +++ mp_str c +++ ":" +++ subsys c)
  end.

(** The [for] of [cg_get_cgroup_env_param] from index [i] with [n]
    entries to go; the result is the return value and the string in
    [out]. *)
Fixpoint cg_get_cgroup_env_param_for (n i : nat) (ctid : option string)
  (out : string) (p size : Z) : M (Z * string) :=
  match n with
  | O => ret (0, out)
  | S n =>
      name <- ctl_subsys i ;;
      '(r, ctl) <- cg_get_ctl name ;;
      if r =? -1 then ret (1, out)
      else
        let ctl := match ctl with Some c => c | None => i end in
        c <- get_ctl ctl ;;
        if is_prvt c then cg_get_cgroup_env_param_for n (S i) ctid out p size
        else if negb (r =? 0)                 (* Skip non exists *)
        then cg_get_cgroup_env_param_for n (S i) ctid out p size
        else
          text <- mount_map_entry ctid ctl c ;;
          match append_at out p size text with
          | None => diverge
          | Some (out, p) =>
              if p >? size then
                rc <- vzctl_err VZCTL_E_INVAL 0 "cg_get_cgroup_env_param" ;;
                ret (rc, out)
              else cg_get_cgroup_env_param_for n (S i) ctid out p size
          end
  end.

Definition cg_get_cgroup_env_param (ctid : option string) (out : string)
  (size : Z) : M (Z * string) :=
  match append_at out 0 size "VE_CGROUP_MOUNT_MAP=" with
  | None => diverge
  | Some (out, p) => cg_get_cgroup_env_param_for NCTL 0 ctid out p size
  end.


(** The mount map itself, as [cg_get_cgroup_env_param] would print it
    into a buffer without an end: the entries of the controllers from
    index [i] on, appended to [text], with 1 when a controller ends the
    loop and 0 otherwise. *)
Fixpoint mount_map_for (n i : nat) (ctid : option string) (text : string)
  : M (Z * string) :=
  match n with
  | O => ret (0, text)
  | S n =>
      name <- ctl_subsys i ;;
      '(r, ctl) <- cg_get_ctl name ;;
      if r =? -1 then ret (1, text)
      else
        let ctl := match ctl with Some c => c | None => i end in
        c <- get_ctl ctl ;;
        if is_prvt c then mount_map_for n (S i) ctid text
        else if negb (r =? 0) then mount_map_for n (S i) ctid text
        else
          entry <- mount_map_entry ctid ctl c ;;
          mount_map_for n (S i) ctid (text +++ entry)
  end.

Definition mount_map (ctid : option string) : M (Z * string) :=
  mount_map_for NCTL 0 ctid "VE_CGROUP_MOUNT_MAP=".

(** *** Vocabulary of the statements

    The claims speak of what the kernel answers while a function runs: "a
    directory that stays busy", "a state that has not converged yet", "a
    container that was never created".  These are predicates on a start
    state that follow the kernel through the same calls. *)

Definition with_os (s : state W) (w : W) (e : Z) : state W :=
  mkState w e (ctl_map s) (slice s) (log s).

(** A line that [fgets] stores whole: with its newline it has fewer than
    [size] characters. *)
Definition short_line (size : Z) (line : string) : bool :=
  strlen line + 1 <? size.

(** The test of [get_mount_path] on what [fgets] stored: a cgroup line
    whose options hold the name looked for. *)
Definition qualifies (subsys buf : string) : bool :=
  let '(n, _, ops) := sscanf_mounts buf in
  ((n =? 2)
   && has_substr ops (if negb (cg_is_systemd subsys) then subsys
                      else "name=systemd"))%bool.

(** The spec's retry schedule: 10ms, doubled at each attempt, at most
    500ms. *)
Definition backoff (i : nat) : Z := Z.min (10000 * 2 ^ Z.of_nat i) 500000.

(** The time slept after [k] refused attempts. *)
Fixpoint cumulative (k : nat) : Z :=
  match k with
  | O => 0
  | S k => cumulative k + backoff k
  end.

(** The kernel after [unlinkat] answered EBUSY [k] times in a row, the
    caller sleeping [backoff i], [backoff (i+1)], ... in between. *)
Fixpoint refused (k i : nat) (fd : Z) (name : string) (w : W) : option W :=
  match k with
  | O => Some w
  | S k =>
      match os_unlinkat fd name w with
      | (Err e, w1) =>
          if e =? EBUSY
          then refused k (S i) fd name (os_usleep (backoff i) w1)
          else None
      | (Ok _, _) => None
      end
  end.

(** [errno] after [k] refusals. *)
Definition errno_after (k : nat) (s : St) : Z :=
  match k with O => errno s | S _ => EBUSY end.

(** The state after [n] polls of the freezer that each read a state of
    which [state] is not a prefix, with one second of sleep after each. *)
Fixpoint unconverged (n : nat) (ctid state : string) (buf : cbuf) (s : St)
  : option (cbuf * St) :=
  match n with
  | O => Some (buf, s)
  | S n =>
      match cg_get_param (Some ctid) CG_FREEZER "freezer.state" buf STR_SIZE s with
      | Some ((r, buf), s1) =>
          if ((r =? 0) && negb (prefix state (buf_str buf)))%bool
          then unconverged n ctid state buf
                 (with_os s1 (os_sleep 1 (os s1)) (errno s1))
          else None
      | None => None
      end
  end.

(** [cg_destroy] on each controller of a list, in its order. *)
Fixpoint destroy_each (fuel : nat) (st0 : stat) (ctid : string) (l : list nat)
  : M unit :=
  match l with
  | [] => ret tt
  | j :: l => cg_destroy fuel st0 ctid j ;;; destroy_each fuel st0 ctid l
  end.

(** What the spec asks of [destroy] for one controller: resolve it, skip
    it when it does not resolve, else remove the directory. *)
Definition destroy_step (fuel : nat) (st0 : stat) (ctid : string) (i : nat)
  : M Z :=
  name <- ctl_subsys i ;;
  '(rc, ctl) <- cg_get_ctl name ;;
  if negb (rc =? 0) then ret 0
  else cg_destroy fuel st0 ctid (match ctl with Some c => c | None => i end).

(** [destroy_step] on every controller of a list, whatever the earlier
    ones returned; the results in order. *)
Fixpoint destroy_all (fuel : nat) (st0 : stat) (ctid : string) (l : list nat)
  : M (list Z) :=
  match l with
  | [] => ret []
  | i :: l =>
      r <- destroy_step fuel st0 ctid i ;;
      rs <- destroy_all fuel st0 ctid l ;;
      ret (r :: rs)
  end.

(** No controller among [i .. i+n-1] has a directory for [ctid]: where the
    mount resolves, opening the directory answers ENOENT. *)
Fixpoint never_created (n i : nat) (ctid : string) (s : St) : bool :=
  match n with
  | O => true
  | S n =>
      match (name <- ctl_subsys i ;; cg_get_ctl name) s with
      | Some ((rc, ctl), s1) =>
          if negb (rc =? 0) then never_created n (S i) ctid s1
          else
            let c := match ctl with Some c => c | None => i end in
            match mount_path (ctl_at s1 c) with
            | None => never_created n (S i) ctid s1
            | Some _ =>
                match get_cgroup_name ctid c PATH_MAX s1 with
                | Some (path, s2) =>
                    match os_open path O_DIRECTORY (os s2) with
                    | (Err e, w) =>
                        ((e =? ENOENT)
                         && never_created n (S i) ctid (with_os s2 w e))%bool
                    | (Ok _, _) => false
                    end
                | None => false
                end
            end
      | None => false
      end
  end.

End Model.

(** ** A kernel to run the model on

    A small file system with descriptors, a mount stack, a clock that the
    sleeps advance, and scripted failures: a [fault] makes the named call
    on the named object fail with its errno the next [f_times] times.
    This is how a test would drive cgroup.c; it gives the general theorems
    below concrete instances. *)

Module Sim.

#[local] Set Warnings "-register-all".

Inductive node : Type :=
| File (kernel_driven : bool) (data : list string)
    (* the texts successive reads return; the last one stays.  A write
       replaces them unless the kernel drives the file. *)
| Link (target : string)
| Dir (dev ino : Z) (kids : list (string * node)).

Record fault : Type := mkFault {
  f_call : string;
  f_arg : string;
  f_errno : Z;
  f_times : nat
}.

Record world : Type := mkWorld {
  root : node;
  fds : list (Z * list string);       (* descriptor, path of its object *)
  next_fd : Z;
  next_ino : Z;
  faults : list fault;
  clock : Z;                          (* microseconds slept *)
  mounts : list (list string * string); (* mount stack: target, what *)
  proc_mounts : res (list string);
  proc_cgroups : res (list string);
  global_slice : option string;       (* VE_CGROUP_SLICE *)
  allocs : option nat;                (* allocations before one fails *)
  trace : list (string * string)      (* the calls that changed something *)
}.

Definition with_root (w : world) (r : node) : world :=
  mkWorld r (fds w) (next_fd w) (next_ino w) (faults w) (clock w) (mounts w)
          (proc_mounts w) (proc_cgroups w) (global_slice w) (allocs w) (trace w).

Definition with_fds (w : world) (f : list (Z * list string)) (n : Z) : world :=
  mkWorld (root w) f n (next_ino w) (faults w) (clock w) (mounts w)
          (proc_mounts w) (proc_cgroups w) (global_slice w) (allocs w) (trace w).

Definition with_faults (w : world) (f : list fault) : world :=
  mkWorld (root w) (fds w) (next_fd w) (next_ino w) f (clock w) (mounts w)
          (proc_mounts w) (proc_cgroups w) (global_slice w) (allocs w) (trace w).

Definition with_clock (w : world) (c : Z) : world :=
  mkWorld (root w) (fds w) (next_fd w) (next_ino w) (faults w) c (mounts w)
          (proc_mounts w) (proc_cgroups w) (global_slice w) (allocs w) (trace w).

Definition with_mounts (w : world) (m : list (list string * string)) : world :=
  mkWorld (root w) (fds w) (next_fd w) (next_ino w) (faults w) (clock w) m
          (proc_mounts w) (proc_cgroups w) (global_slice w) (allocs w) (trace w).

Definition with_ino (w : world) (i : Z) : world :=
  mkWorld (root w) (fds w) (next_fd w) i (faults w) (clock w) (mounts w)
          (proc_mounts w) (proc_cgroups w) (global_slice w) (allocs w) (trace w).

Definition with_allocs (w : world) (a : option nat) : world :=
  mkWorld (root w) (fds w) (next_fd w) (next_ino w) (faults w) (clock w) (mounts w)
          (proc_mounts w) (proc_cgroups w) (global_slice w) a (trace w).

Definition traced (w : world) (call arg : string) : world :=
  mkWorld (root w) (fds w) (next_fd w) (next_ino w) (faults w) (clock w) (mounts w)
          (proc_mounts w) (proc_cgroups w) (global_slice w) (allocs w)
          (trace w ++ [(call, arg)]).

(** *** Paths *)

Definition push_comp (acc : list string) (c : string) : list string :=
  if (String.eqb c "" || String.eqb c ".")%bool then acc
  else if String.eqb c ".." then removelast acc
  else acc ++ [c].

Definition resolve (base : list string) (path : string) : list string :=
  fold_left push_comp (strsep_all "/"%char path) base.

Definition split_path (path : string) : list string := resolve [] path.

Fixpoint assoc (k : string) (l : list (string * node)) : option node :=
  match l with
  | [] => None
  | (k', v) :: r => if String.eqb k' k then Some v else assoc k r
  end.

Fixpoint lookup (path : list string) (n : node) : option node :=
  match path with
  | [] => Some n
  | x :: r =>
      match n with
      | Dir _ _ kids =>
          match assoc x kids with
          | Some c => lookup r c
          | None => None
          end
      | _ => None
      end
  end.

Fixpoint alter_kids (k : string) (f : option node -> option node)
  (l : list (string * node)) : list (string * node) :=
  match l with
  | [] => match f None with Some n => [(k, n)] | None => [] end
  | (k', v) :: r =>
      if String.eqb k' k
      then match f (Some v) with Some n => (k', n) :: r | None => r end
      else (k', v) :: alter_kids k f r
  end.

(** Apply [f] to the entry at [path] ([None]: no entry; the result
    [None] removes it), when its parent is a directory. *)
Fixpoint alter (path : list string) (f : option node -> option node)
  (n : node) : node :=
  match path, n with
  | [x], Dir d i kids => Dir d i (alter_kids x f kids)
  | x :: r, Dir d i kids =>
      Dir d i (alter_kids x (fun o => match o with
                                      | Some c => Some (alter r f c)
                                      | None => None
                                      end) kids)
  | _, _ => n
  end.

Definition stat_of (n : node) : stat :=
  match n with
  | Dir d i _ => mkStat d i true
  | _ => mkStat 0 0 false
  end.

(** *** Scripted failures *)

Fixpoint take_fault (call arg : string) (fs : list fault)
  : option (Z * list fault) :=
  match fs with
  | [] => None
  | f :: r =>
      if (String.eqb (f_call f) call && String.eqb (f_arg f) arg)%bool then
        match f_times f with
        | O => match take_fault call arg r with
               | Some (e, r') => Some (e, f :: r')
               | None => None
               end
        | S n => Some (f_errno f, mkFault (f_call f) (f_arg f) (f_errno f) n :: r)
        end
      else match take_fault call arg r with
           | Some (e, r') => Some (e, f :: r')
           | None => None
           end
  end.

(** Run [k] unless a fault is due for this call. *)
Definition faulty {A} (call arg : string) (w : world)
  (k : world -> res A * world) : res A * world :=
  match take_fault call arg (faults w) with
  | Some (e, fs) => (Err e, with_faults w fs)
  | None => k w
  end.

Fixpoint fd_path (fd : Z) (l : list (Z * list string)) : option (list string) :=
  match l with
  | [] => None
  | (k, p) :: r => if k =? fd then Some p else fd_path fd r
  end.

Definition fd_drop (fd : Z) (l : list (Z * list string)) : list (Z * list string) :=
  filter (fun e => negb (fst e =? fd)) l.

Definition ENOTEMPTY : Z := 39.
Definition EISDIR : Z := 21.

(** *** The calls *)

Definition open_node (p : list string) (dir_only : bool) (w : world)
  : res Z * world :=
  match lookup p (root w) with
  | None => (Err ENOENT, w)
  | Some n =>
      if (dir_only && negb (st_isdir (stat_of n)))%bool then (Err ENOTDIR, w)
      else (Ok (next_fd w), with_fds w ((next_fd w, p) :: fds w) (next_fd w + 1))
  end.

Definition s_open (path : string) (fl : oflag) (w : world) : res Z * world :=
  faulty "open" path w
    (open_node (split_path path)
               (match fl with O_DIRECTORY => true | _ => false end)).

Definition s_openat (fd : Z) (name : string) (w : world) : res Z * world :=
  faulty "openat" name w (fun w =>
    match fd_path fd (fds w) with
    | None => (Err EBADF, w)
    | Some p => open_node (resolve p name) true w
    end).

Definition s_close (fd : Z) (w : world) : res unit * world :=
  match fd_path fd (fds w) with
  | None => (Err EBADF, w)
  | Some _ => (Ok tt, with_fds w (fd_drop fd (fds w)) (next_fd w))
  end.

Definition s_read (fd count : Z) (w : world) : res (list ascii) * world :=
  match fd_path fd (fds w) with
  | None => (Err EBADF, w)
  | Some p =>
      faulty "read" (match rev p with x :: _ => x | [] => "" end) w (fun w =>
        match lookup p (root w) with
        | Some (File kd (d :: rest)) =>
            (Ok (firstn (Z.to_nat count) (list_ascii_of_string d)),
             match rest with
             | [] => w
             | _ => with_root w (alter p (fun _ => Some (File kd rest)) (root w))
             end)
        | Some (File _ []) => (Ok [], w)
        | Some _ => (Err EISDIR, w)
        | None => (Err ENOENT, w)
        end)
  end.

Definition s_write (fd : Z) (data : string) (len : Z) (w : world)
  : res Z * world :=
  match fd_path fd (fds w) with
  | None => (Err EBADF, w)
  | Some p =>
      let name := match rev p with x :: _ => x | [] => "" end in
      faulty "write" name w (fun w =>
        match lookup p (root w) with
        | Some (File kd old) =>
            let text := substring 0 (Z.to_nat len) data in
            (Ok len,
             traced (if kd then w
                     else with_root w
                            (alter p (fun _ => Some (File kd [text +++ String LF ""]))
                                   (root w)))
                    "write" (name +++ "=" +++ text))
        | Some _ => (Err EISDIR, w)
        | None => (Err ENOENT, w)
        end)
  end.

Definition s_fstat (fd : Z) (w : world) : res stat * world :=
  match fd_path fd (fds w) with
  | None => (Err EBADF, w)
  | Some p =>
      match lookup p (root w) with
      | Some n => (Ok (stat_of n), w)
      | None => (Err ENOENT, w)
      end
  end.

Definition s_fstatat (fd : Z) (name : string) (w : world) : res stat * world :=
  faulty "fstatat" name w (fun w =>
    match fd_path fd (fds w) with
    | None => (Err EBADF, w)
    | Some p =>
        match lookup (resolve p name) (root w) with
        | Some n => (Ok (stat_of n), w)
        | None => (Err ENOENT, w)
        end
    end).

Definition s_readdir (fd : Z) (w : world) : res (list string) * world :=
  faulty "readdir" "" w (fun w =>
    match fd_path fd (fds w) with
    | None => (Err EBADF, w)
    | Some p =>
        match lookup p (root w) with
        | Some (Dir _ _ kids) => (Ok ("." :: ".." :: map fst kids), w)
        | Some _ => (Err ENOTDIR, w)
        | None => (Err ENOENT, w)
        end
    end).

Definition is_dir (n : node) : bool :=
  match n with Dir _ _ _ => true | _ => false end.

(** As in cgroupfs, a directory can go once it has no subdirectory; its
    control files go with it. *)
Definition remove_dir (p : list string) (shown : string) (w : world)
  : res unit * world :=
  match lookup p (root w) with
  | Some (Dir _ _ kids) =>
      if existsb (fun e => is_dir (snd e)) kids then (Err ENOTEMPTY, w)
      else (Ok tt, traced (with_root w (alter p (fun _ => None) (root w)))
                          "rmdir" shown)
  | Some _ => (Err ENOTDIR, w)
  | None => (Err ENOENT, w)
  end.

Definition s_unlinkat (fd : Z) (name : string) (w : world) : res unit * world :=
  faulty "unlinkat" name w (fun w =>
    match fd_path fd (fds w) with
    | None => (Err EBADF, w)
    | Some p => remove_dir (resolve p name) name w
    end).

Definition s_rmdir (path : string) (w : world) : res unit * world :=
  faulty "rmdir" path w (remove_dir (split_path path) path).

Definition s_usleep (usec : Z) (w : world) : world := with_clock w (clock w + usec).

Definition s_sleep (sec : Z) (w : world) : world :=
  with_clock w (clock w + sec * 1000000).

Definition s_access (path : string) (w : world) : res unit * world :=
  match lookup (split_path path) (root w) with
  | Some _ => (Ok tt, w)
  | None => (Err ENOENT, w)
  end.

Definition s_mount (src : option string) (target : string)
  (fstype : option string) (fl : mflag) (w : world) : res unit * world :=
  faulty "mount" target w (fun w =>
    match lookup (split_path target) (root w) with
    | None => (Err ENOENT, w)
    | Some _ =>
        match fl with
        | MS_SLAVE => (Ok tt, traced w "remount-slave" target)
        | _ =>
            let what := match fstype, src with
                        | Some t, _ => t
                        | None, Some s => "bind:" +++ s
                        | None, None => ""
                        end in
            (Ok tt, traced (with_mounts w ((split_path target, what) :: mounts w))
                           "mount" target)
        end
    end).

Fixpoint drop_mount (p : list string) (l : list (list string * string))
  : option (list (list string * string)) :=
  match l with
  | [] => None
  | (t, x) :: r =>
      if list_eq_dec string_dec t p then Some r
      else match drop_mount p r with
           | Some r' => Some ((t, x) :: r')
           | None => None
           end
  end.

Definition s_umount (target : string) (w : world) : res unit * world :=
  faulty "umount" target w (fun w =>
    match drop_mount (split_path target) (mounts w) with
    | Some m => (Ok tt, traced (with_mounts w m) "umount" target)
    | None => (Err EINVAL, traced w "umount-failed" target)
    end).

Definition s_unlink (path : string) (w : world) : res unit * world :=
  match lookup (split_path path) (root w) with
  | Some (Dir _ _ _) => (Err EISDIR, w)
  | Some _ => (Ok tt, with_root w (alter (split_path path) (fun _ => None) (root w)))
  | None => (Err ENOENT, w)
  end.

Definition s_symlink (target linkpath : string) (w : world) : res unit * world :=
  faulty "symlink" linkpath w (fun w =>
    match lookup (split_path linkpath) (root w) with
    | Some _ => (Err EEXIST, w)
    | None =>
        match lookup (removelast (split_path linkpath)) (root w) with
        | Some (Dir _ _ _) =>
            (Ok tt, traced (with_root w (alter (split_path linkpath)
                                               (fun _ => Some (Link target)) (root w)))
                           "symlink" linkpath)
        | _ => (Err ENOENT, w)
        end
    end).

(** What [make_dir] returns when it fails: VZCTL_E_CREATE_DIR. *)
Definition E_CREATE_DIR : Z := 49.

(** [make_dir(path, 1)]: create the directories of [path] that are
    missing, outermost first.  A fault on [path] fails the last
    [mkdir] with the errno of the fault. *)
Fixpoint mkdirs (done todo : list string) (w : world) : Z * world :=
  match todo with
  | [] => (0, w)
  | x :: r =>
      let p := done ++ [x] in
      match lookup p (root w) with
      | Some (Dir _ _ _) => mkdirs p r w
      | Some _ => (1, w)
      | None =>
          match lookup done (root w) with
          | Some (Dir d _ _) =>
              mkdirs p r
                (with_ino (with_root w (alter p (fun _ => Some (Dir d (next_ino w) []))
                                              (root w)))
                          (next_ino w + 1))
          | _ => (1, w)
          end
      end
  end.

Definition s_make_dir (path : string) (w : world) : Z * option Z * world :=
  match take_fault "make_dir" path (faults w) with
  | Some (e, fs) =>
      let (_, w') := mkdirs [] (removelast (split_path path)) (with_faults w fs) in
      (E_CREATE_DIR, Some e, w')
  | None =>
      let (r, w') := mkdirs [] (split_path path) w in
      if r =? 0 then (0, None, traced w' "make_dir" path)
      else (E_CREATE_DIR, Some ENOTDIR, w')
  end.

Definition s_alloc (w : world) : bool * world :=
  match allocs w with
  | None => (true, w)
  | Some O => (false, w)
  | Some (S n) => (true, with_allocs w (Some n))
  end.

#[global] Instance kernel : Kernel world := {
  os_open := s_open;
  os_openat := s_openat;
  os_close := s_close;
  os_read := s_read;
  os_write := s_write;
  os_fstat := s_fstat;
  os_fstatat := s_fstatat;
  os_readdir := s_readdir;
  os_unlinkat := s_unlinkat;
  os_rmdir := s_rmdir;
  os_usleep := s_usleep;
  os_sleep := s_sleep;
  os_access := s_access;
  os_mount := s_mount;
  os_umount := s_umount;
  os_unlink := s_unlink;
  os_symlink := s_symlink;
  os_proc_mounts := fun w => (proc_mounts w, w);
  os_proc_cgroups := fun w => (proc_cgroups w, w);
  os_make_dir := s_make_dir;
  os_get_global_param := fun _ w => (global_slice w, w);
  os_alloc := s_alloc
}.

End Sim.

(** ** Sample hosts and containers *)

Module Samples.
Import Sim.

#[global] Instance consts : Consts := {|
  VZCTL_E_SYSTEM := 3;
  VZCTL_E_NOMEM := 4;
  VZCTL_E_RESOURCE := 6;
  VZCTL_E_INVAL := 21;
  VZCTL_E_CREATE_DIR := 49;
  VZCTL_E_CPUMASK := 129;
  STR_SIZE := 512;
  VZCTL_CMD_RESUME := 1;
  VZCTL_CMD_SUSPEND := 2;
  SYSTEMD_CTID_SCOPE := fun ctid => "machine.slice/" +++ ctid +++ ".scope";
  VZCTL_E_SYSTEM_nz := ltac:(discriminate);
  VZCTL_E_NOMEM_nz := ltac:(discriminate);
  VZCTL_E_RESOURCE_nz := ltac:(discriminate);
  VZCTL_E_CREATE_DIR_nz := ltac:(discriminate);
  VZCTL_E_CPUMASK_nz := ltac:(discriminate)
|}.

Definition nl (s : string) : string := s +++ String LF "".

(** The cgroup directory of container 101 under one controller. *)
Definition ct (dev : Z) (files : list (string * node)) : list (string * node) :=
  [("machine.slice", Dir dev 2 [("101", Dir dev 3 files)])].

(** A host with six cgroup mounts, each a file system of its own, and
    container 101 created under each.  The machine slice may use cpus
    1-3. *)
Definition host_tree : node :=
  Dir 1 2
    [("sys", Dir 1 3 [("fs", Dir 1 4 [("cgroup", Dir 1 5
       [("cpu,cpuacct", Dir 11 1 (ct 11 [("cpu.rate", File false [nl "0"])]));
        ("cpuset", Dir 12 1
           [("machine.slice",
             Dir 12 2 [("cpuset.cpus", File true [nl "1-3"]);
                       ("cpuset.mems", File true [nl "0"]);
                       ("101", Dir 12 3 [("cpuset.cpus", File false [nl ""]);
                                         ("cpuset.mems", File false [nl ""])])])]);
        ("memory", Dir 13 1 (ct 13 []));
        ("devices", Dir 14 1 (ct 14 []));
        ("freezer", Dir 15 1 (ct 15 [("freezer.state", File true [nl "THAWED"])]));
        ("systemd", Dir 16 1 [("machine.slice", Dir 16 2 [("101.scope", Dir 16 3 [])])])])])]);
     ("vz", Dir 1 6 [("root", Dir 1 7 [("101", Dir 1 8 []); ("102", Dir 1 9 [])])])].

Definition host_mounts : list string :=
  ["sysfs /sys sysfs rw,nosuid,nodev,noexec,relatime 0 0";
   "tmpfs /sys/fs/cgroup tmpfs ro,nosuid,nodev,noexec,mode=755 0 0";
   "cgroup /sys/fs/cgroup/systemd cgroup rw,nosuid,nodev,noexec,relatime,xattr,name=systemd 0 0";
   "cgroup /sys/fs/cgroup/cpu,cpuacct cgroup rw,nosuid,nodev,noexec,relatime,cpu,cpuacct 0 0";
   "cgroup /sys/fs/cgroup/cpuset cgroup rw,nosuid,nodev,noexec,relatime,cpuset 0 0";
   "cgroup /sys/fs/cgroup/memory cgroup rw,nosuid,nodev,noexec,relatime,memory 0 0";
   "cgroup /sys/fs/cgroup/devices cgroup rw,nosuid,nodev,noexec,relatime,devices 0 0";
   "cgroup /sys/fs/cgroup/freezer cgroup rw,nosuid,nodev,noexec,relatime,freezer 0 0"].

Definition host_cgroups : list string :=
  ["#subsys_name	hierarchy	num_cgroups	enabled";
   "cpuset	2	1	1";
   "cpu	3	1	1";
   "cpuacct	3	1	1";
   "memory	4	1	1";
   "devices	5	1	1";
   "freezer	6	1	1"].

(** The host with its files replaced by [tree] and the given faults. *)
Definition world_of (tree : node) (fs : list fault) : world :=
  mkWorld tree [] 3 100 fs 0 [] (Ok host_mounts) (Ok host_cgroups) None None [].

Definition host (fs : list fault) : world := world_of host_tree fs.

Definition start (w : world) : state world := init_state w.

(** What an uninitialised [struct stat] or [char] array holds. *)
Definition junk_stat : stat := mkStat 0 0 false.
Definition junk_buf (n : nat) : cbuf := mkBuf "x"%char (repeat "x"%char n).

Definition cg (ctl ctid : string) : string :=
  "/sys/fs/cgroup/" +++ ctl +++ "/machine.slice/" +++ ctid.

(** Is there a directory at [path]? *)
Definition has_dir (path : string) (w : world) : bool :=
  match lookup (split_path path) (root w) with
  | Some (Dir _ _ _) => true
  | _ => false
  end.

(** *** Parameter read: an empty control file *)

Definition empty_file_world : world :=
  world_of (Dir 1 2 [("empty", File false [""])]) [].

(** *** Descent: entries that vanish while the directory is scanned

    Directory /cg/101 lists [a] and [b].  [a] is removed between its
    [fstatat] and its [openat]; [b] is gone at its [fstatat] and, being
    created again by its owner, back at its [openat]. *)
Definition racy_tree : node :=
  Dir 1 2 [("cg", Dir 1 3 [("101", Dir 1 4 [("a", Dir 1 5 []); ("b", Dir 1 6 [])])])].

Definition racy_world (more : list fault) : world :=
  mkWorld racy_tree [(3, ["cg"; "101"])] 4 100
          (mkFault "openat" "a" ENOENT 1 :: mkFault "fstatat" "b" ENOENT 1 :: more)
          0 [] (Ok []) (Ok []) None None [].

(** *** Tree removal

    /cg/101 holds the nested directories x/y and a directory z. *)
Definition nested_tree : node :=
  Dir 1 2 [("cg", Dir 1 3 [("101", Dir 1 50
     [("tasks", File true [nl ""]);
      ("x", Dir 1 51 [("y", Dir 1 52 [])]);
      ("z", Dir 1 53 [])])])].

Definition nested_world (fs : list fault) : world := world_of nested_tree fs.

(** /cg/101 is inode 50 of device 1.  Its subdirectory [sub] is a mount
    point: the root of another file system, device 2, whose inode number
    is 50 as well. *)
Definition foreign_tree : node :=
  Dir 1 2 [("cg", Dir 1 3 [("101", Dir 1 50 [("sub", Dir 2 50 [])])])].

Definition foreign_world : world := world_of foreign_tree [].

(** /cg/101 already open as descriptor 3, as [rm_tree] has it when its
    loop starts. *)
Definition foreign_opened : world :=
  mkWorld foreign_tree [(3, ["cg"; "101"])] 4 100 [] 0 []
          (Ok host_mounts) (Ok host_cgroups) None None [].

(** *** Removal with retry

    /cg is open as descriptor 3; the kernel refuses to remove /cg/busy
    with EBUSY, [times] times. *)
Definition busy_world (times : nat) : world :=
  mkWorld (Dir 1 2 [("cg", Dir 1 3 [("busy", Dir 1 4 [])])])
          [(3, ["cg"])] 4 100 [mkFault "unlinkat" "busy" EBUSY times] 0 []
          (Ok host_mounts) (Ok host_cgroups) None None [].

(** *** Freezer: the texts the kernel shows in freezer.state of 101 *)
Definition freezer_world (texts : list string) : world :=
  world_of
    (alter (split_path (cg "freezer" "101/freezer.state"))
           (fun _ => Some (File true (map nl texts))) host_tree) [].

(** *** Creation: the directory under the memory controller cannot be
    made for container 102 *)
Definition memory_fails : world :=
  host [mkFault "make_dir" (cg "memory" "102") EACCES 1].

(** *** Destruction: the directory of 101 under cpuset cannot be
    opened *)
Definition cpuset_denied : world :=
  host [mkFault "open" (cg "cpuset" "101") EACCES 1].

(** *** Bind mounts for container 101 under /vz/root/101 *)

Definition ve_root : string := "/vz/root/101".

(** The tmpfs of the skeleton cannot be mounted. *)
Definition tmpfs_fails : world :=
  host [mkFault "mount" "/vz/root/101/sys/fs/cgroup" ENOMEM 1].

(** The third of the five active controllers cannot be bound. *)
Definition third_bind_fails : world :=
  host [mkFault "mount" "/vz/root/101/sys/fs/cgroup/memory" ENOMEM 1].

(** *** Creation: besides, the directory just made under cpuset cannot
    be opened when the creation is taken back, for lack of descriptors *)
Definition memory_fails_cpuset_stays : world :=
  host [mkFault "make_dir" (cg "memory" "102") EACCES 1;
        mkFault "open" (cg "cpuset" "102") EMFILE 1].

(** *** Slice: a host whose configuration sets VE_CGROUP_SLICE *)
Definition slice_host (name : string) : world :=
  mkWorld host_tree [] 3 100 [] 0 [] (Ok host_mounts) (Ok host_cgroups)
          (Some name) None [].





(** *** Lines longer than the buffers

    A mount table whose only line, the one of cpuset, has 4102
    characters: the first 4095 of them end in ",cpu". *)
Definition long_mount_line : string :=
  "cgroup /sys/fs/cgroup/cpuset cgroup rw,"
  +++ string_of_list_ascii (repeat "x"%char (Z.to_nat 4052)) +++ ",cpuset 0 0".

Definition long_mounts_host : world :=
  mkWorld host_tree [] 3 100 [] 0 [] (Ok [long_mount_line]) (Ok host_cgroups)
          None None [].

(** A /proc/cgroups whose line of cpuset has 516 characters: its first
    511 are the name and blanks. *)
Definition long_cgroups_line : string :=
  "cpuset" +++ string_of_list_ascii (repeat " "%char (Z.to_nat 505)) +++ "2 1 1".

Definition long_cgroups_host : world :=
  mkWorld host_tree [] 3 100 [] 0 [] (Ok host_mounts)
          (Ok ["#subsys_name hierarchy num_cgroups enabled"; long_cgroups_line;
               "memory	4	1	1"])
          None None [].

(** The run of a computation: its value and the kernel it leaves. *)
Definition run {A} (m : M world A) (w : world) : option (A * world) :=
  match m (start w) with
  | Some (a, s) => Some (a, os s)
  | None => None
  end.

End Samples.


(** * Properties *)

Section Properties.
Context {W : Type} {K : Kernel W} {C : Consts}.

#[local] Abbreviation St := (state W).

Lemma with_os_same (s : St) : with_os s (os s) (errno s) = s.
Proof. destruct s; reflexivity. Qed.

(** ** Removal with retry *)

Lemma backoff_range i : 10000 <= backoff i <= 500000.
Proof.
  unfold backoff.
  assert (1 <= 2 ^ Z.of_nat i) by (apply Z.pow_le_mono_r with (b := 0); lia).
  lia.
Qed.

Lemma backoff_next i :
  (if (backoff i * 2) mod UINT_MOD >? maxwait then maxwait
   else (backoff i * 2) mod UINT_MOD) = backoff (S i).
Proof.
  pose proof (backoff_range i) as R.
  rewrite Z.mod_small by (unfold UINT_MOD; simpl; lia).
  unfold backoff in *. rewrite Nat2Z.inj_succ, Z.pow_succ_r by lia.
  assert (1 <= 2 ^ Z.of_nat i) by (apply Z.pow_le_mono_r with (b := 0); lia).
  unfold maxwait.
  destruct (Z.gtb_spec (Z.min (10000 * 2 ^ Z.of_nat i) 500000 * 2) 500000); lia.
Qed.

Lemma cumulative_nonneg k : 0 <= cumulative k.
Proof.
  induction k; simpl; [lia | pose proof (backoff_range k); lia].
Qed.

Lemma cumulative_mono j k : (j <= k)%nat -> cumulative j <= cumulative k.
Proof.
  induction 1; [lia | simpl; pose proof (backoff_range m); lia].
Qed.

Lemma rmdir_retry_loop_busy fuel fd name total wait (s : St) w1 :
  os_unlinkat fd name (os s) = (Err EBUSY, w1) ->
  rmdir_retry_loop (S fuel) fd name total wait s =
  (let total := (total + wait) mod UINT_MOD in
   let wait := (if (wait * 2) mod UINT_MOD >? maxwait then maxwait
                else (wait * 2) mod UINT_MOD) in
   if total <? timeout
   then rmdir_retry_loop fuel fd name total wait
   else vzctl_err (-1) EBUSY ("Cannot remove dir " +++ name))
    (with_os s (os_usleep wait w1) EBUSY).
Proof.
  intros H. simpl. unfold bind at 1. unfold sys at 1. rewrite H. simpl.
  unfold bind at 1. unfold ext at 1. simpl. unfold with_os. simpl.
  destruct ((total + wait) mod UINT_MOD <? timeout); reflexivity.
Qed.

Lemma rmdir_retry_loop_refused k : forall i fuel fd name (s : St) w,
  refused k i fd name (os s) = Some w ->
  cumulative (i + k) < timeout ->
  rmdir_retry_loop (k + fuel) fd name (cumulative i) (backoff i) s =
  rmdir_retry_loop fuel fd name (cumulative (i + k)) (backoff (i + k))
                   (with_os s w (errno_after k s)).
Proof.
  induction k as [|k IH]; intros i fuel fd name s w R B.
  - simpl in R. injection R as <-. rewrite Nat.add_0_r. simpl.
    now rewrite with_os_same.
  - simpl in R. destruct (os_unlinkat fd name (os s)) as [[u|e] w1] eqn:U; [discriminate|].
    destruct (Z.eqb_spec e EBUSY) as [->|]; [|discriminate].
    change (S k + fuel)%nat with (S (k + fuel)).
    rewrite (rmdir_retry_loop_busy _ _ _ _ _ _ _ U). cbv zeta.
    rewrite backoff_next.
    assert (T : (cumulative i + backoff i) mod UINT_MOD = cumulative (S i)).
    { simpl. apply Z.mod_small. pose proof (cumulative_nonneg i).
      pose proof (backoff_range i).
      pose proof (cumulative_mono i (i + S k) ltac:(lia)).
      unfold UINT_MOD, timeout in *. simpl. lia. }
    rewrite T.
    assert (L : (cumulative (S i) <? timeout) = true).
    { apply Z.ltb_lt. pose proof (cumulative_mono (S i) (i + S k) ltac:(lia)). lia. }
    rewrite L.
    replace (i + S k)%nat with (S i + k)%nat in * by lia.
    rewrite (IH (S i) fuel fd name _ w); [|exact R|exact B].
    unfold with_os; simpl. f_equal. f_equal. destruct k; reflexivity.
Qed.

Lemma rmdir_retry_loop_exhausted k : forall i fuel fd name (s : St) w,
  refused (S k) i fd name (os s) = Some w ->
  cumulative (i + k) < timeout <= cumulative (i + S k) ->
  rmdir_retry_loop (S k + fuel) fd name (cumulative i) (backoff i) s =
  vzctl_err (-1) EBUSY ("Cannot remove dir " +++ name) (with_os s w EBUSY).
Proof.
  intros i fuel fd name s w R [B1 B2].
  replace (S k + fuel)%nat with (k + S fuel)%nat by lia.
  assert (exists w', refused k i fd name (os s) = Some w'
                     /\ refused 1 (i + k) fd name w' = Some w) as (w' & R1 & R2).
  { clear B1 B2. revert i s w R. induction k as [|k IH]; intros i s w R.
    - exists (os s). rewrite Nat.add_0_r. split; [reflexivity | exact R].
    - cbn [refused] in R.
      destruct (os_unlinkat fd name (os s)) as [[u|e] w1] eqn:U; [discriminate|].
      destruct (e =? EBUSY) eqn:E; [|discriminate].
      destruct (IH (S i) (with_os s (os_usleep (backoff i) w1) EBUSY) w R)
        as (w' & R1 & R2).
      exists w'. split.
      + cbn [refused]. rewrite U, E. exact R1.
      + replace (i + S k)%nat with (S i + k)%nat by lia. exact R2. }
  rewrite (rmdir_retry_loop_refused k i (S fuel) fd name s w' R1 B1).
  cbn [refused] in R2.
  destruct (os_unlinkat fd name w') as [[u|e] w1] eqn:U; [discriminate|].
  destruct (Z.eqb_spec e EBUSY) as [->|]; [|discriminate].
  injection R2 as <-.
  rewrite (rmdir_retry_loop_busy fuel fd name _ _ (with_os s w' (errno_after k s)) w1 U).
  cbv zeta.
  assert (T : (cumulative (i + k) + backoff (i + k)) mod UINT_MOD
              = cumulative (i + S k)).
  { replace (i + S k)%nat with (S (i + k)) by lia. simpl. apply Z.mod_small.
    pose proof (cumulative_nonneg (i + k)). pose proof (backoff_range (i + k)).
    unfold UINT_MOD, timeout in *. simpl. lia. }
  rewrite T.
  assert (L : (cumulative (i + S k) <? timeout) = false) by (apply Z.ltb_ge; lia).
  rewrite L. reflexivity.
Qed.

Lemma cumulative_below_budget j : (j < 65)%nat -> cumulative j < timeout.
Proof.
  intros H. pose proof (cumulative_mono j 64 ltac:(lia)) as M.
  assert (E : cumulative 64 = 29630000) by (vm_compute; reflexivity).
  unfold timeout. lia.
Qed.

Lemma backoff_capped i : (6 <= i)%nat -> backoff i = 500000.
Proof.
  intros H. unfold backoff.
  assert (2 ^ 6 <= 2 ^ Z.of_nat i) by (apply Z.pow_le_mono_r; lia).
  change (2 ^ 6) with 64 in *. lia.
Qed.

(** C3. [rmdir_retry] follows the spec's schedule.  After [k] attempts that
    the kernel refused with EBUSY the function has slept [backoff 0], ...,
    [backoff (k-1)], that is 10ms doubled at each attempt up to the cap of
    500ms.  While the time slept is below 30s, an attempt that succeeds
    returns 0, and an attempt that fails with another errno ends the
    retries at once with -1 and a message.  At the 65th refusal the time
    slept is 30.13s, the first to reach 30s, and the function gives up with
    -1 and a message. *)
Theorem rmdir_retry_backoff_budget (fd : Z) (name : string) (s : St) :
  (forall k w fuel,
     refused k 0 fd name (os s) = Some w ->
     cumulative k < timeout ->
     (k < fuel)%nat ->
     match os_unlinkat fd name w with
     | (Ok _, w') =>
         rmdir_retry fuel fd name s = Some (0, with_os s w' (errno_after k s))
     | (Err e, w') =>
         e <> EBUSY ->
         rmdir_retry fuel fd name s =
         Some (-1, mkState w' e (ctl_map s) (slice s)
                     (log s ++ [mkLog (-1) e ("Cannot remove dir " +++ name)]))
     end)
  /\ (forall w fuel,
        refused 65 0 fd name (os s) = Some w ->
        (65 <= fuel)%nat ->
        rmdir_retry fuel fd name s =
        Some (-1, mkState w EBUSY (ctl_map s) (slice s)
                    (log s ++ [mkLog (-1) EBUSY ("Cannot remove dir " +++ name)])))
  /\ map backoff (seq 0 7) = [10000; 20000; 40000; 80000; 160000; 320000; 500000]
  /\ (forall i, (6 <= i)%nat -> backoff i = 500000)
  /\ (forall j, (j < 65)%nat -> cumulative j < timeout)
  /\ cumulative 65 = 30130000
  /\ timeout = 30000000.
Proof.
  split; [|split; [|split; [|split; [|split; [|split]]]]].
  - intros k w fuel R B F.
    replace fuel with (k + S (fuel - S k))%nat by lia.
    unfold rmdir_retry.
    rewrite (rmdir_retry_loop_refused k 0 _ fd name s w R B).
    destruct (os_unlinkat fd name w) as [[u|e] w'] eqn:U.
    + cbn [rmdir_retry_loop]. unfold bind, sys. cbn [os with_os]. rewrite U.
      reflexivity.
    + intros NE. cbn [rmdir_retry_loop]. unfold bind at 1, sys at 1.
      cbn [os with_os]. rewrite U.
      destruct (Z.eqb_spec e EBUSY); [contradiction|]. reflexivity.
  - intros w fuel R F.
    replace fuel with (65 + (fuel - 65))%nat by lia.
    unfold rmdir_retry.
    rewrite (rmdir_retry_loop_exhausted 64 0 _ fd name s w R).
    + reflexivity.
    + split; [apply cumulative_below_budget; lia | vm_compute; discriminate].
  - reflexivity.
  - apply backoff_capped.
  - apply cumulative_below_budget.
  - reflexivity.
  - reflexivity.
Qed.

(** ** Parameter read *)

Lemma cg_read_strip_touches (out : cbuf) (r : Z) :
  In (r - 1) (snd (cg_read_strip out r)).
Proof.
  unfold cg_read_strip. destruct (Ascii.eqb _ _); simpl; auto.
Qed.

(** For a read of at least one byte both accesses stay in the array, and
    exactly one trailing newline goes. *)
Lemma cg_read_strip_in_bounds (out : cbuf) (r : Z) :
  1 <= r < buf_size out ->
  forallb (buf_in_bounds out) (snd (cg_read_strip out r)) = true.
Proof.
  intros H. unfold cg_read_strip, buf_in_bounds.
  destruct (Ascii.eqb _ _); simpl;
    repeat rewrite andb_true_iff; repeat split;
    try apply Z.leb_le; try apply Z.ltb_lt; lia.
Qed.

Lemma set_nth_app {A} (l r : list A) (a x : A) :
  set_nth (List.length l) a (l ++ x :: r) = l ++ a :: r.
Proof.
  induction l as [|y l IH]; [reflexivity|]. cbn. now rewrite IH.
Qed.

Lemma cstr_app_nul (data rest : list ascii) :
  forallb (fun c => negb (Ascii.eqb c NUL)) data = true ->
  cstr (data ++ NUL :: rest) = string_of_list_ascii data.
Proof.
  induction data as [|c data IH]; intros N; [reflexivity|].
  cbn in N |- *. apply andb_true_iff in N as [N1 N2].
  apply negb_true_iff in N1. rewrite N1. now rewrite IH.
Qed.

(** After a read of [data] followed by a newline the buffer holds [data]:
    the newline is replaced by the terminator. *)
Lemma cg_read_strip_newline (b : ascii) (data rest : list ascii) :
  forallb (fun c => negb (Ascii.eqb c NUL)) data = true ->
  buf_str (fst (cg_read_strip (mkBuf b (data ++ LF :: rest))
                              (Z.of_nat (List.length data) + 1)))
  = string_of_list_ascii data.
Proof.
  intros N. unfold cg_read_strip, buf_get, buf_set, buf_str. cbn [cells below].
  replace (Z.of_nat (List.length data) + 1 - 1) with (Z.of_nat (List.length data)) by lia.
  destruct (Z.ltb_spec (Z.of_nat (List.length data)) 0); [lia|].
  rewrite Nat2Z.id, nth_middle. cbn [Ascii.eqb fst cells].
  change (Ascii.eqb LF LF) with true. cbn [fst cells].
  now rewrite set_nth_app, cstr_app_nul.
Qed.

(** After a read of [data] that does not end in a newline the buffer holds
    [data], terminated behind its last byte. *)
Lemma cg_read_strip_no_newline (b x : ascii) (data rest : list ascii) (c : ascii) :
  forallb (fun c => negb (Ascii.eqb c NUL)) (data ++ [c]) = true ->
  Ascii.eqb c LF = false ->
  buf_str (fst (cg_read_strip (mkBuf b ((data ++ [c]) ++ x :: rest))
                              (Z.of_nat (List.length (data ++ [c])))))
  = string_of_list_ascii (data ++ [c]).
Proof.
  intros N L. unfold cg_read_strip, buf_get, buf_set, buf_str. cbn [cells below].
  rewrite length_app. cbn [List.length].
  replace (Z.of_nat (List.length data + 1) - 1) with (Z.of_nat (List.length data)) by lia.
  destruct (Z.ltb_spec (Z.of_nat (List.length data)) 0); [lia|].
  destruct (Z.ltb_spec (Z.of_nat (List.length data + 1)) 0); [lia|].
  rewrite Nat2Z.id, <- app_assoc. cbn [app]. rewrite nth_middle, L. cbn [fst cells].
  rewrite Nat2Z.id.
  replace (List.length data + 1)%nat with (List.length (data ++ [c]))
    by (rewrite length_app; reflexivity).
  change (data ++ c :: x :: rest) with (data ++ [c] ++ x :: rest).
  rewrite app_assoc, set_nth_app. now apply cstr_app_nul.
Qed.

(** A read of no byte at all makes [cg_read] touch index -1, outside every
    array. *)
Lemma cg_read_strip_empty_out_of_bounds (out : cbuf) :
  existsb (fun i => negb (buf_in_bounds out i)) (snd (cg_read_strip out 0)) = true.
Proof.
  unfold cg_read_strip. destruct (Ascii.eqb _ _); reflexivity.
Qed.

(** What [cg_read] does once the file is open: read, close, strip. *)
Lemma cg_read_opened (path : string) (out : cbuf) (size : Z) (s : St)
  fd w1 data w2 c w3 :
  os_open path O_RDONLY (os s) = (Ok fd, w1) ->
  os_read fd (size - 1) w1 = (Ok data, w2) ->
  os_close fd w2 = (c, w3) ->
  let data := firstn (Z.to_nat (size - 1)) data in
  cg_read path out size s =
  Some ((0, fst (cg_read_strip (mkBuf (below out) (blit data (cells out)))
                               (Z.of_nat (List.length data)))),
        with_os s w3 (match c with Ok _ => errno s | Err e => e end)).
Proof.
  intros O R Cl. unfold cg_read, bind, sys, ret. cbn [os]. rewrite O.
  cbn [os]. rewrite R. cbn [os]. rewrite Cl. reflexivity.
Qed.

(** ** Descent *)

Lemma goto_next_dir_scan_dots (d_name : string) ents parentfd fd out size st :
  d_name = "." \/ d_name = ".." ->
  goto_next_dir_scan (d_name :: ents) parentfd fd out size st =
  goto_next_dir_scan ents parentfd fd out size st.
Proof.
  intros [-> | ->]; reflexivity.
Qed.

(** An entry whose [openat] answers ENOENT is skipped. *)
Lemma goto_next_dir_scan_openat_enoent d_name ents parentfd fd out size st
  (s : St) st' w1 w2 :
  String.eqb d_name "." = false -> String.eqb d_name ".." = false ->
  os_fstatat fd d_name (os s) = (Ok st', w1) ->
  st_isdir st' = true ->
  os_openat fd d_name w1 = (Err ENOENT, w2) ->
  goto_next_dir_scan (d_name :: ents) parentfd fd out size st s =
  goto_next_dir_scan ents parentfd fd out size st' (with_os s w2 ENOENT).
Proof.
  intros D1 D2 F I O. cbn [goto_next_dir_scan]. rewrite D1, D2. cbn [orb].
  unfold bind at 1, sys at 1. rewrite F. rewrite I.
  unfold bind at 1, sys at 1. cbn [os]. rewrite O. reflexivity.
Qed.

(** An entry whose [fstatat] answers ENOENT is not skipped as such: [st]
    still holds the stat of an earlier entry (or nothing written yet), and
    when that is a directory the entry is opened. *)
Lemma goto_next_dir_scan_fstatat_enoent d_name ents parentfd fd out size st
  (s : St) w1 :
  String.eqb d_name "." = false -> String.eqb d_name ".." = false ->
  os_fstatat fd d_name (os s) = (Err ENOENT, w1) ->
  goto_next_dir_scan (d_name :: ents) parentfd fd out size st s =
  (if st_isdir st then
     next <- sys (os_openat fd d_name) ;;
     match next with
     | Err e =>
         if e =? ENOENT then goto_next_dir_scan ents parentfd fd out size st
         else rc <- vzctl_err (-1) e ("openat " +++ d_name) ;;
              ret (rc, parentfd, fd, out)
     | Ok next =>
         close_unless_unset parentfd ;;;
         ret (0, fd, next, snprintf size d_name)
     end
   else goto_next_dir_scan ents parentfd fd out size st) (with_os s w1 ENOENT).
Proof.
  intros D1 D2 F. cbn [goto_next_dir_scan]. rewrite D1, D2. cbn [orb].
  unfold bind at 1, sys at 1. rewrite F. reflexivity.
Qed.

(** An entry that is gone and stays gone is passed over whatever [st]
    holds: either [st] is no directory, or the [openat] answers ENOENT as
    well. *)
Lemma goto_next_dir_scan_vanished d_name ents parentfd fd out size st
  (s : St) w1 w2 :
  String.eqb d_name "." = false -> String.eqb d_name ".." = false ->
  os_fstatat fd d_name (os s) = (Err ENOENT, w1) ->
  os_openat fd d_name w1 = (Err ENOENT, w2) ->
  goto_next_dir_scan (d_name :: ents) parentfd fd out size st s =
  goto_next_dir_scan ents parentfd fd out size st
    (with_os s (if st_isdir st then w2 else w1) ENOENT).
Proof.
  intros D1 D2 F O.
  rewrite (goto_next_dir_scan_fstatat_enoent _ _ _ _ _ _ _ _ _ D1 D2 F).
  destruct (st_isdir st); [|reflexivity].
  unfold bind at 1, sys at 1. cbn [os with_os]. rewrite O. reflexivity.
Qed.

(** ** Bind mounts *)

(** The skeleton returns early: once the sysfs is mounted, a tmpfs that
    fails to mount ends the function in the kernel state the failed
    [mount] left, with no [umount] of the sysfs. *)
Lemma cg_bindmount_cgroup_tmpfs_failure (ve_root ctid : string) head (s : St)
  w1 w2 w3 e w4 :
  let sys_dir := snprintf PATH_MAX (ve_root +++ "/sys") in
  let cg_dir := snprintf PATH_MAX (ve_root +++ "/sys/fs/cgroup") in
  os_access sys_dir (os s) = (Ok tt, w1) ->
  os_mount None sys_dir (Some "sysfs") MS_NONE w1 = (Ok tt, w2) ->
  os_access cg_dir w2 = (Ok tt, w3) ->
  os_mount None cg_dir (Some "tmpfs") MS_NONE w3 = (Err e, w4) ->
  cg_bindmount_cgroup ve_root ctid head s =
  Some ((VZCTL_E_RESOURCE, head),
        mkState w4 e (ctl_map s) (slice s)
                (log s ++ [mkLog (-1) e ("Can't pre-mount tmpfs in " +++ cg_dir)])).
Proof.
  intros sys_dir cg_dir A1 M1 A2 M2.
  unfold cg_bindmount_cgroup. fold sys_dir. fold cg_dir.
  unfold bind at 1, sys at 1. rewrite A1. cbn [is_err].
  unfold bind at 1, ret at 1. cbn [negb Z.eqb].
  unfold bind at 1, sys at 1. cbn [os]. rewrite M1. cbn [is_err].
  unfold bind at 1, sys at 1. cbn [os]. rewrite A2. cbn [is_err].
  unfold bind at 1, ret at 1. cbn [negb Z.eqb].
  unfold bind at 1, sys at 1. cbn [os]. rewrite M2. cbn [is_err].
  reflexivity.
Qed.

(** ** CPU rate limit *)




(** ** Freezer *)

Lemma strncmp_prefix (b : string) : forall a,
  no_nul b = true ->
  (strncmp a b (String.length b) =? 0) = prefix b a.
Proof.
  induction b as [|d b IH]; intros a N; [destruct a; reflexivity|].
  cbn [no_nul] in N. apply andb_true_iff in N as [N1 N2].
  destruct a as [|c a]; cbn [String.length strncmp prefix].
  - apply Z.eqb_neq. intros E.
    assert (nat_of_ascii d = 0%nat) as Z0 by lia.
    assert (d = NUL) as -> by (rewrite <- (ascii_nat_embedding d), Z0; reflexivity).
    discriminate N1.
  - destruct (ascii_dec d c) as [->|NE].
    + rewrite Ascii.eqb_refl. now apply IH.
    + destruct (Ascii.eqb_spec c d) as [->|NE']; [contradiction|].
      apply Z.eqb_neq. intros E.
      assert (nat_of_ascii c = nat_of_ascii d) as E' by lia.
      apply NE'. rewrite <- (ascii_nat_embedding c), E'. apply ascii_nat_embedding.
Qed.

Lemma cg_set_freezer_state_poll_unconverged n : forall fuel ctid state buf (s : St) bufn sn,
  no_nul state = true ->
  unconverged n ctid state buf s = Some (bufn, sn) ->
  cg_set_freezer_state_poll (n + fuel) ctid state (strlen state) buf s =
  cg_set_freezer_state_poll fuel ctid state (strlen state) bufn sn.
Proof.
  induction n as [|n IH]; intros fuel ctid state buf s bufn sn N U.
  - cbn in U. injection U as <- <-. reflexivity.
  - cbn [unconverged] in U. cbn [Nat.add cg_set_freezer_state_poll].
    unfold bind at 1.
    destruct (cg_get_param (Some ctid) CG_FREEZER "freezer.state" buf STR_SIZE s)
      as [[[r b] s1]|]; [|discriminate].
    destruct (Z.eqb_spec r 0) as [->|]; [|discriminate]. cbn [andb negb Z.eqb] in U |- *.
    change (Z.to_nat (strlen state))
      with (Z.to_nat (Z.of_nat (String.length state))).
    rewrite Nat2Z.id, (strncmp_prefix state _ N).
    destruct (prefix state (buf_str b)); [discriminate|]. cbn [negb] in U.
    unfold bind at 1, ext at 1.
    rewrite <- (IH fuel ctid state b _ bufn sn N U). reflexivity.
Qed.

(** A [write_data] that returns 0 opened the file, wrote the whole of
    [data] to it and closed it. *)
Lemma write_data_wrote (path data : string) (s s' : St) :
  write_data path data s = Some (0, s') ->
  exists fd w1 w2,
    os_open path O_WRONLY (os s) = (Ok fd, w1)
    /\ os_write fd data (strlen data) w1 = (Ok (strlen data), w2)
    /\ fst (os_close fd w2) = Ok tt.
Proof.
  unfold write_data, do_write_data, vzctl_err, bind, sys, logger, get_errno,
    set_errno, ret.
  cbn [os errno].
  destruct (os_open path O_WRONLY (os s)) as [[fd|e] w1]; cbn [os errno].
  - destruct (os_write fd data (strlen data) w1) as [[n|e] w2] eqn:Wr;
      cbn [os errno].
    + destruct (Z.eqb_spec n (strlen data)) as [->|NE]; cbn [negb os errno Z.eqb].
      * destruct (os_close fd w2) as [[[]|e] w3] eqn:Cl; [|discriminate].
        intros _. exists fd, w1, w2. rewrite Cl. auto.
      * destruct (n <? 0); cbn [Z.eqb Pos.eqb os errno];
          destruct (os_close fd w2) as [c w3]; discriminate.
    + destruct (Z.eqb_spec (-1) (strlen data)) as [E|_];
        [unfold strlen in E; lia|].
      cbn [negb Z.ltb Z.compare Z.eqb Pos.eqb os errno].
      destruct (os_close fd w2) as [c w3]. discriminate.
  - destruct (e =? ENOENT); discriminate.
Qed.

(** A [cg_set_param] that returns 0 found the path of the parameter and
    wrote the whole of [data] to the file there. *)
Lemma cg_set_param_wrote ctid subsys name data (s s' : St) :
  cg_set_param ctid subsys name data s = Some (0, s') ->
  exists path s0 fd w1 w2,
    cg_get_path ctid subsys name PATH_MAX s = Some ((0, path), s0)
    /\ os_open path O_WRONLY (os s0) = (Ok fd, w1)
    /\ os_write fd data (strlen data) w1 = (Ok (strlen data), w2)
    /\ fst (os_close fd w2) = Ok tt.
Proof.
  unfold cg_set_param, bind.
  destruct (cg_get_path ctid subsys name PATH_MAX s) as [[[r path] s0]|];
    [|discriminate].
  destruct (Z.eqb_spec r 0) as [->|NZ]; cbn [negb].
  - intros Wd. destruct (write_data_wrote _ _ _ _ Wd) as (fd & w1 & w2 & H).
    exists path, s0, fd, w1, w2. split; [reflexivity | exact H].
  - intros [= -> _]. contradiction.
Qed.

(** C8.  [cg_set_freezer_state] first writes [state] to freezer.state: a
    write that returns 0 opened the file of the container, wrote the
    whole of [state] to it and closed it, and a write that fails ends the
    function with its result, before any poll.  Once [state] is written,
    the function reads the current state again and again, sleeping one
    second after each read of which [state] is not a prefix.  There is no
    bound: as long as the state has not converged the function has not
    returned, whatever the number of polls.  It returns 0 at the first
    read that starts with [state], in the state that read left (no sleep
    follows), and the code of a read that fails.  With [n = 0]: a freezer
    already in the target state gives success on the first poll, without
    any sleep. *)
Theorem cg_set_freezer_state_polls_until_converged
  (ctid state : string) (buf : cbuf) (s s1 : St) (n : nat) bufn sn :
  no_nul state = true ->
  cg_set_param (Some ctid) CG_FREEZER "freezer.state" state s = Some (0, s1) ->
  unconverged n ctid state buf s1 = Some (bufn, sn) ->
  cg_set_freezer_state n ctid state buf s = None
  /\ (forall fuel r b s',
       (n < fuel)%nat ->
       cg_get_param (Some ctid) CG_FREEZER "freezer.state" bufn STR_SIZE sn
       = Some ((r, b), s') ->
       (r <> 0 -> cg_set_freezer_state fuel ctid state buf s = Some (r, s'))
       /\ (r = 0 -> prefix state (buf_str b) = true ->
           cg_set_freezer_state fuel ctid state buf s = Some (0, s')))
  /\ (exists path s0 fd w1 w2,
        cg_get_path (Some ctid) CG_FREEZER "freezer.state" PATH_MAX s
        = Some ((0, path), s0)
        /\ os_open path O_WRONLY (os s0) = (Ok fd, w1)
        /\ os_write fd state (strlen state) w1 = (Ok (strlen state), w2)
        /\ fst (os_close fd w2) = Ok tt)
  /\ (forall (t t1 : St) r fuel,
        cg_set_param (Some ctid) CG_FREEZER "freezer.state" state t = Some (r, t1) ->
        r <> 0 ->
        cg_set_freezer_state fuel ctid state buf t = Some (r, t1)).
Proof.
  intros N Wr U.
  split; [|split; [|split; [exact (cg_set_param_wrote _ _ _ _ _ _ Wr)|]]];
    cycle 2.
  { intros t t1 r fuel Wt NZ. unfold cg_set_freezer_state, bind. rewrite Wt.
    destruct (Z.eqb_spec r 0); [contradiction|]. reflexivity. }
  - unfold cg_set_freezer_state, bind. rewrite Wr. cbn [negb Z.eqb].
    rewrite <- (Nat.add_0_r n) at 1.
    rewrite (cg_set_freezer_state_poll_unconverged n 0 ctid state buf s1 bufn sn N U).
    reflexivity.
  - intros fuel r b s' F G.
    assert (E : cg_set_freezer_state fuel ctid state buf s
                = cg_set_freezer_state_poll (S (fuel - S n)) ctid state
                    (strlen state) bufn sn).
    { unfold cg_set_freezer_state, bind. rewrite Wr. cbn [negb Z.eqb].
      replace fuel with (n + S (fuel - S n))%nat at 1 by lia.
      now apply cg_set_freezer_state_poll_unconverged. }
    rewrite E. cbn [cg_set_freezer_state_poll]. unfold bind. rewrite G.
    split.
    + intros NZ. destruct (Z.eqb_spec r 0); [contradiction|]. reflexivity.
    + intros -> P. cbn [negb Z.eqb].
      change (Z.to_nat (strlen state))
        with (Z.to_nat (Z.of_nat (String.length state))).
      rewrite Nat2Z.id, (strncmp_prefix state _ N), P. reflexivity.
Qed.

(** A write that fails ends the function before any poll. *)
Lemma cg_set_freezer_state_write_fails fuel ctid state buf (s s1 : St) r :
  cg_set_param (Some ctid) CG_FREEZER "freezer.state" state s = Some (r, s1) ->
  r <> 0 ->
  cg_set_freezer_state fuel ctid state buf s = Some (r, s1).
Proof.
  intros Wr NZ. unfold cg_set_freezer_state, bind. rewrite Wr.
  destruct (Z.eqb_spec r 0); [contradiction|]. reflexivity.
Qed.

(** ** CPU and NUMA masks *)

(** C4.  [cg_env_set_mask] reads the mask the kernel permits, intersects
    it with the request, and
    - when the intersection is empty, fails with VZCTL_E_CPUMASK, writes
      nothing, and its message ends with the permitted range as read;
    - otherwise writes the text of the intersection, not of the request,
      to the container's file. *)
Theorem cg_env_set_mask_writes_intersection
  (ctid name : string) (cpumask size : Z) (buf buf1 : cbuf) (s s1 : St)
  (w2 : W) (avail : Z) :
  let cg_name := snprintf 64 ("cpuset." +++ name) in
  let both := Z.land (Z.land cpumask avail) (Z.ones (Bitmap.nbits size)) in
  let s2 := with_os s1 w2 (errno s1) in
  cg_get_param (Some "") CG_CPUSET cg_name buf 4096 s = Some ((0, buf1), s1) ->
  os_alloc (os s1) = (true, w2) ->
  Bitmap.vzctl2_bitmap_parse (buf_str buf1) size = Some avail ->
  (both = 0 ->
   cg_env_set_mask ctid name cpumask size buf s =
   Some (VZCTL_E_CPUMASK,
         mkState w2 (errno s1) (ctl_map s1) (slice s1)
           (log s1 ++ [mkLog (-1) 0
                         ("Unable to set " +++ name +++ " value "
                          +++ Bitmap.bitmap_snprintf 4096 cpumask size
                          +++ ", supported range: " +++ buf_str buf1)])))
  /\ (both <> 0 ->
      cg_env_set_mask ctid name cpumask size buf s =
      match cg_set_param (Some ctid) CG_CPUSET cg_name
                         (Bitmap.bitmap_snprintf 4096 both size) s2 with
      | Some (r, s3) =>
          if r =? 0 then Some (0, s3)
          else Some (VZCTL_E_CPUMASK,
                     mkState (os s3) (errno s3) (ctl_map s3) (slice s3)
                       (log s3 ++ [mkLog (-1) (errno s3) ("Unable to set " +++ cg_name)]))
      | None => None
      end).
Proof.
  intros cg_name both s2 G A P.
  assert (E : cg_env_set_mask ctid name cpumask size buf s =
              (if both =? 0 then
                 vzctl_err VZCTL_E_CPUMASK 0
                   ("Unable to set " +++ name +++ " value "
                    +++ Bitmap.bitmap_snprintf 4096 cpumask size
                    +++ ", supported range: " +++ buf_str buf1)
               else
                 r <- cg_set_param (Some ctid) CG_CPUSET cg_name
                        (Bitmap.bitmap_snprintf 4096 both size) ;;
                 if negb (r =? 0) then
                   eno <- get_errno ;;
                   vzctl_err VZCTL_E_CPUMASK eno ("Unable to set " +++ cg_name)
                 else ret 0) s2).
  { unfold cg_env_set_mask. fold cg_name. unfold bind at 1. rewrite G.
    cbn [Z.ltb Z.compare]. unfold bind at 1, ext at 1. rewrite A. cbn [negb].
    rewrite P. unfold Bitmap.bitmap_and. fold both.
    destruct (both =? 0); reflexivity. }
  rewrite E. split; intros B.
  - rewrite B. reflexivity.
  - destruct (Z.eqb_spec both 0) as [|_]; [contradiction|].
    unfold bind at 1.
    destruct (cg_set_param (Some ctid) CG_CPUSET cg_name
                (Bitmap.bitmap_snprintf 4096 both size) s2) as [[r s3]|];
      [|reflexivity].
    destruct (r =? 0); reflexivity.
Qed.

(** ** Hierarchy creation *)

(** One turn of the [for] of [cg_new_cgroup]. *)
Lemma cg_new_cgroup_for_S n i ctid (s : St) :
  cg_new_cgroup_for (S n) i ctid s =
  match cg_get_ctl (subsys (ctl_at s i)) s with
  | None => None
  | Some ((r, ctl), s1) =>
      if r =? -1 then Some (Some (r, i), s1)
      else if negb (r =? 0) then cg_new_cgroup_for n (S i) ctid s1
      else match cg_create ctid (match ctl with Some c => c | None => i end) s1 with
           | None => None
           | Some (r', s2) =>
               if negb (r' =? 0) then Some (Some (r', i), s2)
               else cg_new_cgroup_for n (S i) ctid s2
           end
  end.
Proof.
  cbn [cg_new_cgroup_for]. unfold bind, ctl_subsys.
  destruct (cg_get_ctl _ s) as [[[r ctl] s1]|]; [|reflexivity].
  destruct (r =? -1); [reflexivity|].
  destruct (negb (r =? 0)); [reflexivity|].
  destruct (cg_create _ _ s1) as [[r' s2]|]; [|reflexivity].
  destruct (negb (r' =? 0)); reflexivity.
Qed.

(** The first [i] turns, then the rest. *)
Lemma cg_new_cgroup_for_split i : forall m j ctid (s : St),
  cg_new_cgroup_for (i + m) j ctid s =
  match cg_new_cgroup_for i j ctid s with
  | Some (None, s1) => cg_new_cgroup_for m (i + j) ctid s1
  | r => r
  end.
Proof.
  induction i as [|i IH]; intros m j ctid s; [reflexivity|].
  change (S i + m)%nat with (S (i + m)). rewrite !cg_new_cgroup_for_S.
  replace (S i + j)%nat with (i + S j)%nat by lia.
  destruct (cg_get_ctl _ s) as [[[r ctl] s1]|]; [|reflexivity].
  destruct (r =? -1); [reflexivity|].
  destruct (negb (r =? 0)); [apply IH|].
  destruct (cg_create _ _ s1) as [[r' s2]|]; [|reflexivity].
  destruct (negb (r' =? 0)); [reflexivity | apply IH].
Qed.

(** The loop at [err:] destroys [i-1], ..., [0] in this order. *)
Lemma cg_new_cgroup_err_reverse fuel st0 ctid i :
  cg_new_cgroup_err fuel st0 i ctid = destroy_each fuel st0 ctid (rev (seq 0 i)).
Proof.
  induction i as [|i IH]; [reflexivity|].
  rewrite seq_S, rev_app_distr. cbn [cg_new_cgroup_err rev app destroy_each Nat.add].
  now rewrite IH.
Qed.

(** A controller without a cgroup mount in /proc/mounts does not resolve:
    [cg_get_ctl] returns 1, with a message. *)
Lemma cg_get_ctl_unresolved (name : string) (s : St) i lines w :
  find_cg_ctl name (ctl_map s) = Some i ->
  mount_path (ctl_at s i) = None ->
  os_proc_mounts (os s) = (Ok lines, w) ->
  scan_mounts name (fgets_all PATH_MAX lines) = None ->
  cg_get_ctl name s =
  Some ((1, Some i),
        mkState w (errno s) (ctl_map s) (slice s)
          (log s ++ [mkLog (-1) 0
                       ("Unable to find mount point for " +++ name +++ " cgroup")])).
Proof.
  intros F Mp P Sc. unfold cg_get_ctl. rewrite F, Mp.
  unfold bind at 1, get_mount_path. unfold bind at 1, sys at 1. rewrite P, Sc.
  reflexivity.
Qed.

(** C1, as the code has it.  [cg_new_cgroup] goes through the table in
    its order.  When the controllers before [i] were created or skipped
    and the creation of the directory of controller [i] fails with [rv],
    the function calls [cg_destroy] on the controllers [i-1], ..., [0]
    in this order and returns [rv]: what the calls of [cg_destroy]
    return is dropped.  [cg_destroy] does nothing for a controller
    without a mount path, and else runs [rm_tree] on the directory of
    the container; a directory whose removal fails is left behind.  A
    controller whose mount does not resolve (a result of [cg_get_ctl]
    other than 0 and -1) is passed over without an error, and a run
    without a failure returns 0. *)
Theorem cg_new_cgroup_rolls_back (fuel : nat) (st0 : stat) (ctid : string) :
  (forall (s s1 s2 s3 : St) i c rv,
     (i < NCTL)%nat ->
     cg_new_cgroup_for i 0 ctid s = Some (None, s1) ->
     cg_get_ctl (subsys (ctl_at s1 i)) s1 = Some ((0, Some c), s2) ->
     cg_create ctid c s2 = Some (rv, s3) ->
     rv <> 0 ->
     cg_new_cgroup fuel st0 ctid s =
     match destroy_each fuel st0 ctid (rev (seq 0 i)) s3 with
     | Some (_, s4) => Some (rv, s4)
     | None => None
     end)
  /\ (forall n i (s s1 : St) r ctl,
        cg_get_ctl (subsys (ctl_at s i)) s = Some ((r, ctl), s1) ->
        r <> 0 -> r <> -1 ->
        cg_new_cgroup_for (S n) i ctid s = cg_new_cgroup_for n (S i) ctid s1)
  /\ (forall (s s1 : St),
        cg_new_cgroup_for NCTL 0 ctid s = Some (None, s1) ->
        cg_new_cgroup fuel st0 ctid s = Some (0, s1))
  /\ (forall c (s0 : St),
        mount_path (ctl_at s0 c) = None ->
        cg_destroy fuel st0 ctid c s0 = Some (0, s0))
  /\ (forall c q path (s0 s1 : St),
        mount_path (ctl_at s0 c) = Some q ->
        get_cgroup_name ctid c PATH_MAX s0 = Some (path, s1) ->
        cg_destroy fuel st0 ctid c s0 =
        match rm_tree fuel st0 path s1 with
        | Some (r, s2) => Some (if r =? 0 then 0 else VZCTL_E_SYSTEM, s2)
        | None => None
        end).
Proof.
  split; [|split; [|split; [|split]]].
  - intros s s1 s2 s3 i c rv I P G Cr NZ.
    unfold cg_new_cgroup, bind at 1.
    replace NCTL with (i + S (NCTL - S i))%nat by lia.
    rewrite cg_new_cgroup_for_split, P, cg_new_cgroup_for_S, Nat.add_0_r, G.
    cbn [Z.eqb negb]. rewrite Cr.
    destruct (Z.eqb_spec rv 0); [contradiction|]. cbn [negb].
    rewrite cg_new_cgroup_err_reverse. unfold bind.
    destruct (destroy_each fuel st0 ctid (rev (seq 0 i)) s3) as [[[] s4]|];
      reflexivity.
  - intros n i s s1 r ctl G NZ NM. rewrite cg_new_cgroup_for_S, G.
    destruct (Z.eqb_spec r (-1)); [contradiction|].
    destruct (Z.eqb_spec r 0); [contradiction|]. reflexivity.
  - intros s s1 H. unfold cg_new_cgroup, bind. rewrite H. reflexivity.
  - intros c s0 Mp. unfold cg_destroy, bind at 1, get_ctl at 1. rewrite Mp.
    reflexivity.
  - intros c q path s0 s1 Mp G. unfold cg_destroy, bind at 1, get_ctl at 1.
    rewrite Mp. unfold bind at 1. rewrite G. unfold bind.
    destruct (rm_tree fuel st0 path s1) as [[r s2]|]; [|reflexivity].
    destruct (r =? 0); reflexivity.
Qed.

(** ** Hierarchy destruction *)

Lemma cg_destroy_cgroup_for_S fuel st0 n i ctid rv (s : St) :
  cg_destroy_cgroup_for fuel st0 (S n) i ctid rv s =
  match destroy_step fuel st0 ctid i s with
  | Some (r, s1) => cg_destroy_cgroup_for fuel st0 n (S i) ctid (Z.lor rv r) s1
  | None => None
  end.
Proof.
  cbn [cg_destroy_cgroup_for]. unfold destroy_step, bind, ctl_subsys.
  destruct (cg_get_ctl _ s) as [[[rc ctl] s1]|]; [|reflexivity].
  destruct (negb (rc =? 0)).
  - unfold ret. now rewrite Z.lor_0_r.
  - destruct (cg_destroy _ _ _ _ s1) as [[r s2]|]; reflexivity.
Qed.

(** The loop of [cg_destroy_cgroup] runs [destroy_step] on each controller
    and ORs the results into [rv]. *)
Lemma cg_destroy_cgroup_for_all fuel st0 ctid n : forall i rv (s : St),
  cg_destroy_cgroup_for fuel st0 n i ctid rv s =
  match destroy_all fuel st0 ctid (seq i n) s with
  | Some (rs, s') => Some (fold_left Z.lor rs rv, s')
  | None => None
  end.
Proof.
  induction n as [|n IH]; intros i rv s; [reflexivity|].
  rewrite cg_destroy_cgroup_for_S. cbn [seq destroy_all]. unfold bind at 1.
  destruct (destroy_step fuel st0 ctid i s) as [[r s1]|]; [|reflexivity].
  rewrite IH. unfold bind.
  destruct (destroy_all fuel st0 ctid (seq (S i) n) s1) as [[rs s']|]; reflexivity.
Qed.

Lemma cg_destroy_result fuel st0 ctid c (s s' : St) r :
  cg_destroy fuel st0 ctid c s = Some (r, s') -> r = 0 \/ r = VZCTL_E_SYSTEM.
Proof.
  unfold cg_destroy, bind, get_ctl. destruct (mount_path (ctl_at s c)).
  - destruct (get_cgroup_name _ _ _ s) as [[path s1]|]; [|discriminate].
    destruct (rm_tree _ _ _ s1) as [[x s2]|]; [|discriminate].
    destruct (negb (x =? 0)); intros [= <- _]; auto.
  - intros [= <- _]. auto.
Qed.

Lemma destroy_step_result fuel st0 ctid i (s s' : St) r :
  destroy_step fuel st0 ctid i s = Some (r, s') -> r = 0 \/ r = VZCTL_E_SYSTEM.
Proof.
  unfold destroy_step, bind, ctl_subsys.
  destruct (cg_get_ctl _ s) as [[[rc ctl] s1]|]; [|discriminate].
  destruct (negb (rc =? 0)); [intros [= <- _]; auto | apply cg_destroy_result].
Qed.

Lemma destroy_all_results fuel st0 ctid l : forall (s s' : St) rs,
  destroy_all fuel st0 ctid l s = Some (rs, s') ->
  List.length rs = List.length l /\ Forall (fun r => r = 0 \/ r = VZCTL_E_SYSTEM) rs.
Proof.
  induction l as [|i l IH]; intros s s' rs.
  - intros [= <- _]. split; [reflexivity | constructor].
  - cbn [destroy_all]. unfold bind.
    destruct (destroy_step fuel st0 ctid i s) as [[r s1]|] eqn:D; [|discriminate].
    destruct (destroy_all fuel st0 ctid l s1) as [[rs' s2]|] eqn:A; [|discriminate].
    intros [= <- _]. destruct (IH _ _ _ A) as [L F]. split.
    + cbn. now rewrite L.
    + constructor; [exact (destroy_step_result _ _ _ _ _ _ _ D) | exact F].
Qed.

(** The OR of results that are 0 or VZCTL_E_SYSTEM: 0 when all are 0, else
    VZCTL_E_SYSTEM. *)
Lemma fold_lor_results (rs : list Z) : forall rv,
  (rv = 0 \/ rv = VZCTL_E_SYSTEM) ->
  Forall (fun r => r = 0 \/ r = VZCTL_E_SYSTEM) rs ->
  (fold_left Z.lor rs rv = 0 /\ rv = 0 /\ Forall (fun r => r = 0) rs)
  \/ (fold_left Z.lor rs rv = VZCTL_E_SYSTEM
      /\ (rv = VZCTL_E_SYSTEM \/ Exists (fun r => r = VZCTL_E_SYSTEM) rs)).
Proof.
  induction rs as [|r rs IH]; intros rv Hrv F.
  - destruct Hrv as [->| ->]; [left | right]; cbn; auto.
  - inversion F as [|? ? Hr F']; subst. cbn [fold_left].
    assert (L : Z.lor rv r = 0 /\ rv = 0 /\ r = 0
                \/ Z.lor rv r = VZCTL_E_SYSTEM
                   /\ (rv = VZCTL_E_SYSTEM \/ r = VZCTL_E_SYSTEM)).
    { destruct Hrv as [->| ->], Hr as [->| ->];
        rewrite ?Z.lor_0_l, ?Z.lor_0_r, ?Z.lor_diag; auto. }
    destruct L as [(E & -> & ->) | (E & H)].
    + destruct (IH (Z.lor 0 0) (or_introl eq_refl) F') as [(A & _ & B) | (A & [B | B])].
      * left. auto.
      * pose proof VZCTL_E_SYSTEM_nz. cbn in B. congruence.
      * right. split; [exact A | right; now constructor 2].
    + destruct (IH (Z.lor rv r) (or_intror E) F') as [(A & B & _) | (A & _)].
      * pose proof VZCTL_E_SYSTEM_nz. congruence.
      * right. split; [exact A|]. destruct H as [->| ->]; [now left|].
        right. now constructor 1.
Qed.

(** A directory that is not there is not an error for [rm_tree]. *)
Lemma rm_tree_missing fuel st0 path (s : St) w :
  os_open path O_DIRECTORY (os s) = (Err ENOENT, w) ->
  rm_tree fuel st0 path s = Some (0, with_os s w ENOENT).
Proof.
  intros O. unfold rm_tree, bind at 1, sys at 1. rewrite O. reflexivity.
Qed.

Lemma never_created_destroy fuel st0 ctid n : forall i (s : St),
  never_created n i ctid s = true ->
  exists s', destroy_all fuel st0 ctid (seq i n) s = Some (repeat 0 n, s').
Proof.
  induction n as [|n IH]; intros i s N; [now exists s|].
  cbn [never_created] in N. cbn [seq destroy_all repeat].
  unfold bind at 1. unfold destroy_step. unfold bind, ctl_subsys in N |- *.
  destruct (cg_get_ctl _ s) as [[[rc ctl] s1]|]; [|discriminate].
  destruct (negb (rc =? 0)).
  - destruct (IH _ _ N) as [s' E]. exists s'. unfold ret. now rewrite E.
  - unfold cg_destroy, bind, get_ctl.
    destruct (mount_path (ctl_at s1 _)).
    + destruct (get_cgroup_name _ _ _ s1) as [[path s2]|]; [|discriminate].
      destruct (os_open path O_DIRECTORY (os s2)) as [[fd|e] w] eqn:O; [discriminate|].
      apply andb_true_iff in N as [E N]. apply Z.eqb_eq in E. subst e.
      rewrite (rm_tree_missing _ _ _ _ _ O). cbn [Z.eqb negb]. unfold ret.
      destruct (IH _ _ N) as [s' E]. exists s'. now rewrite E.
    + destruct (IH _ _ N) as [s' E]. exists s'. unfold ret. now rewrite E.
Qed.

(** C6.  [cg_destroy_cgroup] takes every controller of the table in turn,
    whatever the earlier ones returned: it resolves the controller, skips
    it when it does not resolve, and else removes its directory.  The
    step of a controller that resolves is [cg_destroy], which runs
    [rm_tree] on the directory of the container and turns every result
    of it other than 0 into VZCTL_E_SYSTEM; a directory that cannot be
    opened, for another reason than its absence, is such a failure.  The
    result is the OR of the thirteen results: 0 when every one is 0, and
    the non-zero VZCTL_E_SYSTEM as soon as one controller failed, at
    whatever place of the table.  A
    directory that does not exist counts as removed, so that for a
    container that was never created the result is 0. *)
Theorem cg_destroy_cgroup_best_effort (fuel : nat) (st0 : stat) (ctid : string) (s : St) :
  cg_destroy_cgroup fuel st0 ctid s =
  match destroy_all fuel st0 ctid (seq 0 NCTL) s with
  | Some (rs, s') => Some (fold_left Z.lor rs 0, s')
  | None => None
  end
  /\ (forall rs s',
        destroy_all fuel st0 ctid (seq 0 NCTL) s = Some (rs, s') ->
        List.length rs = NCTL
        /\ ((fold_left Z.lor rs 0 = 0 /\ Forall (fun r => r = 0) rs)
            \/ (fold_left Z.lor rs 0 = VZCTL_E_SYSTEM
                /\ VZCTL_E_SYSTEM <> 0
                /\ Exists (fun r => r = VZCTL_E_SYSTEM) rs)))
  /\ (forall i (s0 s1 : St) rc ctl,
        cg_get_ctl (subsys (ctl_at s0 i)) s0 = Some ((rc, ctl), s1) ->
        rc <> 0 ->
        destroy_step fuel st0 ctid i s0 = Some (0, s1))
  /\ (forall path (s0 : St) w,
        os_open path O_DIRECTORY (os s0) = (Err ENOENT, w) ->
        rm_tree fuel st0 path s0 = Some (0, with_os s0 w ENOENT))
  /\ (never_created NCTL 0 ctid s = true ->
      exists s', cg_destroy_cgroup fuel st0 ctid s = Some (0, s'))
  /\ (forall i c (s0 s1 : St),
        cg_get_ctl (subsys (ctl_at s0 i)) s0 = Some ((0, Some c), s1) ->
        destroy_step fuel st0 ctid i s0 = cg_destroy fuel st0 ctid c s1)
  /\ (forall c q path (s0 s1 : St),
        mount_path (ctl_at s0 c) = Some q ->
        get_cgroup_name ctid c PATH_MAX s0 = Some (path, s1) ->
        cg_destroy fuel st0 ctid c s0 =
        match rm_tree fuel st0 path s1 with
        | Some (r, s2) => Some (if r =? 0 then 0 else VZCTL_E_SYSTEM, s2)
        | None => None
        end)
  /\ (forall path (s0 : St) e w,
        os_open path O_DIRECTORY (os s0) = (Err e, w) ->
        e <> ENOENT ->
        rm_tree fuel st0 path s0
        = Some (-1, mkState w e (ctl_map s0) (slice s0)
                      (log s0 ++ [mkLog (-1) e ("Can't open " +++ path)])))
  /\ (forall rs s',
        destroy_all fuel st0 ctid (seq 0 NCTL) s = Some (rs, s') ->
        In VZCTL_E_SYSTEM rs ->
        cg_destroy_cgroup fuel st0 ctid s = Some (VZCTL_E_SYSTEM, s')).
Proof.
  assert (E : cg_destroy_cgroup fuel st0 ctid s =
              match destroy_all fuel st0 ctid (seq 0 NCTL) s with
              | Some (rs, s') => Some (fold_left Z.lor rs 0, s')
              | None => None
              end) by apply cg_destroy_cgroup_for_all.
  split; [exact E|]. split; [|split; [|split; [|split; [|split; [|split; [|split]]]]]].
  - intros rs s' A. destruct (destroy_all_results _ _ _ _ _ _ _ A) as [L F].
    split; [rewrite L; apply length_seq|].
    destruct (fold_lor_results rs 0 (or_introl eq_refl) F) as [(A1 & _ & A2) | (A1 & [A2 | A2])].
    + left. auto.
    + pose proof VZCTL_E_SYSTEM_nz. congruence.
    + right. repeat split; [exact A1 | apply VZCTL_E_SYSTEM_nz | exact A2].
  - intros i s0 s1 rc ctl G NZ. unfold destroy_step, bind, ctl_subsys. rewrite G.
    destruct (Z.eqb_spec rc 0); [contradiction|]. reflexivity.
  - intros path s0 w. apply rm_tree_missing.
  - intros N. destruct (never_created_destroy fuel st0 ctid NCTL 0 s N) as [s' A].
    exists s'. rewrite E, A. reflexivity.
  - intros i c s0 s1 G. unfold destroy_step, bind, ctl_subsys. rewrite G.
    reflexivity.
  - intros c q path s0 s1 Mp G. unfold cg_destroy, bind at 1, get_ctl at 1.
    rewrite Mp. unfold bind at 1. rewrite G. unfold bind.
    destruct (rm_tree fuel st0 path s1) as [[r s2]|]; [|reflexivity].
    destruct (r =? 0); reflexivity.
  - intros path s0 e w O NE. unfold rm_tree, bind at 1, sys at 1. rewrite O.
    destruct (Z.eqb_spec e ENOENT); [contradiction|]. reflexivity.
  - intros rs s' A I. rewrite E, A.
    destruct (destroy_all_results _ _ _ _ _ _ _ A) as [_ F].
    destruct (fold_lor_results rs 0 (or_introl eq_refl) F)
      as [(_ & _ & A2) | (A1 & _)]; [|now rewrite A1].
    rewrite Forall_forall in A2. pose proof VZCTL_E_SYSTEM_nz as NZ.
    apply A2 in I. contradiction.
Qed.

(** ** Tree removal *)

(** One turn of the loop of [rm_tree] in a directory without a
    subdirectory left, up to the comparison with the root. *)
Lemma rm_tree_loop_no_subdir fuel rfuel st0 st rv parentfd fd name level
  (s s1 : St) pfd' fd' name' pst w2 :
  goto_next_dir parentfd fd name PATH_MAX st0 s = Some ((1, pfd', fd', name'), s1) ->
  os_fstat fd' (os s1) = (Ok pst, w2) ->
  rm_tree_loop (S fuel) rfuel st0 st rv parentfd fd name level s =
  (if st_ino st =? st_ino pst then ret (rv, pfd', fd')
   else
     pfd <- sys (os_openat pfd' "..") ;;
     match pfd with
     | Err e =>
         rc <- vzctl_err (-1) e "openad .." ;;
         ret (rc, pfd', fd')
     | Ok pfd =>
         sys (os_close fd') ;;;
         r <- (if negb (String.eqb name' "")
               then rmdir_retry rfuel pfd' name' else ret 0) ;;
         if negb (r =? 0) then ret (-1, pfd, pfd')
         else
           if level - 1 >=? 0
           then rm_tree_loop fuel rfuel st0 st rv pfd pfd' "" (level - 1)
           else ret (rv, pfd, pfd')
     end) (with_os s1 w2 (errno s1)).
Proof.
  intros G F. cbn [rm_tree_loop]. unfold bind at 1. rewrite G.
  cbn [Z.eqb Pos.eqb]. unfold bind at 1, sys at 1. rewrite F. reflexivity.
Qed.

(** C2, as the code has it.  In a directory without a subdirectory left
    the loop of [rm_tree] compares inode numbers only:
    - when the inode number of the current directory is that of the root,
      the loop ends there, whatever the device numbers, with [ret] as it
      was and nothing removed in this turn;
    - otherwise it opens [..], closes the current directory, removes the
      directory it came from with [rmdir_retry], and goes on one level up.
    After the loop [rm_tree] closes its descriptors and calls
    [rmdir(path)]; the result of that call is dropped, and [rm_tree]
    returns what the loop left in [ret]. *)
Theorem rm_tree_walk_ends_at_root_inode (fuel rfuel : nat) (st0 st : stat) :
  (forall rv parentfd fd name level (s s1 : St) pfd' fd' name' pst w2,
     goto_next_dir parentfd fd name PATH_MAX st0 s = Some ((1, pfd', fd', name'), s1) ->
     os_fstat fd' (os s1) = (Ok pst, w2) ->
     st_ino pst = st_ino st ->
     rm_tree_loop (S fuel) rfuel st0 st rv parentfd fd name level s =
     Some ((rv, pfd', fd'), with_os s1 w2 (errno s1)))
  /\ (forall rv parentfd fd name level (s s1 s5 : St) pfd' fd' name' pst w2 up w3 c w4,
        goto_next_dir parentfd fd name PATH_MAX st0 s = Some ((1, pfd', fd', name'), s1) ->
        os_fstat fd' (os s1) = (Ok pst, w2) ->
        st_ino pst <> st_ino st ->
        os_openat pfd' ".." w2 = (Ok up, w3) ->
        os_close fd' w3 = (c, w4) ->
        let s4 := with_os s1 w4 (match c with Ok _ => errno s1 | Err e => e end) in
        (if String.eqb name' "" then s5 = s4
         else rmdir_retry rfuel pfd' name' s4 = Some (0, s5)) ->
        rm_tree_loop (S fuel) rfuel st0 st rv parentfd fd name level s =
        if level - 1 >=? 0
        then rm_tree_loop fuel rfuel st0 st rv up pfd' "" (level - 1) s5
        else Some ((rv, up, pfd'), s5))
  /\ (forall path (s s3 : St) fd w1 w2 rv pfd cfd,
        os_open path O_DIRECTORY (os s) = (Ok fd, w1) ->
        os_fstat fd w1 = (Ok st, w2) ->
        rm_tree_loop fuel fuel st0 st 0 (-1) fd "" 0 (with_os s w2 (errno s))
        = Some ((rv, pfd, cfd), s3) ->
        exists s4,
          (close_unless_unset cfd ;;; close_unless_unset pfd) s3 = Some (tt, s4)
          /\ rm_tree fuel st0 path s =
             Some (rv, with_os s4 (snd (os_rmdir path (os s4)))
                         (match fst (os_rmdir path (os s4)) with
                          | Ok _ => errno s4
                          | Err e => e
                          end))).
Proof.
  split; [|split].
  - intros rv parentfd fd name level s s1 pfd' fd' name' pst w2 G F I.
    rewrite (rm_tree_loop_no_subdir _ _ _ _ _ _ _ _ _ _ _ _ _ _ _ _ G F).
    rewrite I, Z.eqb_refl. reflexivity.
  - intros rv parentfd fd name level s s1 s5 pfd' fd' name' pst w2 up w3 c w4
           G F I O Cl s4 R.
    rewrite (rm_tree_loop_no_subdir _ _ _ _ _ _ _ _ _ _ _ _ _ _ _ _ G F).
    destruct (Z.eqb_spec (st_ino st) (st_ino pst)) as [E|_]; [congruence|].
    unfold bind at 1, sys at 1. cbn [os with_os]. rewrite O.
    unfold bind at 1, sys at 1. cbn [os]. rewrite Cl.
    match goal with
    | |- context [mkState w4 ?e ?a ?b ?l] => change (mkState w4 e a b l) with s4
    end.
    destruct (String.eqb name' "").
    + subst s5. cbn [negb]. unfold bind at 1, ret at 1. cbn [Z.eqb negb].
      destruct (level - 1 >=? 0); reflexivity.
    + cbn [negb]. unfold bind at 1. rewrite R. cbn [Z.eqb negb].
      destruct (level - 1 >=? 0); reflexivity.
  - intros path s s3 fd w1 w2 rv pfd cfd O F L.
    assert (T : exists s4,
               (close_unless_unset cfd ;;; close_unless_unset pfd) s3 = Some (tt, s4)).
    { unfold close_unless_unset, bind, sys, ret.
      destruct (negb (cfd =? -1)); [destruct (os_close cfd (os s3))|];
        (destruct (negb (pfd =? -1)); [destruct (os_close pfd _)|]); eauto. }
    destruct T as [s4 T]. exists s4. split; [exact T|].
    unfold rm_tree. unfold bind at 1, sys at 1. rewrite O.
    unfold bind at 1, sys at 1. cbn [os]. rewrite F.
    unfold bind at 1. cbn [errno ctl_map slice log].
    change (mkState w2 (errno s) (ctl_map s) (slice s) (log s))
      with (with_os s w2 (errno s)).
    rewrite L.
    unfold bind in T |- *.
    destruct (close_unless_unset cfd s3) as [[[] sa]|]; [|discriminate].
    destruct (close_unless_unset pfd sa) as [[[] sb]|]; [|discriminate].
    injection T as ->. unfold sys, ret.
    destruct (os_rmdir path (os s4)) as [r w5]. reflexivity.
Qed.

(** * Further properties of the code *)

(** ** Mount resolver *)

Lemma strsep_all_nonempty sep s : strsep_all sep s <> [].
Proof.
  destruct s as [|c r]; cbn; [discriminate|].
  destruct (Ascii.eqb c sep); [discriminate|].
  destruct (strsep_all sep r); discriminate.
Qed.

Lemma strsep_all_no_sep sep s :
  has_char sep s = false -> strsep_all sep s = [s].
Proof.
  induction s as [|c r IH]; [reflexivity|]. cbn. intros H.
  apply orb_false_iff in H as [H1 H2]. rewrite H1, (IH H2). reflexivity.
Qed.

Lemma strsep_all_cons sep t rest :
  has_char sep t = false ->
  strsep_all sep (t +++ String sep rest) = t :: strsep_all sep rest.
Proof.
  induction t as [|c r IH]; intros H.
  - cbn. now rewrite Ascii.eqb_refl.
  - cbn in H |- *. apply orb_false_iff in H as [H1 H2]. rewrite H1, (IH H2).
    reflexivity.
Qed.

Lemma strsep_all_join (l : list string) :
  l <> [] ->
  forallb (fun t => negb (has_char ","%char t)) l = true ->
  strsep_all ","%char (Bitmap.join "," l) = l.
Proof.
  induction l as [|t l IH]; [contradiction|]. intros _ F.
  cbn in F. apply andb_true_iff in F as [F1 F2]. apply negb_true_iff in F1.
  destruct l as [|u l].
  - cbn. now apply strsep_all_no_sep.
  - change (Bitmap.join "," (t :: u :: l)) with (t +++ String ","%char (Bitmap.join "," (u :: l))).
    rewrite strsep_all_cons by exact F1. f_equal. apply IH; [discriminate | exact F2].
Qed.

(** X1.  [has_substr], in spite of its name, looks for [str] as a whole
    entry of the comma-separated list: among the options of a mount, "cpu"
    is found in "rw,cpu,cpuacct" and not in "rw,cpuacct". *)
Theorem has_substr_whole_option (opts : list string) (str : string) :
  opts <> [] ->
  forallb (fun t => negb (has_char ","%char t)) opts = true ->
  has_substr (Bitmap.join "," opts) str = true <-> In str opts.
Proof.
  intros NE F. unfold has_substr. rewrite (strsep_all_join opts NE F).
  rewrite existsb_exists. split.
  - intros (t & I & E). apply String.eqb_eq in E. now subst.
  - intros I. exists str. split; [exact I | apply String.eqb_refl].
Qed.

(** *** [fgets] on lines that fit *)

Lemma substring_0_0 s : substring 0 0 s = "".
Proof. destruct s; reflexivity. Qed.

Lemma substring_none s : forall n, substring n 0 s = "".
Proof.
  induction s as [|c s IH]; intros [|n]; cbn [substring]; auto.
Qed.

Lemma substring_whole s : forall n,
  (String.length s <= n)%nat -> substring 0 n s = s.
Proof.
  induction s as [|c s IH]; intros [|n] L; cbn in L |- *; try reflexivity; [lia|].
  f_equal. apply IH. lia.
Qed.

Lemma append_assoc3 (a b c : string) : (a +++ b) +++ c = a +++ b +++ c.
Proof.
  induction a as [|x a IH]; [reflexivity|]. cbn [append]. now rewrite IH.
Qed.

Lemma strlen_app a b : strlen (a +++ b) = strlen a + strlen b.
Proof.
  unfold strlen. induction a as [|c a IH]; [reflexivity|].
  cbn [append String.length]. lia.
Qed.

Lemma cut_short fuel n s :
  s <> "" -> (String.length s <= n)%nat -> cut (S fuel) n s = [s].
Proof.
  intros NE L. cbn [cut]. destruct s as [|c s]; [contradiction|].
  rewrite substring_whole by exact L.
  replace (String.length (String c s) - n)%nat with 0%nat by lia.
  rewrite substring_none. destruct fuel; reflexivity.
Qed.

Lemma with_nl_length line :
  String.length (with_nl line) = S (String.length line).
Proof.
  unfold with_nl. induction line as [|c l IH]; [reflexivity|].
  cbn [append String.length]. now rewrite IH.
Qed.

Lemma fgets_line_short size line :
  short_line size line = true -> fgets_line size line = [with_nl line].
Proof.
  unfold short_line, fgets_line, strlen. intros H. apply Z.ltb_lt in H.
  pose proof (with_nl_length line) as L.
  rewrite L. apply cut_short; [unfold with_nl; destruct line; discriminate|].
  rewrite L. lia.
Qed.

Lemma fgets_all_short size lines :
  forallb (short_line size) lines = true ->
  fgets_all size lines = map with_nl lines.
Proof.
  unfold fgets_all. induction lines as [|l lines IH]; [reflexivity|].
  cbn [forallb flat_map map]. intros H. apply andb_true_iff in H as [H1 H2].
  now rewrite (fgets_line_short _ _ H1), (IH H2).
Qed.

Lemma scan_mounts_skip subsys pre : forall rest,
  forallb (fun buf => negb (qualifies subsys buf)) pre = true ->
  scan_mounts subsys (pre ++ rest) = scan_mounts subsys rest.
Proof.
  induction pre as [|b pre IH]; intros rest F; [reflexivity|].
  cbn [forallb] in F. apply andb_true_iff in F as [F1 F2].
  apply negb_true_iff in F1. cbn [app scan_mounts]. unfold qualifies in F1.
  destruct (sscanf_mounts b) as [[n t] o].
  destruct (n =? 2); cbn [negb andb] in F1 |- *; [rewrite F1|]; now apply IH.
Qed.

Lemma scan_mounts_hit subsys buf post :
  qualifies subsys buf = true ->
  scan_mounts subsys (buf :: post) = Some (snd (fst (sscanf_mounts buf))).
Proof.
  unfold qualifies. cbn [scan_mounts]. destruct (sscanf_mounts buf) as [[n t] o].
  intros Q. apply andb_true_iff in Q as [Q1 Q2]. now rewrite Q1, Q2.
Qed.

(** X2.  In a mount table whose lines [fgets] stores whole (a line has
    fewer than 4095 characters), [get_mount_path] takes the first line
    that qualifies: a cgroup line whose options hold the name looked for
    (for the systemd controller: the option name=systemd).  It returns 0
    with the target of that line; the lines in front that do not qualify
    and all the lines behind, whatever their length, have no influence.
    When no line of the table qualifies it returns 1 and leaves [out] as
    it was. *)
Theorem scan_mounts_first_match (subsys out : string) (size : Z)
  (pre : list string) (s : St) (w : W) :
  forallb (short_line PATH_MAX) pre = true ->
  forallb (fun l => negb (qualifies subsys (with_nl l))) pre = true ->
  (os_proc_mounts (os s) = (Ok pre, w) ->
   get_mount_path subsys out size s = Some ((1, out), with_os s w (errno s)))
  /\ (forall line post,
        short_line PATH_MAX line = true ->
        qualifies subsys (with_nl line) = true ->
        os_proc_mounts (os s) = (Ok (pre ++ line :: post), w) ->
        get_mount_path subsys out size s
        = Some ((0, snprintf size (snd (fst (sscanf_mounts (with_nl line))))),
                with_os s w (errno s))).
Proof.
  intros Sh F.
  assert (F' : forallb (fun buf => negb (qualifies subsys buf)) (map with_nl pre)
               = true).
  { rewrite forallb_forall in F |- *. intros b I. apply in_map_iff in I.
    destruct I as (l & <- & I). now apply F. }
  split.
  - intros P. unfold get_mount_path, bind, sys. rewrite P.
    rewrite (fgets_all_short _ _ Sh).
    rewrite <- (app_nil_r (map with_nl pre)), (scan_mounts_skip _ _ [] F').
    reflexivity.
  - intros line post L Q P. unfold get_mount_path, bind, sys. rewrite P.
    unfold fgets_all. rewrite flat_map_app. fold (fgets_all PATH_MAX pre).
    rewrite (fgets_all_short _ _ Sh), (scan_mounts_skip _ _ _ F').
    cbn [flat_map]. rewrite (fgets_line_short _ _ L). cbn [app].
    rewrite (scan_mounts_hit _ _ _ Q). reflexivity.
Qed.

(** ** The controller table *)

Lemma nth_set_nth_same {A} (l : list A) i a d :
  (i < List.length l)%nat -> nth i (set_nth i a l) d = a.
Proof.
  revert i. induction l as [|x l IH]; intros i H; [cbn in H; lia|].
  destruct i; [reflexivity|]. cbn in H |- *. apply IH. lia.
Qed.

Lemma nth_set_nth_other {A} (l : list A) i j a d :
  i <> j -> nth j (set_nth i a l) d = nth j l d.
Proof.
  revert i j. induction l as [|x l IH]; intros i j H.
  - destruct i, j; reflexivity.
  - destruct i, j; try reflexivity; [contradiction|]. cbn. apply IH. lia.
Qed.

Lemma find_cg_ctl_from_found k name tbl i :
  find_cg_ctl_from k name tbl = Some i ->
  (k <= i < k + List.length tbl)%nat /\ subsys (nth (i - k) tbl null_ctl) = name.
Proof.
  revert k. induction tbl as [|c tbl IH]; intros k; [discriminate|].
  cbn [find_cg_ctl_from]. destruct (String.eqb_spec (subsys c) name) as [E|NE].
  - intros [= <-]. rewrite Nat.sub_diag. cbn. split; [lia | exact E].
  - intros H. destruct (IH _ H) as [B Hs]. cbn [List.length]. split; [lia|].
    replace (i - k)%nat with (S (i - S k)) by lia. exact Hs.
Qed.

Lemma find_cg_ctl_from_names k name tbl tbl' :
  map subsys tbl' = map subsys tbl ->
  find_cg_ctl_from k name tbl' = find_cg_ctl_from k name tbl.
Proof.
  revert k tbl'. induction tbl as [|c tbl IH]; intros k [|c' tbl'] H;
    try discriminate; [reflexivity|].
  cbn in H. injection H as H1 H2. cbn [find_cg_ctl_from]. rewrite H1.
  destruct (String.eqb (subsys c) name); [reflexivity | now apply IH].
Qed.

Lemma map_set_nth_same {A B} (f : A -> B) (l : list A) i a d :
  f a = f (nth i l d) -> map f (set_nth i a l) = map f l.
Proof.
  revert i. induction l as [|x l IH]; intros i H; [destruct i; reflexivity|].
  destruct i; cbn in H |- *; [now rewrite H | now rewrite IH].
Qed.

(** X3.  The mount path of a controller is resolved once.  A call of
    [cg_get_ctl] that returns 0 leaves the controller with a mount path,
    and from then on the same call returns 0 with the same entry and
    without a step of the kernel.  A call that fails caches nothing.  No
    call changes a name, a private flag or a mount path that was already
    resolved. *)
Theorem cg_get_ctl_resolves_once (name : string) (s s' : St) r ctl :
  cg_get_ctl name s = Some ((r, ctl), s') ->
  (r <> 0 -> ctl_map s' = ctl_map s)
  /\ (r = 0 ->
      exists i p,
        ctl = Some i
        /\ subsys (ctl_at s' i) = name
        /\ mount_path (ctl_at s' i) = Some p
        /\ cg_get_ctl name s' = Some ((0, Some i), s'))
  /\ (forall j,
        subsys (ctl_at s' j) = subsys (ctl_at s j)
        /\ is_prvt (ctl_at s' j) = is_prvt (ctl_at s j)
        /\ forall q, mount_path (ctl_at s j) = Some q ->
                     mount_path (ctl_at s' j) = Some q).
Proof.
  unfold cg_get_ctl. destruct (find_cg_ctl name (ctl_map s)) as [i|] eqn:F.
  2:{ intros [= <- <- <-]. cbn. repeat split; try reflexivity; try discriminate.
      intros q H; exact H. }
  destruct (find_cg_ctl_from_found _ _ _ _ F) as [B N]. rewrite Nat.sub_0_r in N.
  destruct (mount_path (ctl_at s i)) as [p|] eqn:Mp.
  { intros [= <- <- <-]. split; [intros H; now contradiction H|]. split.
    - intros _. exists i, p. repeat split; try assumption.
      rewrite F, Mp. reflexivity.
    - intros j. repeat split. intros q H; exact H. }
  unfold bind at 1, get_mount_path. unfold bind at 1, sys at 1.
  destruct (os_proc_mounts (os s)) as [[lines|e] w].
  2:{ intros [= <- <- <-]. cbn. repeat split; try reflexivity; try discriminate.
      intros q H; exact H. }
  destruct (scan_mounts name (fgets_all PATH_MAX lines)) as [target|].
  2:{ intros [= <- <- <-]. cbn. repeat split; try reflexivity; try discriminate.
      intros q H; exact H. }
  unfold ret at 1. cbn [Z.eqb negb]. unfold bind at 1, ext at 1. cbn [os].
  destruct (os_alloc w) as [[|] w2].
  2:{ intros [= <- <- <-]. cbn. repeat split; try reflexivity; try discriminate.
      intros q H; exact H. }
  cbn [negb]. unfold bind, set_mount_path, ret. intros [= <- <- <-].
  cbn [ctl_map ctl_at os errno slice log].
  assert (L : (i < List.length (ctl_map s))%nat) by lia.
  split; [intros H; now contradiction H|]. split.
  - intros _. exists i, (snprintf PATH_MAX target).
    unfold ctl_at. cbn [ctl_map]. rewrite nth_set_nth_same by exact L.
    repeat split; [exact N|].
    unfold find_cg_ctl.
    erewrite (find_cg_ctl_from_names 0 name (ctl_map s))
      by (apply map_set_nth_same with (d := null_ctl); reflexivity).
    fold (find_cg_ctl name (ctl_map s)). rewrite F.
    rewrite nth_set_nth_same by exact L. reflexivity.
  - intros j. unfold ctl_at. cbn [ctl_map]. destruct (Nat.eq_dec i j) as [<-|NE].
    + rewrite nth_set_nth_same by exact L. repeat split.
      intros q H. unfold ctl_at in Mp. congruence.
    + rewrite nth_set_nth_other by exact NE. repeat split. intros q H; exact H.
Qed.

(** X4.  The slice name is read from the configuration on the first call
    only: that call asks for the key VE_CGROUP_SLICE and returns its
    value, cut to the 63 characters that fit the buffer, or
    "machine.slice" when the key is not set.  Every later call returns
    the same name without a step of the kernel, whatever the
    configuration says by then. *)
Theorem cg_get_slice_name_fixed (s s1 : St) (v : string) :
  cg_get_slice_name s = Some (v, s1) ->
  slice s1 = Some v
  /\ (forall s2 : St, slice s2 = Some v -> cg_get_slice_name s2 = Some (v, s2))
  /\ (slice s = None ->
      os s1 = snd (os_get_global_param "VE_CGROUP_SLICE" (os s))
      /\ v = match fst (os_get_global_param "VE_CGROUP_SLICE" (os s)) with
             | Some p => snprintf 64 p
             | None => "machine.slice"
             end)
  /\ (forall v0, slice s = Some v0 -> v = v0 /\ s1 = s).
Proof.
  unfold cg_get_slice_name. destruct (slice s) as [v0|] eqn:S.
  - intros [= <- <-]. split; [exact S|]. split; [|split; [discriminate|]].
    + intros s2 S2. now rewrite S2.
    + intros v1 [= <-]. auto.
  - unfold bind, ext. destruct (os_get_global_param _ (os s)) as [p w].
    intros [= <- <-]. cbn [slice fst snd os]. split; [reflexivity|].
    split; [|split; [auto | discriminate]].
    intros s2 S2. now rewrite S2.
Qed.

(** ** Parameter write *)

Lemma strlen_nonneg s : 0 <= strlen s.
Proof. unfold strlen. lia. Qed.

(** X5.  [write_data] returns 0, 1 or -1.  It returns 1 exactly when the
    file cannot be opened because it does not exist, and 0 only when the
    kernel took all the bytes and closed the file.  When [write] fails,
    the errno of that failure is what the caller finds in [errno], also
    when the [close] that follows fails with another one. *)
Theorem write_data_result (path data : string) (s s' : St) (r : Z) :
  write_data path data s = Some (r, s') ->
  (r = 0 \/ r = 1 \/ r = -1)
  /\ (r = 1 <-> fst (os_open path O_WRONLY (os s)) = Err ENOENT)
  /\ (r = 0 ->
      exists fd w1 w2,
        os_open path O_WRONLY (os s) = (Ok fd, w1)
        /\ os_write fd data (strlen data) w1 = (Ok (strlen data), w2)
        /\ fst (os_close fd w2) = Ok tt)
  /\ (forall fd w1 e w2,
        os_open path O_WRONLY (os s) = (Ok fd, w1) ->
        os_write fd data (strlen data) w1 = (Err e, w2) ->
        r = -1 /\ errno s' = e).
Proof.
  pose proof (strlen_nonneg data) as L.
  unfold write_data, do_write_data, vzctl_err, bind, sys, logger, get_errno,
    set_errno, ret.
  cbn [os errno].
  destruct (os_open path O_WRONLY (os s)) as [[fd|e] w1]; cbn [fst os errno].
  - destruct (os_write fd data (strlen data) w1) as [[n|e] w2] eqn:Wr;
      cbn [os errno].
    + destruct (Z.eqb_spec n (strlen data)) as [->|NE]; cbn [negb os errno Z.eqb].
      * destruct (os_close fd w2) as [[[]|e] w3] eqn:Cl; intros [= <- <-];
          (split; [auto|]); (split; [split; discriminate|]).
        -- split; [|intros ? ? ? ? [= <- <-]; rewrite Wr; discriminate].
           intros _. exists fd, w1, w2.
           split; [reflexivity|]. split; [exact Wr|]. rewrite Cl. reflexivity.
        -- split; [discriminate|].
           intros ? ? ? ? [= <- <-]; rewrite Wr; discriminate.
      * destruct (n <? 0); cbn [Z.eqb Pos.eqb os errno];
          destruct (os_close fd w2) as [c w3];
          intros [= <- <-]; (split; [auto|]); (split; [split; discriminate|]);
          (split; [discriminate|]);
          intros ? ? ? ? [= <- <-]; rewrite Wr; discriminate.
    + destruct (Z.eqb_spec (-1) (strlen data)) as [E|_]; [lia|].
      cbn [negb Z.ltb Z.compare Z.eqb Pos.eqb os errno].
      destruct (os_close fd w2) as [c w3].
      intros [= <- <-]. split; [auto|]. split; [split; discriminate|].
      split; [discriminate|].
      intros ? ? ? ? [= <- <-]. rewrite Wr. intros [= <- <-]. cbn. auto.
  - intros [= <- <-].
    destruct (Z.eqb_spec e ENOENT) as [->|NE].
    + split; [auto|]. split; [split; reflexivity|]. split; [discriminate|].
      intros ? ? ? ?; discriminate.
    + split; [auto|]. split; [split; [discriminate | intros [= ?]; contradiction]|].
      split; [discriminate|]. intros ? ? ? ?; discriminate.
Qed.

(** ** Removal with retry, its bound *)

Lemma rmdir_retry_loop_returns fd name n : forall i (s : St),
  (i <= 64)%nat -> (65 <= i + n)%nat ->
  exists r s',
    rmdir_retry_loop n fd name (cumulative i) (backoff i) s = Some (r, s')
    /\ (r = 0 \/ r = -1).
Proof.
  induction n as [|n IH]; intros i s I N; [lia|].
  destruct (os_unlinkat fd name (os s)) as [[u|e] w1] eqn:U.
  - cbn [rmdir_retry_loop]. unfold bind, sys. rewrite U. eexists _, _.
    split; [reflexivity | auto].
  - destruct (Z.eqb_spec e EBUSY) as [->|NE].
    + rewrite (rmdir_retry_loop_busy _ _ _ _ _ _ _ U). cbv zeta.
      rewrite backoff_next.
      assert (T : (cumulative i + backoff i) mod UINT_MOD = cumulative (S i)).
      { cbn [cumulative]. apply Z.mod_small. pose proof (cumulative_nonneg i).
        pose proof (backoff_range i).
        pose proof (cumulative_below_budget i ltac:(lia)).
        unfold UINT_MOD, timeout in *. simpl. lia. }
      rewrite T. destruct (Z.ltb_spec (cumulative (S i)) timeout) as [Lt|Ge].
      * assert (i < 64)%nat.
        { destruct (Nat.eq_dec i 64) as [->|]; [|lia].
          assert (cumulative 65 = 30130000) by reflexivity.
          unfold timeout in Lt. lia. }
        apply IH; lia.
      * eexists _, _. split; [reflexivity | auto].
    + cbn [rmdir_retry_loop]. unfold bind at 1, sys at 1. rewrite U.
      destruct (Z.eqb_spec e EBUSY); [contradiction|]. cbn [negb].
      eexists _, _. split; [reflexivity | auto].
Qed.

(** X6.  [rmdir_retry] always comes back: whatever the kernel answers, 65
    calls of [unlinkat] are enough for it to return, and it returns 0 or
    -1. *)
Theorem rmdir_retry_returns_within_65 (fuel : nat) (fd : Z) (name : string) (s : St) :
  (65 <= fuel)%nat ->
  exists r s', rmdir_retry fuel fd name s = Some (r, s') /\ (r = 0 \/ r = -1).
Proof.
  intros F. apply (rmdir_retry_loop_returns fd name fuel 0 s); lia.
Qed.

(** ** Per-controller symlinks *)

(** X7.  [create_perctl_symlink] does nothing for a mount path that has
    no slash or whose last component has no comma: it returns 0 and makes
    no call. *)
Theorem create_perctl_symlink_single_name (root path : string) (s : St) :
  match after_last_slash path with
  | None => True
  | Some p => has_char ","%char (snprintf STR_SIZE p) = false
  end ->
  create_perctl_symlink root path s = Some (0, s).
Proof.
  unfold create_perctl_symlink. destruct (after_last_slash path) as [p|]; [|reflexivity].
  intros H. rewrite (strsep_all_no_sep _ _ H). reflexivity.
Qed.

(** ** CPU weight *)

(** X8.  [cg_env_set_cpuunits] scales by 1024/1000 in [unsigned int]: the
    value written is the integer quotient of [cpuunits * 1024] by 1000 as
    long as [cpuunits] is below 2^22; from there on the product wraps, and
    units that differ by a multiple of 2^22 write the same weight. *)
Theorem cg_env_set_cpuunits_wraps (ctid : string) (cpuunits : Z) :
  0 <= cpuunits < UINT_MOD ->
  cg_env_set_cpuunits ctid cpuunits
  = cg_set_ul (Some ctid) CG_CPU "cpu.shares" ((cpuunits mod 2 ^ 22) * 1024 / 1000)
  /\ (cpuunits < 2 ^ 22 ->
      cg_env_set_cpuunits ctid cpuunits
      = cg_set_ul (Some ctid) CG_CPU "cpu.shares" (cpuunits * 1024 / 1000)).
Proof.
  intros H. unfold cg_env_set_cpuunits.
  rewrite (Z.mod_small cpuunits UINT_MOD) by exact H.
  change UINT_MOD with (2 ^ 22 * 1024). rewrite Z.mul_mod_distr_r by lia.
  split; [reflexivity|]. intros L. rewrite Z.mod_small by lia. reflexivity.
Qed.

(** ** Unsigned 64-bit parameters *)

Lemma digit_char (d : Z) :
  0 <= d < 10 ->
  isdigit (ascii_of_nat (48 + Z.to_nat d)) = true
  /\ Z.of_nat (nat_of_ascii (ascii_of_nat (48 + Z.to_nat d))) - 48 = d.
Proof.
  intros H. unfold isdigit. rewrite nat_ascii_embedding by lia. split.
  - apply andb_true_iff. split; apply Nat.leb_le; lia.
  - lia.
Qed.

Lemma isdigit_plain (c : ascii) :
  isdigit c = true ->
  isspace c = false /\ Ascii.eqb c "-"%char = false /\ Ascii.eqb c "+"%char = false.
Proof.
  destruct c as [[] [] [] [] [] [] [] []]; intros H; vm_compute in H;
    try discriminate H; vm_compute; repeat split.
Qed.

Lemma dec_digits_app fuel : forall n acc tail,
  dec_digits fuel n acc +++ tail = dec_digits fuel n (acc +++ tail).
Proof.
  induction fuel as [|fuel IH]; intros n acc tail; cbn [dec_digits]; [reflexivity|].
  destruct (n / 10 =? 0); [reflexivity|]. apply IH.
Qed.

Lemma dec_digits_head fuel : forall n acc,
  0 <= n ->
  exists c r, dec_digits (S fuel) n acc = String c r /\ isdigit c = true.
Proof.
  induction fuel as [|fuel IH]; intros n acc N.
  - cbn [dec_digits]. destruct (digit_char (n mod 10)) as [D _].
    { apply Z.mod_pos_bound. lia. }
    destruct (n / 10 =? 0); eexists _, _; (split; [reflexivity | exact D]).
  - change (dec_digits (S (S fuel)) n acc)
      with (if n / 10 =? 0
            then String (ascii_of_nat (48 + Z.to_nat (n mod 10))) acc
            else dec_digits (S fuel) (n / 10)
                            (String (ascii_of_nat (48 + Z.to_nat (n mod 10))) acc)).
    destruct (n / 10 =? 0).
    + destruct (digit_char (n mod 10)) as [D _].
      { apply Z.mod_pos_bound. lia. }
      eexists _, _. split; [reflexivity | exact D].
    + apply IH. apply Z.div_pos; lia.
Qed.

Lemma scan_digits_dec_digits fuel : forall n acc a,
  0 <= n < 10 ^ Z.of_nat (S fuel) ->
  exists k, 0 <= k /\
    forall any, scan_digits (dec_digits (S fuel) n acc) a any
                = scan_digits acc (a * 10 ^ k + n) true.
Proof.
  assert (One : forall n acc a any, 0 <= n -> n / 10 = 0 ->
            scan_digits (String (ascii_of_nat (48 + Z.to_nat (n mod 10))) acc) a any
            = scan_digits acc (a * 10 ^ 1 + n) true).
  { intros n acc a any N Q. cbn [scan_digits].
    destruct (digit_char (n mod 10)) as [D V].
    { apply Z.mod_pos_bound. lia. }
    rewrite D, V. f_equal. pose proof (Z.div_mod n 10 ltac:(lia)). lia. }
  induction fuel as [|fuel IH]; intros n acc a N.
  - exists 1. split; [lia|]. intros any. cbn [dec_digits].
    assert (Q : n / 10 = 0). { apply Z.div_small. change (10 ^ Z.of_nat 1) with 10 in N. lia. }
    rewrite Q. cbn [Z.eqb]. apply One; [lia | exact Q].
  - change (dec_digits (S (S fuel)) n acc)
      with (if n / 10 =? 0
            then String (ascii_of_nat (48 + Z.to_nat (n mod 10))) acc
            else dec_digits (S fuel) (n / 10)
                            (String (ascii_of_nat (48 + Z.to_nat (n mod 10))) acc)).
    destruct (Z.eqb_spec (n / 10) 0) as [Q|Q].
    + exists 1. split; [lia|]. intros any. apply One; [lia | exact Q].
    + destruct (IH (n / 10) (String (ascii_of_nat (48 + Z.to_nat (n mod 10))) acc) a)
        as (k & Kk & H).
      { split; [apply Z.div_pos; lia|]. apply Z.div_lt_upper_bound; [lia|].
        rewrite Nat2Z.inj_succ, Z.pow_succ_r in N by lia. lia. }
      exists (k + 1). split; [lia|]. intros any. rewrite H. cbn [scan_digits].
      destruct (digit_char (n mod 10)) as [D V].
      { apply Z.mod_pos_bound. lia. }
      rewrite D, V. f_equal. rewrite Z.pow_add_r by lia.
      pose proof (Z.div_mod n 10 ltac:(lia)). change (10 ^ 1) with 10. lia.
Qed.

(** [strtoull] reads back what ["%llu"] printed, up to the first character
    that is no digit. *)
Lemma strtoull_fmt_lu (v : Z) (tail : string) :
  match tail with String c _ => isdigit c = false | EmptyString => True end ->
  strtoull (fmt_lu v +++ tail) = (ulong v, tail, false).
Proof.
  intros T. unfold fmt_lu.
  pose proof (Z.mod_pos_bound v ULONG_MOD ltac:(reflexivity)) as B. fold (ulong v) in B.
  assert (Big : ULONG_MOD < 10 ^ Z.of_nat 20) by (vm_compute; reflexivity).
  destruct (dec_digits_head 19 (ulong v) "" (proj1 B)) as (c & r & E & D).
  destruct (isdigit_plain c D) as (Sp & Mi & Pl).
  destruct (scan_digits_dec_digits 19 (ulong v) tail 0 ltac:(lia)) as (k & _ & Sc).
  specialize (Sc false).
  pose proof (dec_digits_app 20 (ulong v) "" tail) as A. cbn [append] in A.
  rewrite <- A in Sc. clear A.
  rewrite Z.mul_0_l, Z.add_0_l in Sc.
  assert (St : scan_digits tail (ulong v) true = (ulong v, tail, true)).
  { destruct tail as [|t tail]; [reflexivity|]. cbn [scan_digits]. now rewrite T. }
  rewrite St in Sc. unfold strtoull.
  assert (Sk : skip_ws (dec_digits 20 (ulong v) "" +++ tail)
               = dec_digits 20 (ulong v) "" +++ tail).
  { rewrite E. cbn [append skip_ws]. now rewrite Sp. }
  rewrite Sk. cbv zeta.
  assert (Sg : match dec_digits 20 (ulong v) "" +++ tail with
               | String c0 r0 =>
                   if Ascii.eqb c0 "-"%char then (true, r0)
                   else if Ascii.eqb c0 "+"%char then (false, r0)
                   else (false, dec_digits 20 (ulong v) "" +++ tail)
               | EmptyString => (false, dec_digits 20 (ulong v) "" +++ tail)
               end = (false, dec_digits 20 (ulong v) "" +++ tail)).
  { rewrite E at 1. cbn [append]. now rewrite Mi, Pl. }
  rewrite Sg, Sc. cbn [negb].
  destruct (Z.leb_spec ULONG_MOD (ulong v)); [lia | reflexivity].
Qed.

(** X9.  [cg_get_ull] reads back what [cg_set_ull] writes: when the
    parameter holds the decimal text of [v], the result is 0 and the
    value [v] as an [unsigned long long]; text behind the digits makes the
    result -1, the value being stored all the same; a parameter that
    holds no text at all reads as 0 with result 0.  [errno] is 0 on
    return in each case. *)
Theorem cg_get_ull_reads_decimal (ctid : option string) (subsys name : string)
  (data buf : cbuf) (s s1 : St) :
  cg_get_param ctid subsys name data 32 s = Some ((0, buf), s1) ->
  let s2 := mkState (os s1) 0 (ctl_map s1) (slice s1) (log s1) in
  (forall v tail,
      buf_str buf = fmt_lu v +++ tail ->
      match tail with String c _ => isdigit c = false | EmptyString => True end ->
      cg_get_ull ctid subsys name data s
      = Some ((if String.eqb tail "" then 0 else -1, Some (ulong v)), s2))
  /\ (buf_str buf = "" ->
      cg_get_ull ctid subsys name data s = Some ((0, Some 0), s2)).
Proof.
  intros G s2. split.
  - intros v tail B T. unfold cg_get_ull, bind. rewrite G. cbn [negb Z.eqb].
    unfold set_errno at 1. rewrite B, (strtoull_fmt_lu v tail T).
    cbn [os errno ctl_map slice log]. unfold ret at 1. cbn [orb].
    destruct (String.eqb tail ""); reflexivity.
  - intros B. unfold cg_get_ull, bind. rewrite G. cbn [negb Z.eqb].
    unfold set_errno at 1. rewrite B. reflexivity.
Qed.


(** ** Descent: who owns which descriptor *)

Lemma goto_next_dir_scan_result parentfd fd out size ents : forall st (s : St),
  exists rc pfd' fd' out' s',
    goto_next_dir_scan ents parentfd fd out size st s
    = Some ((rc, pfd', fd', out'), s')
    /\ (((rc = 1 \/ rc = -1) /\ pfd' = parentfd /\ fd' = fd /\ out' = out)
        \/ (rc = 0 /\ pfd' = fd
            /\ exists d_name,
                 In d_name ents /\ d_name <> "." /\ d_name <> ".."
                 /\ out' = snprintf size d_name)).
Proof.
  induction ents as [|d ents IH]; intros st s.
  - eexists _, _, _, _, _. split; [reflexivity|]. left. auto.
  - assert (Next : forall st1 (s1 : St),
              exists rc pfd' fd' out' s',
                goto_next_dir_scan ents parentfd fd out size st1 s1
                = Some ((rc, pfd', fd', out'), s')
                /\ (((rc = 1 \/ rc = -1) /\ pfd' = parentfd /\ fd' = fd /\ out' = out)
                    \/ (rc = 0 /\ pfd' = fd
                        /\ exists d_name,
                             In d_name (d :: ents) /\ d_name <> "." /\ d_name <> ".."
                             /\ out' = snprintf size d_name))).
    { intros st1 s1. destruct (IH st1 s1) as (rc & p & f & o & s' & E & H).
      exists rc, p, f, o, s'. split; [exact E|].
      destruct H as [H|(R & P & dn & I & N)]; [left; exact H|].
      right. split; [exact R|]. split; [exact P|]. exists dn.
      split; [right; exact I | exact N]. }
    clear IH. cbn [goto_next_dir_scan].
    destruct (String.eqb_spec d ".") as [->|D1]; [apply Next|].
    destruct (String.eqb_spec d "..") as [->|D2]; [apply Next|]. cbn [orb].
    assert (Inspect : forall st1 (s1 : St),
              exists rc pfd' fd' out' s',
                (if st_isdir st1 then
                   next <- sys (os_openat fd d) ;;
                   match next with
                   | Err e =>
                       if e =? ENOENT
                       then goto_next_dir_scan ents parentfd fd out size st1
                       else rc <- vzctl_err (-1) e ("openat " +++ d) ;;
                            ret (rc, parentfd, fd, out)
                   | Ok next =>
                       close_unless_unset parentfd ;;;
                       ret (0, fd, next, snprintf size d)
                   end
                 else goto_next_dir_scan ents parentfd fd out size st1) s1
                = Some ((rc, pfd', fd', out'), s')
                /\ (((rc = 1 \/ rc = -1) /\ pfd' = parentfd /\ fd' = fd /\ out' = out)
                    \/ (rc = 0 /\ pfd' = fd
                        /\ exists d_name,
                             In d_name (d :: ents) /\ d_name <> "." /\ d_name <> ".."
                             /\ out' = snprintf size d_name))).
    { intros st1 s1. destruct (st_isdir st1); [|apply Next].
      unfold bind at 1, sys at 1.
      destruct (os_openat fd d (os s1)) as [[next|e] w].
      - unfold close_unless_unset, bind, sys, ret.
        destruct (negb (parentfd =? -1)); cbn [os];
          [destruct (os_close parentfd w) as [c w']|];
          (eexists _, _, _, _, _; split; [reflexivity|]; right;
           split; [reflexivity|]; split; [reflexivity|]; exists d;
           split; [left; reflexivity | auto]).
      - destruct (e =? ENOENT); [apply Next|].
        eexists _, _, _, _, _. split; [reflexivity|]. left. auto. }
    unfold bind at 1, sys at 1.
    destruct (os_fstatat fd d (os s)) as [[st'|e] w]; [apply Inspect|].
    destruct (negb (e =? ENOENT)); [|apply Inspect].
    unfold bind at 1, vzctl_err at 1, bind at 1, logger at 1, ret at 1.
    apply Next.
Qed.

(** X10.  [goto_next_dir] always returns, with 0, 1 or -1.  With 1 (no
    subdirectory) and with -1 (an error) the caller's [*parentfd], [*fd]
    and [out] are as they were.  With 0 the directory that was current is
    the new parent, and [out] is the name of an entry of the directory
    other than "." and "..". *)
Theorem goto_next_dir_hands_over (parentfd fd : Z) (out : string) (size : Z)
  (st0 : stat) (s : St) :
  exists rc pfd' fd' out' s',
    goto_next_dir parentfd fd out size st0 s = Some ((rc, pfd', fd', out'), s')
    /\ (((rc = 1 \/ rc = -1) /\ pfd' = parentfd /\ fd' = fd /\ out' = out)
        \/ (rc = 0 /\ pfd' = fd
            /\ exists ents d_name,
                 fst (os_readdir fd (os s)) = Ok ents
                 /\ In d_name ents /\ d_name <> "." /\ d_name <> ".."
                 /\ out' = snprintf size d_name)).
Proof.
  unfold goto_next_dir, bind at 1, sys at 1.
  destruct (os_readdir fd (os s)) as [[ents|e] w].
  - destruct (goto_next_dir_scan_result parentfd fd out size ents st0
                (mkState w (errno s) (ctl_map s) (slice s) (log s)))
      as (rc & p & f & o & s' & E & H).
    exists rc, p, f, o, s'. split; [exact E|].
    destruct H as [H|(R & P & dn & I & N)]; [left; exact H|].
    right. split; [exact R|]. split; [exact P|]. exists ents, dn.
    split; [reflexivity|]. split; [exact I | exact N].
  - eexists _, _, _, _, _. split; [reflexivity|]. left. auto.
Qed.

(** ** Tree removal: the result *)

Lemma rm_tree_loop_result fuel rfuel st0 st rv : forall parentfd fd name level
  (s s' : St) r p f,
  rm_tree_loop fuel rfuel st0 st rv parentfd fd name level s = Some ((r, p, f), s') ->
  r = rv \/ r = -1.
Proof.
  induction fuel as [|fuel IH]; intros parentfd fd name level s s' r p f;
    [discriminate|].
  cbn [rm_tree_loop]. unfold bind at 1.
  destruct (goto_next_dir parentfd fd name PATH_MAX st0 s)
    as [[[[[rc p1] f1] n1] s1]|]; [|discriminate].
  destruct (rc =? 0).
  { destruct (level + 1 >=? 0); [apply IH | intros [= <- _ _ _]; auto]. }
  destruct (rc =? -1); [intros [= <- _ _ _]; auto|].
  unfold bind at 1, sys at 1.
  destruct (os_fstat f1 (os s1)) as [[pst|e] w2]; [|intros [= <- _ _ _]; auto].
  destruct (st_ino st =? st_ino pst); [intros [= <- _ _ _]; auto|].
  unfold bind at 1, sys at 1. cbn [os].
  destruct (os_openat p1 ".." w2) as [[up|e] w3]; [|intros [= <- _ _ _]; auto].
  unfold bind at 1, sys at 1. cbn [os].
  destruct (os_close f1 w3) as [c w4].
  unfold bind at 1.
  match goal with
  | |- context [(if negb (String.eqb n1 "") then ?a else ?b) ?s2] =>
      destruct ((if negb (String.eqb n1 "") then a else b) s2) as [[r2 s2']|];
        [|discriminate]
  end.
  destruct (negb (r2 =? 0)); [intros [= <- _ _ _]; auto|].
  destruct (level - 1 >=? 0); [apply IH | intros [= <- _ _ _]; auto].
Qed.

(** X11.  Whenever [rm_tree] returns, it returns 0 or -1, and the errors
    of the walk are all reported as -1: a directory that cannot be opened
    (unless it is not there, which gives 0), a failed [fstat] of it, and,
    in a turn of the walk, a failed [goto_next_dir], a failed [fstat] of
    the current directory, a failed [openat] of its parent and a failed
    [rmdir_retry].  What [rm_tree] returns is what the walk left in
    [ret]: the two [close] and the [rmdir] of the path that follow do not
    change it. *)
Theorem rm_tree_result (fuel : nat) (st0 : stat) :
  (forall path (s s' : St) r,
     rm_tree fuel st0 path s = Some (r, s') ->
     (r = 0 \/ r = -1)
     /\ (forall e w,
           os_open path O_DIRECTORY (os s) = (Err e, w) ->
           r = if e =? ENOENT then 0 else -1)
     /\ (forall fd w1 e w2,
           os_open path O_DIRECTORY (os s) = (Ok fd, w1) ->
           os_fstat fd w1 = (Err e, w2) ->
           r = -1)
     /\ (forall fd w1 st w2,
           os_open path O_DIRECTORY (os s) = (Ok fd, w1) ->
           os_fstat fd w1 = (Ok st, w2) ->
           exists p f s3,
             rm_tree_loop fuel fuel st0 st 0 (-1) fd "" 0 (with_os s w2 (errno s))
             = Some ((r, p, f), s3)))
  /\ (forall n rfuel st rv parentfd fd name level (s s1 : St) rc p1 f1 n1,
        goto_next_dir parentfd fd name PATH_MAX st0 s = Some ((rc, p1, f1, n1), s1) ->
        (rc = -1 ->
         rm_tree_loop (S n) rfuel st0 st rv parentfd fd name level s
         = Some ((-1, p1, f1), s1))
        /\ (rc = 1 ->
            forall e w,
              os_fstat f1 (os s1) = (Err e, w) ->
              exists s2,
                rm_tree_loop (S n) rfuel st0 st rv parentfd fd name level s
                = Some ((-1, p1, f1), s2))
        /\ (rc = 1 ->
            forall pst w e w3,
              os_fstat f1 (os s1) = (Ok pst, w) ->
              st_ino pst <> st_ino st ->
              os_openat p1 ".." w = (Err e, w3) ->
              exists s2,
                rm_tree_loop (S n) rfuel st0 st rv parentfd fd name level s
                = Some ((-1, p1, f1), s2))
        /\ (rc = 1 ->
            forall pst w up w3 c w4 r2 (s2 : St),
              os_fstat f1 (os s1) = (Ok pst, w) ->
              st_ino pst <> st_ino st ->
              os_openat p1 ".." w = (Ok up, w3) ->
              os_close f1 w3 = (c, w4) ->
              n1 <> "" ->
              rmdir_retry rfuel p1 n1
                (with_os s1 w4 (match c with Ok _ => errno s1 | Err e => e end))
              = Some (r2, s2) ->
              r2 <> 0 ->
              rm_tree_loop (S n) rfuel st0 st rv parentfd fd name level s
              = Some ((-1, up, p1), s2))).
Proof.
  split.
  - intros path s s' r. unfold rm_tree, bind at 1, sys at 1.
    destruct (os_open path O_DIRECTORY (os s)) as [[fd|e] w1].
    + unfold bind at 1, sys at 1. cbn [os].
      destruct (os_fstat fd w1) as [[st|e] w2] eqn:Fs.
      * unfold bind at 1.
        change (mkState w2 (errno s) (ctl_map s) (slice s) (log s))
          with (with_os s w2 (errno s)).
        destruct (rm_tree_loop fuel fuel st0 st 0 (-1) fd "" 0 _)
          as [[[[rv p] f] s1]|] eqn:L; [|discriminate].
        pose proof (rm_tree_loop_result _ _ _ _ _ _ _ _ _ _ _ _ _ _ L) as R.
        unfold bind.
        destruct (close_unless_unset f s1) as [[[] s2]|]; [|discriminate].
        destruct (close_unless_unset p s2) as [[[] s3]|]; [|discriminate].
        unfold sys, ret. destruct (os_rmdir path (os s3)) as [x w].
        intros [= <- _]. split; [exact R|]. split; [intros; discriminate|].
        split; [intros ? ? ? ? [= <- <-]; rewrite Fs; discriminate|].
        intros ? ? ? ? [= <- <-]. rewrite Fs. intros [= <- <-].
        exists p, f, s1. exact L.
      * unfold vzctl_err, bind, logger, sys, ret. cbn [os].
        destruct (os_close fd w2) as [c w3]. intros [= <- _].
        split; [auto|]. split; [intros; discriminate|]. split; [reflexivity|].
        intros ? ? ? ? [= <- <-]. rewrite Fs. discriminate.
    + assert (R : forall (t : St) x,
                 (if e =? ENOENT then ret 0
                  else vzctl_err (-1) e ("Can't open " +++ path)) t = Some (x, s') ->
                 x = if e =? ENOENT then 0 else -1).
      { intros t x. destruct (e =? ENOENT); [intros [= <- _]; reflexivity|].
        unfold vzctl_err, bind, logger, ret. intros [= <- _]. reflexivity. }
      intros H. apply R in H. split.
      * rewrite H. destruct (e =? ENOENT); auto.
      * split; [intros ? ? [= <- <-]; exact H|].
        split; intros; discriminate.
  - intros n rfuel st rv parentfd fd name level s s1 rc p1 f1 n1 G.
    assert (One : rc = 1 ->
              rm_tree_loop (S n) rfuel st0 st rv parentfd fd name level s
              = (p <- sys (os_fstat f1) ;;
                 match p with
                 | Err e =>
                     rc <- vzctl_err (-1) e "rm_tree fstat()" ;;
                     ret (rc, p1, f1)
                 | Ok pst =>
                     if st_ino st =? st_ino pst then ret (rv, p1, f1)
                     else
                       pfd <- sys (os_openat p1 "..") ;;
                       match pfd with
                       | Err e =>
                           rc <- vzctl_err (-1) e "openad .." ;;
                           ret (rc, p1, f1)
                       | Ok pfd =>
                           sys (os_close f1) ;;;
                           r <- (if negb (String.eqb n1 "")
                                 then rmdir_retry rfuel p1 n1 else ret 0) ;;
                           if negb (r =? 0) then ret (-1, pfd, p1)
                           else
                             if level - 1 >=? 0
                             then rm_tree_loop n rfuel st0 st rv pfd p1 "" (level - 1)
                             else ret (rv, pfd, p1)
                       end
                 end) s1).
    { intros ->. cbn [rm_tree_loop]. unfold bind at 1. rewrite G. reflexivity. }
    split; [|split; [|split]].
    + intros ->. cbn [rm_tree_loop]. unfold bind at 1. rewrite G. reflexivity.
    + intros R e w F. rewrite (One R). unfold bind at 1, sys at 1. rewrite F.
      unfold vzctl_err, bind, logger, ret. eexists. reflexivity.
    + intros R pst w e w3 F I O. rewrite (One R). unfold bind at 1, sys at 1.
      rewrite F. destruct (Z.eqb_spec (st_ino st) (st_ino pst)) as [X|_];
        [symmetry in X; contradiction|].
      unfold bind at 1, sys at 1. cbn [os]. rewrite O.
      unfold vzctl_err, bind, logger, ret. eexists. reflexivity.
    + intros R pst w up w3 c w4 r2 s2 F I O Cl NE Rm NZ. rewrite (One R).
      unfold bind at 1, sys at 1. rewrite F.
      destruct (Z.eqb_spec (st_ino st) (st_ino pst)) as [X|_];
        [symmetry in X; contradiction|].
      unfold bind at 1, sys at 1. cbn [os]. rewrite O.
      unfold bind at 1, sys at 1. cbn [os]. rewrite Cl.
      destruct (String.eqb_spec n1 "") as [|_]; [contradiction|]. cbn [negb].
      unfold bind at 1. cbn [errno ctl_map slice log].
      unfold with_os in Rm. rewrite Rm.
      destruct (Z.eqb_spec r2 0); [contradiction|]. reflexivity.
Qed.

(** ** Calls that always return *)

Ltac case_all :=
  repeat match goal with
         | |- context [match ?x with _ => _ end] =>
             lazymatch x with
             | context [match _ with _ => _ end] => fail
             | _ => destruct x
             end
         end.

Lemma do_write_data_returns fd fname data len (s : St) :
  exists r s', do_write_data fd fname data len s = Some (r, s').
Proof.
  unfold do_write_data, bind, sys, logger, get_errno, set_errno, ret.
  destruct (os_write fd data len (os s)) as [w w1].
  destruct (negb _); [destruct (_ <? 0)|]; eauto.
Qed.

Lemma write_data_returns path data (s : St) :
  exists r s', write_data path data s = Some (r, s').
Proof.
  unfold write_data, bind at 1, sys at 1.
  destruct (os_open path O_WRONLY (os s)) as [[fd|e] w1].
  - unfold bind at 1, logger at 1. unfold bind at 1.
    match goal with
    | |- context [do_write_data ?a ?b ?c ?d ?s0] =>
        destruct (do_write_data_returns a b c d s0) as (r & s1 & E); rewrite E
    end.
    destruct (r =? -1);
      unfold vzctl_err, bind, sys, get_errno, set_errno, logger, ret; cbn [os];
      destruct (os_close fd (os s1)) as [[[]|e] w2]; eauto.
  - unfold vzctl_err, bind, logger, ret. eauto.
Qed.

Lemma cg_get_ctl_returns name (s : St) :
  exists r ctl s', cg_get_ctl name s = Some ((r, ctl), s').
Proof.
  unfold cg_get_ctl, get_mount_path, set_mount_path, vzctl_err, bind, sys, ext,
    logger, ret.
  case_all; eauto.
Qed.

Lemma get_cgroup_name_returns ctid ctl size (s : St) :
  exists p s', get_cgroup_name ctid ctl size s = Some (p, s').
Proof.
  unfold get_cgroup_name, get_ctl, cg_get_slice_name, bind, ext, ret.
  case_all; eauto.
Qed.

Lemma cg_get_path_returns ctid subsys name size (s : St) :
  exists r p s', cg_get_path ctid subsys name size s = Some ((r, p), s').
Proof.
  unfold cg_get_path, bind at 1.
  destruct (cg_get_ctl_returns subsys s) as (r & ctl & s1 & E). rewrite E.
  destruct ctl as [c|]; [|unfold ret; eauto].
  destruct (negb (r =? 0)); [unfold ret; eauto|].
  destruct ctid as [ctid|].
  - unfold bind. destruct (get_cgroup_name_returns ctid c PATH_MAX s1) as (p & s2 & G).
    rewrite G. unfold ret. eauto.
  - unfold bind, get_ctl, ret. eauto.
Qed.

Lemma cg_set_param_returns ctid subsys name data (s : St) :
  exists r s', cg_set_param ctid subsys name data s = Some (r, s').
Proof.
  unfold cg_set_param, bind.
  destruct (cg_get_path_returns ctid subsys name PATH_MAX s) as (r & p & s1 & E).
  rewrite E. destruct (negb (r =? 0)); [unfold ret; eauto|].
  apply write_data_returns.
Qed.

(** ** Attaching a task *)

Lemma cg_attach_task_for_S n i ctid pid ex (s : St) :
  cg_attach_task_for (S n) i ctid pid ex s =
  if match ex with Some e => String.eqb (subsys (ctl_at s i)) e | None => false end
  then cg_attach_task_for n (S i) ctid pid ex s
  else match cg_set_ul (Some ctid) (subsys (ctl_at s i)) "tasks" pid s with
       | Some (r, s1) =>
           if r =? -1 then Some (-1, s1)
           else cg_attach_task_for n (S i) ctid pid ex s1
       | None => None
       end.
Proof.
  cbn [cg_attach_task_for]. unfold bind at 1, ctl_subsys at 1.
  destruct (match ex with Some e => _ | None => false end); [reflexivity|].
  unfold bind. destruct (cg_set_ul _ _ _ _ s) as [[r s1]|]; [|reflexivity].
  destruct (r =? -1); reflexivity.
Qed.

Lemma cg_attach_task_for_returns n ctid pid ex : forall i (s : St),
  exists r s',
    cg_attach_task_for n i ctid pid ex s = Some (r, s') /\ (r = 0 \/ r = -1).
Proof.
  induction n as [|n IH]; intros i s.
  - exists 0, s. split; [reflexivity | auto].
  - rewrite cg_attach_task_for_S.
    destruct (match ex with Some e => _ | None => false end); [apply IH|].
    destruct (cg_set_param_returns (Some ctid) (subsys (ctl_at s i)) "tasks"
                (snprintf 32 (fmt_lu pid)) s) as (r & s1 & E).
    unfold cg_set_ul. rewrite E. destruct (r =? -1); [|apply IH].
    exists (-1), s1. split; [reflexivity | auto].
Qed.

(** The first [m] turns, then the rest. *)
Lemma cg_attach_task_for_split m ctid pid ex : forall n i (s : St),
  cg_attach_task_for (m + n) i ctid pid ex s =
  match cg_attach_task_for m i ctid pid ex s with
  | Some (r, s1) =>
      if r =? 0 then cg_attach_task_for n (m + i) ctid pid ex s1 else Some (r, s1)
  | None => None
  end.
Proof.
  induction m as [|m IH]; intros n i s; [reflexivity|].
  change (S m + n)%nat with (S (m + n)). rewrite !cg_attach_task_for_S.
  replace (S m + i)%nat with (m + S i)%nat by lia.
  destruct (match ex with Some e => _ | None => false end); [apply IH|].
  destruct (cg_set_ul _ _ _ _ s) as [[r s1]|]; [|reflexivity].
  destruct (r =? -1); [reflexivity | apply IH].
Qed.

(** X12.  [cg_attach_task] always returns, with 0 or -1.  It stops at the
    first controller whose write returns -1 and returns -1 in the state
    that write left: the controllers before it keep the task, nothing is
    undone, and the controllers after it are not tried.  A write that
    fails with another value (1: the tasks file does not exist or the
    controller is not mounted) is passed over.  The controller named by
    [cg_subsys_except] is passed over without any call. *)
Theorem cg_attach_task_stops_at_first_failure (ctid : string) (pid : Z)
  (ex : option string) :
  (forall s : St,
     exists r s', cg_attach_task ctid pid ex s = Some (r, s') /\ (r = 0 \/ r = -1))
  /\ (forall (s s1 s2 : St) i,
        (i < NCTL)%nat ->
        cg_attach_task_for i 0 ctid pid ex s = Some (0, s1) ->
        match ex with Some e => String.eqb (subsys (ctl_at s1 i)) e | None => false end
        = false ->
        cg_set_ul (Some ctid) (subsys (ctl_at s1 i)) "tasks" pid s1 = Some (-1, s2) ->
        cg_attach_task ctid pid ex s = Some (-1, s2))
  /\ (forall n i (s s1 : St) r,
        match ex with Some e => String.eqb (subsys (ctl_at s i)) e | None => false end
        = false ->
        cg_set_ul (Some ctid) (subsys (ctl_at s i)) "tasks" pid s = Some (r, s1) ->
        r <> -1 ->
        cg_attach_task_for (S n) i ctid pid ex s
        = cg_attach_task_for n (S i) ctid pid ex s1)
  /\ (forall n i (s : St),
        ex = Some (subsys (ctl_at s i)) ->
        cg_attach_task_for (S n) i ctid pid ex s
        = cg_attach_task_for n (S i) ctid pid ex s).
Proof.
  split; [|split; [|split]]; cycle 3.
  { intros n i s ->. rewrite cg_attach_task_for_S, String.eqb_refl. reflexivity. }
  - intros s. apply cg_attach_task_for_returns.
  - intros s s1 s2 i I P X Wr. unfold cg_attach_task.
    replace NCTL with (i + S (NCTL - S i))%nat by lia.
    rewrite cg_attach_task_for_split, P. cbn [Z.eqb].
    rewrite cg_attach_task_for_S, Nat.add_0_r, X, Wr. reflexivity.
  - intros n i s s1 r X Wr NM. rewrite cg_attach_task_for_S, X, Wr.
    destruct (Z.eqb_spec r (-1)); [contradiction | reflexivity].
Qed.


(** ** Container state *)

(** X13.  What [cg_env_get_ve_state] answers.  A failure to find the path
    is returned as it is; for a "ve" controller without a mount that
    value is 1, the same value as for a running container.  A state file
    that does not exist gives 0.  A state file that exists gives 0 when
    its text is STOPPED or STOPPING and 1 for every other text; when the
    file cannot be opened for reading the buffer stays empty and the
    answer is 1. *)
Theorem cg_env_get_ve_state_answers (ctid : string) (b : ascii) (s : St) :
  (forall r path (s1 : St),
      cg_get_path (Some ctid) CG_VE "ve.state" PATH_MAX s = Some ((r, path), s1) ->
      r <> 0 ->
      cg_env_get_ve_state ctid b s = Some (r, s1))
  /\ (forall i lines w,
        find_cg_ctl CG_VE (ctl_map s) = Some i ->
        mount_path (ctl_at s i) = None ->
        os_proc_mounts (os s) = (Ok lines, w) ->
        scan_mounts CG_VE (fgets_all PATH_MAX lines) = None ->
        exists s', cg_env_get_ve_state ctid b s = Some (1, s'))
  /\ (forall path (s1 : St) e w,
        cg_get_path (Some ctid) CG_VE "ve.state" PATH_MAX s = Some ((0, path), s1) ->
        os_access path (os s1) = (Err e, w) ->
        cg_env_get_ve_state ctid b s = Some (0, with_os s1 w e))
  /\ (forall path (s1 : St) w e w2,
        cg_get_path (Some ctid) CG_VE "ve.state" PATH_MAX s = Some ((0, path), s1) ->
        os_access path (os s1) = (Ok tt, w) ->
        os_open path O_RDONLY w = (Err e, w2) ->
        exists s', cg_env_get_ve_state ctid b s = Some (1, s'))
  /\ (forall path (s1 s2 : St) w rc buf,
        cg_get_path (Some ctid) CG_VE "ve.state" PATH_MAX s = Some ((0, path), s1) ->
        os_access path (os s1) = (Ok tt, w) ->
        cg_read path (mkBuf b (repeat NUL 64)) 64 (with_os s1 w (errno s1))
        = Some ((rc, buf), s2) ->
        cg_env_get_ve_state ctid b s
        = Some (if (String.eqb (buf_str buf) "STOPPED"
                    || String.eqb (buf_str buf) "STOPPING")%bool then 0 else 1, s2)).
Proof.
  assert (Fail : forall r path (s1 : St),
      cg_get_path (Some ctid) CG_VE "ve.state" PATH_MAX s = Some ((r, path), s1) ->
      r <> 0 ->
      cg_env_get_ve_state ctid b s = Some (r, s1)).
  { intros r path s1 P NZ. unfold cg_env_get_ve_state, bind. rewrite P.
    destruct (Z.eqb_spec r 0); [contradiction | reflexivity]. }
  assert (Read : forall path (s1 s2 : St) w rc buf,
        cg_get_path (Some ctid) CG_VE "ve.state" PATH_MAX s = Some ((0, path), s1) ->
        os_access path (os s1) = (Ok tt, w) ->
        cg_read path (mkBuf b (repeat NUL 64)) 64 (with_os s1 w (errno s1))
        = Some ((rc, buf), s2) ->
        cg_env_get_ve_state ctid b s
        = Some (if (String.eqb (buf_str buf) "STOPPED"
                    || String.eqb (buf_str buf) "STOPPING")%bool then 0 else 1, s2)).
  { intros path s1 s2 w rc buf P A R. unfold cg_env_get_ve_state.
    unfold bind at 1. rewrite P. cbn [Z.eqb negb].
    unfold bind at 1, sys at 1. rewrite A. cbn [is_err].
    unfold bind at 1. unfold with_os in R. rewrite R.
    destruct (_ || _)%bool; reflexivity. }
  split; [exact Fail|]. split; [|split; [|split; [|exact Read]]].
  - intros i lines w F Mp P Sc. eexists. eapply Fail; [|discriminate].
    unfold cg_get_path, bind at 1.
    rewrite (cg_get_ctl_unresolved _ _ _ _ _ F Mp P Sc). reflexivity.
  - intros path s1 e w P A. unfold cg_env_get_ve_state.
    unfold bind at 1. rewrite P. cbn [Z.eqb negb].
    unfold bind at 1, sys at 1. rewrite A. reflexivity.
  - intros path s1 w e w2 P A O.
    eexists. erewrite Read; [| exact P | exact A |].
    2:{ unfold cg_read, bind at 1, sys at 1. cbn [with_os os]. rewrite O.
        reflexivity. }
    reflexivity.
Qed.


(** ** The controllers of the kernel *)

Lemma first_char_hash (tok : string) :
  String.eqb tok "" = false ->
  String.eqb (substring 0 1 tok) "#" = prefix "#" tok.
Proof.
  destruct tok as [|c r]; [discriminate|]. intros _.
  cbn [substring prefix]. rewrite substring_0_0.
  assert (P : prefix "" r = true) by (destruct r; reflexivity). rewrite P.
  destruct (ascii_dec "#" c) as [<-|NE]; [reflexivity|].
  cbn [String.eqb]. destruct (Ascii.eqb_spec c "#"); [congruence | reflexivity].
Qed.

Lemma get_cgroups_loop_result lines : forall head (s s' : St) r h,
  get_cgroups_loop lines head s = Some ((r, h), s') ->
  (r = 0 /\ h = head ++ cgroup_names lines) \/ r = VZCTL_E_NOMEM.
Proof.
  unfold cgroup_names.
  induction lines as [|buf lines IH]; intros head s s' r h.
  - intros [= <- <- _]. left. now rewrite app_nil_r.
  - cbn [get_cgroups_loop map filter].
    assert (F : first_word buf = fst (scan_token (String.length buf) (skip_ws buf)))
      by reflexivity.
    rewrite F. clear F.
    destruct (scan_token (String.length buf) (skip_ws buf)) as [tok rest].
    cbn [fst]. destruct (String.eqb tok "") eqn:E; cbn [negb andb]; [apply IH|].
    rewrite (first_char_hash tok E).
    destruct (prefix "#" tok); cbn [negb]; [apply IH|].
    unfold bind at 1, ext at 1. destruct (os_alloc (os s)) as [[|] w]; cbn [negb].
    + intros H. apply IH in H. destruct H as [[-> ->]|H]; [left | right; exact H].
      split; [reflexivity|]. now rewrite <- app_assoc.
    + intros [= <- _ _]. right. reflexivity.
Qed.

Lemma skip_ws_length s : (String.length (skip_ws s) <= String.length s)%nat.
Proof.
  induction s as [|c s IH]; [reflexivity|]. cbn [skip_ws].
  destruct (isspace c); cbn [String.length]; lia.
Qed.

Lemma skip_ws_with_nl s :
  skip_ws (with_nl s) = if String.eqb (skip_ws s) "" then "" else with_nl (skip_ws s).
Proof.
  unfold with_nl. induction s as [|c s IH]; [reflexivity|].
  cbn [append skip_ws]. destruct (isspace c); [exact IH | reflexivity].
Qed.

Lemma scan_token_with_nl n : forall s,
  fst (scan_token n (with_nl s)) = fst (scan_token n s).
Proof.
  unfold with_nl. induction n as [|n IH]; intros [|c s]; try reflexivity.
  cbn [append scan_token]. destruct (isspace c); [reflexivity|].
  specialize (IH s). destruct (scan_token n (s +++ String LF "")) as [t1 r1].
  destruct (scan_token n s) as [t2 r2]. cbn [fst] in IH |- *. now rewrite IH.
Qed.

Lemma scan_token_fuel s : forall n m,
  (String.length s <= n)%nat -> (String.length s <= m)%nat ->
  fst (scan_token n s) = fst (scan_token m s).
Proof.
  induction s as [|c s IH]; intros n m Ln Lm; [destruct n, m; reflexivity|].
  cbn [String.length] in Ln, Lm.
  destruct n as [|n]; [lia|]. destruct m as [|m]; [lia|].
  cbn [scan_token]. destruct (isspace c); [reflexivity|].
  specialize (IH n m ltac:(lia) ltac:(lia)).
  destruct (scan_token n s) as [t1 r1]. destruct (scan_token m s) as [t2 r2].
  cbn [fst] in IH |- *. now rewrite IH.
Qed.

Lemma first_word_with_nl line : first_word (with_nl line) = first_word line.
Proof.
  unfold first_word. rewrite skip_ws_with_nl, with_nl_length.
  pose proof (skip_ws_length line) as L.
  destruct (skip_ws line) as [|c r] eqn:E.
  - cbn [String.eqb]. destruct (String.length line); reflexivity.
  - cbn [String.eqb]. rewrite scan_token_with_nl.
    apply scan_token_fuel; lia.
Qed.

(** X14.  [get_cgroups] gives the names of the kernel's controllers in
    the order of /proc/cgroups: the first word of every buffer that
    [fgets] fills from the file, when the buffer has a word and it does
    not begin with #.  For a file whose lines have fewer than
    STR_SIZE - 1 characters these are the first words of the lines; a
    longer line comes in pieces and can give several names.  When it
    fails the caller's list is empty: VZCTL_E_SYSTEM when the file cannot
    be opened, VZCTL_E_NOMEM when a name cannot be stored; it returns
    nothing else, and with a buffer of one byte it does not return. *)
Theorem get_cgroups_names (s s' : St) (r : Z) (head : list string) :
  get_cgroups s = Some ((r, head), s') ->
  match fst (os_proc_cgroups (os s)) with
  | Ok lines =>
      1 < STR_SIZE
      /\ ((r = 0 /\ head = cgroup_names (fgets_all STR_SIZE lines))
          \/ (r = VZCTL_E_NOMEM /\ head = []))
      /\ (forallb (short_line STR_SIZE) lines = true ->
          cgroup_names (fgets_all STR_SIZE lines) = cgroup_names lines)
  | Err _ => r = VZCTL_E_SYSTEM /\ head = []
  end.
Proof.
  unfold get_cgroups, bind at 1, sys at 1.
  destruct (os_proc_cgroups (os s)) as [[lines|e] w]; cbn [fst].
  - destruct (Z.leb_spec STR_SIZE 1) as [Le|Gt]; [discriminate|].
    intros H. split; [exact Gt|]. split.
    + revert H. unfold bind at 1.
      destruct (get_cgroups_loop (fgets_all STR_SIZE lines) [] _)
        as [[[r1 h1] s1]|] eqn:L; [|discriminate].
      apply get_cgroups_loop_result in L. destruct L as [[-> ->]| ->].
      * intros [= <- <- _]. left. split; reflexivity.
      * destruct (Z.eqb_spec VZCTL_E_NOMEM 0) as [Z|_];
          [pose proof VZCTL_E_NOMEM_nz; contradiction|].
        intros [= <- <- _]. right. split; reflexivity.
    + intros Sh. rewrite (fgets_all_short _ _ Sh). unfold cgroup_names.
      rewrite map_map. f_equal. apply map_ext. apply first_word_with_nl.
  - intros [= <- <- _]. split; reflexivity.
Qed.

(** ** A line of the mount table *)

Lemma has_space_head c x : has_space (String c x) = false ->
  isspace c = false /\ has_space x = false.
Proof. cbn [has_space]. apply orb_false_iff. Qed.

Lemma skip_ws_word x r :
  has_space x = false -> x <> "" -> skip_ws (x +++ r) = x +++ r.
Proof.
  destruct x as [|c x]; [contradiction|]. intros H _.
  apply has_space_head in H as [H _]. cbn [append skip_ws]. now rewrite H.
Qed.

Lemma scan_skip_word x r :
  has_space x = false -> scan_skip (x +++ String " " r) = String " " r.
Proof.
  induction x as [|c x IH]; [reflexivity|]. intros H.
  apply has_space_head in H as [H1 H2]. cbn [append scan_skip].
  rewrite H1. now apply IH.
Qed.

Lemma scan_token_word x r : forall n,
  has_space x = false -> (String.length x <= n)%nat ->
  scan_token n (x +++ String " " r) = (x, String " " r).
Proof.
  induction x as [|c x IH]; intros n H L.
  - destruct n; reflexivity.
  - apply has_space_head in H as [H1 H2]. destruct n as [|n]; [cbn in L; lia|].
    cbn [append scan_token]. rewrite H1, (IH n H2); [reflexivity|].
    cbn in L. lia.
Qed.

Lemma scan_lit_app lit r : scan_lit lit (lit +++ r) = Some r.
Proof.
  induction lit as [|c lit IH]; [destruct r; reflexivity|].
  cbn [append scan_lit]. now rewrite Ascii.eqb_refl.
Qed.

Lemma word_not_blank x r r' : x <> "" -> has_space x = false ->
  String.eqb (x +++ r) (String " " r') = false.
Proof.
  destruct x as [|c x]; [contradiction|]. intros _ H.
  apply has_space_head in H as [H _]. cbn [append String.eqb].
  destruct (Ascii.eqb_spec c " ") as [->|]; [discriminate H | reflexivity].
Qed.

Lemma skip_ws_space x : skip_ws (String " " x) = skip_ws x.
Proof. reflexivity. Qed.

Lemma scan_lit_word lit : forall a r,
  has_space lit = false -> scan_lit lit a = None ->
  scan_lit lit (a +++ String " " r) = None.
Proof.
  induction lit as [|c lit IH]; intros a r H; [discriminate|].
  apply has_space_head in H as [H1 H2].
  destruct a as [|d a]; cbn [append scan_lit].
  - intros _. destruct (Ascii.eqb_spec c " ") as [->|]; [discriminate H1 | reflexivity].
  - destruct (Ascii.eqb c d); [now apply IH | reflexivity].
Qed.

Lemma word_not_empty x : x <> "" -> String.eqb x "" = false.
Proof. destruct x; [contradiction | reflexivity]. Qed.

Lemma sscanf_mounts_fields (dev target fstype opts rest : string) :
  dev <> "" -> target <> "" -> fstype <> "" -> opts <> "" ->
  has_space dev = false -> has_space target = false ->
  has_space fstype = false -> has_space opts = false ->
  (String.length target <= 4095)%nat ->
  (String.length opts <= 4095)%nat ->
  let buf :=
    dev +++ String " " (target +++ String " " (fstype +++ String " "
      (opts +++ String " " rest))) in
  (fstype = "cgroup" -> sscanf_mounts buf = (2, target, opts))
  /\ (scan_lit "cgroup" fstype = None -> sscanf_mounts buf = (1, target, "")).
Proof.
  intros D T F O Hd Ht Hf Ho Lt Lo buf.
  unfold sscanf_mounts, buf. cbv zeta.
  rewrite (skip_ws_word dev _ Hd D), (scan_skip_word dev _ Hd).
  rewrite (word_not_blank dev _ _ D Hd), !skip_ws_space.
  rewrite (skip_ws_word target _ Ht T), (scan_token_word target _ 4095 Ht Lt).
  rewrite (word_not_empty target T), !skip_ws_space.
  rewrite (skip_ws_word fstype _ Hf F). split.
  - intros ->. rewrite scan_lit_app, !skip_ws_space.
    rewrite (skip_ws_word opts _ Ho O), (scan_token_word opts _ 4095 Ho Lo).
    now rewrite (word_not_empty opts O).
  - intros N. now rewrite (scan_lit_word "cgroup" fstype _ eq_refl N).
Qed.

Lemma strlen_cons c x : strlen (String c x) = 1 + strlen x.
Proof. unfold strlen. cbn [String.length]. lia. Qed.

(** X15.  How the resolver reads a line of /proc/mounts that [fgets]
    stores whole, that is a line of fewer than 4095 characters.  From a
    line "device target cgroup options ..." it takes the target and the
    options.  A line whose third field does not begin with "cgroup" gives
    one conversion only, and is passed over. *)
Theorem sscanf_mounts_line (dev target fstype opts rest : string) :
  dev <> "" -> target <> "" -> fstype <> "" -> opts <> "" ->
  has_space dev = false -> has_space target = false ->
  has_space fstype = false -> has_space opts = false ->
  let line :=
    dev +++ String " " (target +++ String " " (fstype +++ String " "
      (opts +++ String " " rest))) in
  short_line PATH_MAX line = true ->
  fgets_all PATH_MAX [line] = [with_nl line]
  /\ (fstype = "cgroup" -> sscanf_mounts (with_nl line) = (2, target, opts))
  /\ (scan_lit "cgroup" fstype = None ->
      sscanf_mounts (with_nl line) = (1, target, "")).
Proof.
  intros D T F O Hd Ht Hf Ho line Sh.
  split; [cbn [fgets_all flat_map]; rewrite (fgets_line_short _ _ Sh); reflexivity|].
  assert (B : strlen target <= 4095 /\ strlen opts <= 4095).
  { unfold short_line, line in Sh. apply Z.ltb_lt in Sh.
    rewrite !strlen_app, !strlen_cons, !strlen_app, !strlen_cons,
      !strlen_app, !strlen_cons, !strlen_app, !strlen_cons in Sh.
    unfold strlen, PATH_MAX in *. lia. }
  destruct B as [Bt Bo].
  assert (Lt : (String.length target <= 4095)%nat).
  { apply Nat2Z.inj_le. change (Z.of_nat 4095) with 4095. exact Bt. }
  assert (Lo : (String.length opts <= 4095)%nat).
  { apply Nat2Z.inj_le. change (Z.of_nat 4095) with 4095. exact Bo. }
  assert (E : with_nl line
              = dev +++ String " " (target +++ String " " (fstype +++ String " "
                  (opts +++ String " " (with_nl rest))))).
  { unfold with_nl, line.
    rewrite append_assoc3. cbn [append]. rewrite append_assoc3. cbn [append].
    rewrite append_assoc3. cbn [append]. rewrite append_assoc3. reflexivity. }
  rewrite E.
  exact (sscanf_mounts_fields dev target fstype opts (with_nl rest)
           D T F O Hd Ht Hf Ho Lt Lo).
Qed.

(** ** Parameter read: the text *)

Lemma blit_prefix (data : list ascii) : forall cells,
  (List.length data <= List.length cells)%nat ->
  blit data cells = data ++ skipn (List.length data) cells.
Proof.
  induction data as [|d data IH]; intros [|c cells] L; cbn in L |- *;
    try reflexivity; [lia|].
  f_equal. apply IH. lia.
Qed.

Lemma cg_read_strip_below (out : cbuf) (r : Z) :
  1 <= r -> below (fst (cg_read_strip out r)) = below out.
Proof.
  intros H. unfold cg_read_strip, buf_set.
  destruct (Ascii.eqb _ _); cbn [fst].
  - destruct (Z.ltb_spec (r - 1) 0); [lia | reflexivity].
  - destruct (Z.ltb_spec r 0); [lia | reflexivity].
Qed.

(** X16.  [cg_read] on a file that holds text: when the kernel returns
    at least one byte, fewer than the size of the buffer and none of them
    NUL, the buffer holds these bytes as a string, less one newline when
    the last byte is one; a newline before it stays.  The byte below the
    buffer is not touched. *)
Theorem cg_read_strips_one_newline (path : string) (out : cbuf) (size : Z) (s : St)
  fd w1 (data : list ascii) w2 c w3 (text : list ascii) (last : ascii) :
  os_open path O_RDONLY (os s) = (Ok fd, w1) ->
  os_read fd (size - 1) w1 = (Ok data, w2) ->
  os_close fd w2 = (c, w3) ->
  buf_size out = size ->
  Z.of_nat (List.length data) <= size - 1 ->
  forallb (fun c => negb (Ascii.eqb c NUL)) data = true ->
  data = text ++ [last] ->
  exists out',
    cg_read path out size s
    = Some ((0, out'), with_os s w3 (match c with Ok _ => errno s | Err e => e end))
    /\ below out' = below out
    /\ buf_str out'
       = string_of_list_ascii (if Ascii.eqb last LF then text else data).
Proof.
  intros O R Cl Sz Len Nn D.
  rewrite (cg_read_opened path out size s fd w1 data w2 c w3 O R Cl). cbv zeta.
  rewrite firstn_all2 by lia.
  eexists. split; [reflexivity|].
  assert (L1 : 1 <= Z.of_nat (List.length data)).
  { rewrite D, length_app. cbn [List.length]. lia. }
  split; [rewrite cg_read_strip_below by exact L1; reflexivity|].
  unfold buf_size in Sz.
  rewrite blit_prefix by lia.
  destruct (skipn (List.length data) (cells out)) as [|x rest] eqn:Sk.
  { apply (f_equal (@List.length ascii)) in Sk. rewrite length_skipn in Sk.
    cbn in Sk. lia. }
  destruct (Ascii.eqb_spec last LF) as [->|NL].
  - rewrite D, <- app_assoc, length_app. cbn [app List.length].
    replace (Z.of_nat (List.length text + 1)) with (Z.of_nat (List.length text) + 1)
      by lia.
    apply cg_read_strip_newline.
    rewrite D, forallb_app in Nn. now apply andb_true_iff in Nn as [Nn _].
  - rewrite D. apply cg_read_strip_no_newline; [now rewrite <- D|].
    now apply Ascii.eqb_neq.
Qed.

(** ** Parameters of a controller that is not there *)

(** X17.  A parameter of a controller the table does not know is neither
    written nor read: the result is -1 and the kernel is not called.  The
    same holds, with the result 1, for a controller that has no cgroup
    line in the mount table: only the mount table was read. *)
Theorem cg_param_needs_controller (ctid : option string) (name param : string)
  (s : St) :
  (find_cg_ctl name (ctl_map s) = None ->
   let s1 := mkState (os s) (errno s) (ctl_map s) (slice s)
               (log s ++ [mkLog (-1) 0 ("Unknown cgroup subsystem " +++ name)]) in
   forall data out size,
     cg_set_param ctid name param data s = Some (-1, s1)
     /\ cg_get_param ctid name param out size s = Some ((-1, out), s1))
  /\ (forall i lines w,
        find_cg_ctl name (ctl_map s) = Some i ->
        mount_path (ctl_at s i) = None ->
        os_proc_mounts (os s) = (Ok lines, w) ->
        scan_mounts name (fgets_all PATH_MAX lines) = None ->
        let s1 := mkState w (errno s) (ctl_map s) (slice s)
                    (log s ++ [mkLog (-1) 0 ("Unable to find mount point for "
                                              +++ name +++ " cgroup")]) in
        forall data out size,
          cg_set_param ctid name param data s = Some (1, s1)
          /\ cg_get_param ctid name param out size s = Some ((1, out), s1)).
Proof.
  split.
  - intros F s1 data out size.
    assert (P : cg_get_path ctid name param PATH_MAX s = Some ((-1, ""), s1)).
    { unfold cg_get_path, bind at 1, cg_get_ctl. rewrite F. reflexivity. }
    unfold cg_set_param, cg_get_param, bind. rewrite P. split; reflexivity.
  - intros i lines w F Mp Pm Sc s1 data out size.
    assert (P : cg_get_path ctid name param PATH_MAX s = Some ((1, ""), s1)).
    { unfold cg_get_path, bind at 1.
      rewrite (cg_get_ctl_unresolved _ _ _ _ _ F Mp Pm Sc). reflexivity. }
    unfold cg_set_param, cg_get_param, bind. rewrite P. split; reflexivity.
Qed.

(** ** One bind mount *)

(** X18.  [do_bindmount] always returns, with 0 or VZCTL_E_RESOURCE, and
    with 0 only when [mount] was the last call and succeeded.  When the
    target directory is missing and cannot be made, nothing else is
    called: the source is not looked at and nothing is mounted; the
    message carries the errno that [make_dir] left, which is also the
    errno on return. *)
Theorem do_bindmount_result (src dst : string) (fl : mflag) (s : St) :
  (exists r s',
      do_bindmount src dst fl s = Some (r, s')
      /\ (r = 0 \/ r = VZCTL_E_RESOURCE)
      /\ (r = 0 -> exists w, os_mount (Some src) dst None fl w = (Ok tt, os s')))
  /\ (forall e w1 m eo w2,
        os_access dst (os s) = (Err e, w1) ->
        os_make_dir dst w1 = (m, eo, w2) ->
        m <> 0 ->
        let eno := match eo with Some e' => e' | None => e end in
        do_bindmount src dst fl s
        = Some (VZCTL_E_RESOURCE,
                mkState w2 eno (ctl_map s) (slice s)
                        (log s ++ [mkLog (-1) eno ("Can't create " +++ dst)]))).
Proof.
  split.
  - assert (Tail : forall s0 : St,
              exists r s',
                (logger 5 0 ("bindmount " +++ src +++ " -> " +++ dst) ;;;
                 r <- sys (os_mount (Some src) dst None fl) ;;
                 match r with
                 | Err e => vzctl_err VZCTL_E_RESOURCE e
                              ("Can't bindmount " +++ src +++ " -> " +++ dst)
                 | Ok _ => ret 0
                 end) s0 = Some (r, s')
                /\ (r = 0 \/ r = VZCTL_E_RESOURCE)
                /\ (r = 0 -> exists w, os_mount (Some src) dst None fl w = (Ok tt, os s'))).
    { intros s0. unfold vzctl_err, bind, logger, sys, ret. cbn [os].
      destruct (os_mount (Some src) dst None fl (os s0)) as [[[]|e] w] eqn:Mt.
      - eexists _, _. split; [reflexivity|]. split; [auto|]. intros _.
        exists (os s0). exact Mt.
      - eexists _, _. split; [reflexivity|]. split; [auto|]. intros Z.
        pose proof VZCTL_E_RESOURCE_nz. contradiction. }
    assert (Src : forall s0 : St,
              exists r s',
                (a <- sys (os_access src) ;;
                 m <- (if is_err a then ext_errno (os_make_dir src) else ret 0) ;;
                 if negb (m =? 0) then
                   eno <- get_errno ;;
                   vzctl_err VZCTL_E_RESOURCE eno ("Can't create " +++ src)
                 else
                   logger 5 0 ("bindmount " +++ src +++ " -> " +++ dst) ;;;
                   r <- sys (os_mount (Some src) dst None fl) ;;
                   match r with
                   | Err e => vzctl_err VZCTL_E_RESOURCE e
                                ("Can't bindmount " +++ src +++ " -> " +++ dst)
                   | Ok _ => ret 0
                   end) s0 = Some (r, s')
                /\ (r = 0 \/ r = VZCTL_E_RESOURCE)
                /\ (r = 0 -> exists w, os_mount (Some src) dst None fl w = (Ok tt, os s'))).
    { intros s0. unfold bind at 1, sys at 1.
      destruct (os_access src (os s0)) as [[[]|e] w]; cbn [is_err].
      - unfold bind at 1, ret at 1. cbn [Z.eqb negb]. apply Tail.
      - unfold bind at 1, ext_errno at 1. cbn [os].
        destruct (os_make_dir src w) as [[m eo] w']. destruct (negb (m =? 0)); [|apply Tail].
        unfold vzctl_err, bind, get_errno, logger, ret.
        eexists _, _. split; [reflexivity|]. split; [auto|]. intros Z.
        pose proof VZCTL_E_RESOURCE_nz. contradiction. }
    unfold do_bindmount, bind at 1, sys at 1.
    destruct (os_access dst (os s)) as [[[]|e] w]; cbn [is_err].
    + unfold bind at 1, ret at 1. cbn [Z.eqb negb]. apply Src.
    + unfold bind at 1, ext_errno at 1. cbn [os].
      destruct (os_make_dir dst w) as [[m eo] w']. destruct (negb (m =? 0)); [|apply Src].
      unfold vzctl_err, bind, get_errno, logger, ret.
      eexists _, _. split; [reflexivity|]. split; [auto|]. intros Z.
      pose proof VZCTL_E_RESOURCE_nz. contradiction.
  - intros e w1 m eo w2 A Mk NZ eno. unfold do_bindmount, bind at 1, sys at 1.
    rewrite A. cbn [is_err]. unfold bind at 1, ext_errno at 1. cbn [os]. rewrite Mk.
    destruct (Z.eqb_spec m 0); [contradiction|]. reflexivity.
Qed.


(** ** Bind mounts: each mount once *)






(** ** Numbers in their buffers *)

Lemma dec_digits_length fuel : forall (k : nat) n acc,
  0 <= n < 10 ^ Z.of_nat (S k) ->
  (String.length (dec_digits fuel n acc) <= S k + String.length acc)%nat.
Proof.
  induction fuel as [|fuel IH]; intros k n acc N; cbn [dec_digits]; [lia|].
  destruct (Z.eqb_spec (n / 10) 0) as [Q|Q]; [cbn [String.length]; lia|].
  destruct k as [|k].
  - exfalso. apply Q. apply Z.div_small. change (10 ^ Z.of_nat 1) with 10 in N. lia.
  - etransitivity; [apply (IH k)|cbn [String.length]; lia].
    split; [apply Z.div_pos; lia|]. apply Z.div_lt_upper_bound; [lia|].
    rewrite (Nat2Z.inj_succ (S k)), Z.pow_succ_r in N by lia. lia.
Qed.

(** X20.  The decimal text of an [unsigned long] has at most 20
    characters, so the 32 bytes of [data] in [cg_set_ul] and [cg_set_ull]
    never cut it: the parameter is written with the whole number. *)
Theorem cg_set_ul_writes_whole_number (ctid : option string) (subsys name : string)
  (value : Z) :
  strlen (fmt_lu value) <= 20
  /\ cg_set_ul ctid subsys name value = cg_set_param ctid subsys name (fmt_lu value)
  /\ cg_set_ull ctid subsys name value = cg_set_param ctid subsys name (fmt_lu value).
Proof.
  assert (L : (String.length (fmt_lu value) <= 20)%nat).
  { unfold fmt_lu.
    pose proof (Z.mod_pos_bound value ULONG_MOD ltac:(reflexivity)) as B.
    fold (ulong value) in B.
    assert (Big : ULONG_MOD < 10 ^ Z.of_nat 20) by (vm_compute; reflexivity).
    pose proof (dec_digits_length 20 19 (ulong value) "" ltac:(lia)) as H.
    cbn [String.length] in H. lia. }
  assert (E : snprintf 32 (fmt_lu value) = fmt_lu value).
  { unfold snprintf. apply substring_whole.
    change (Z.to_nat (32 - 1)) with 31%nat. lia. }
  split; [unfold strlen; lia|].
  unfold cg_set_ul, cg_set_ull. rewrite E. split; reflexivity.
Qed.

(** X21.  The decimal text of an [int] has at most 11 characters: the
    [sprintf] of [cg_set_veid] stays inside [id[12]], and the function
    returns for every [veid].  On a kernel without the file ve.veid the
    result is 0 and nothing is written. *)
Theorem cg_set_veid_fits (ctid : string) (veid : Z) :
  - 2 ^ 31 <= veid < 2 ^ 31 ->
  strlen (fmt_d veid) <= 11
  /\ (forall s : St, exists r s', cg_set_veid ctid veid s = Some (r, s'))
  /\ (forall (s s1 : St) path e w,
        cg_get_path (Some ctid) CG_VE "ve.veid" PATH_MAX s = Some ((0, path), s1) ->
        os_access path (os s1) = (Err e, w) ->
        cg_set_veid ctid veid s = Some (0, with_os s1 w e)).
Proof.
  intros V.
  assert (L : strlen (fmt_d veid) <= 11).
  { unfold strlen, fmt_d.
    assert (Big : 2 ^ 31 < 10 ^ Z.of_nat 10) by (vm_compute; reflexivity).
    destruct (Z.ltb_spec veid 0) as [Neg|Pos].
    - pose proof (dec_digits_length 20 9 (- veid) "" ltac:(lia)) as H.
      cbn [append String.length] in H |- *. lia.
    - pose proof (dec_digits_length 20 9 veid "" ltac:(lia)) as H.
      cbn [String.length] in H. lia. }
  split; [exact L|]. split.
  - intros s. unfold cg_set_veid, bind at 1.
    destruct (cg_get_path_returns (Some ctid) CG_VE "ve.veid" PATH_MAX s)
      as (r & p & s1 & E).
    rewrite E. destruct (negb (r =? 0)); [unfold ret; eauto|].
    unfold bind at 1, sys at 1. destruct (os_access p (os s1)) as [[[]|e] w];
      cbn [is_err]; [|unfold ret; eauto].
    destruct (Z.leb_spec 12 (strlen (fmt_d veid))); [lia|].
    apply write_data_returns.
  - intros s s1 path e w P A. unfold cg_set_veid, bind at 1. rewrite P.
    cbn [Z.eqb negb]. unfold bind at 1, sys at 1. rewrite A. reflexivity.
Qed.


(** ** The mount map of a container *)

Lemma substring_app_short x y : forall n,
  (n <= String.length x)%nat -> substring 0 n (x +++ y) = substring 0 n x.
Proof.
  induction x as [|c x IH]; intros [|n] L; cbn in L |- *;
    try reflexivity; [destruct y; reflexivity | lia |].
  f_equal. apply IH. lia.
Qed.

Lemma substring_app_long x y n :
  substring 0 (String.length x + n) (x +++ y) = x +++ substring 0 n y.
Proof.
  induction x as [|c x IH]; [reflexivity|]. cbn. now rewrite IH.
Qed.

Lemma append_at_whole (full text : string) (size : Z) :
  0 < size -> strlen full <= size ->
  append_at (snprintf size full) (strlen full) size text
  = Some (snprintf size (full +++ text), strlen (full +++ text)).
Proof.
  intros Sz L. unfold append_at, snprintf. rewrite strlen_app. unfold strlen in *.
  destruct (Z.ltb_spec (size - Z.of_nat (String.length full)) 0); [lia|].
  destruct (Z.eqb_spec (size - Z.of_nat (String.length full)) 0) as [E|NE].
  - rewrite substring_app_short by lia. reflexivity.
  - rewrite (substring_whole full (Z.to_nat (size - 1))) by lia.
    rewrite (substring_whole full) by lia.
    replace (Z.to_nat (size - 1))
      with (String.length full
            + Z.to_nat (size - Z.of_nat (String.length full) - 1))%nat by lia.
    now rewrite substring_app_long.
Qed.

Lemma append_nil_r (a : string) : a +++ "" = a.
Proof. induction a as [|c a IH]; [reflexivity|]. cbn. now rewrite IH. Qed.

Lemma mount_map_for_S n i ctid text (s : St) :
  mount_map_for (S n) i ctid text s =
  match cg_get_ctl (subsys (ctl_at s i)) s with
  | None => None
  | Some ((r, ctl), s1) =>
      if r =? -1 then Some ((1, text), s1)
      else
        let k := match ctl with Some c => c | None => i end in
        if is_prvt (ctl_at s1 k) then mount_map_for n (S i) ctid text s1
        else if negb (r =? 0) then mount_map_for n (S i) ctid text s1
        else match mount_map_entry ctid k (ctl_at s1 k) s1 with
             | None => None
             | Some (entry, s2) => mount_map_for n (S i) ctid (text +++ entry) s2
             end
  end.
Proof.
  cbn [mount_map_for]. unfold bind, ctl_subsys, get_ctl.
  destruct (cg_get_ctl _ s) as [[[r ctl] s1]|]; [|reflexivity].
  destruct (r =? -1); [reflexivity|]. cbv zeta.
  destruct (is_prvt _); [reflexivity|].
  destruct (negb (r =? 0)); [reflexivity|].
  destruct (mount_map_entry _ _ _ s1) as [[entry s2]|]; reflexivity.
Qed.

Lemma cg_get_cgroup_env_param_for_S n i ctid out p size (s : St) :
  cg_get_cgroup_env_param_for (S n) i ctid out p size s =
  match cg_get_ctl (subsys (ctl_at s i)) s with
  | None => None
  | Some ((r, ctl), s1) =>
      if r =? -1 then Some ((1, out), s1)
      else
        let k := match ctl with Some c => c | None => i end in
        if is_prvt (ctl_at s1 k)
        then cg_get_cgroup_env_param_for n (S i) ctid out p size s1
        else if negb (r =? 0)
        then cg_get_cgroup_env_param_for n (S i) ctid out p size s1
        else match mount_map_entry ctid k (ctl_at s1 k) s1 with
             | None => None
             | Some (entry, s2) =>
                 match append_at out p size entry with
                 | None => None
                 | Some (out', p') =>
                     if p' >? size
                     then Some ((VZCTL_E_INVAL, out'),
                                mkState (os s2) (errno s2) (ctl_map s2) (slice s2)
                                  (log s2 ++ [mkLog (-1) 0 "cg_get_cgroup_env_param"]))
                     else cg_get_cgroup_env_param_for n (S i) ctid out' p' size s2
                 end
             end
  end.
Proof.
  cbn [cg_get_cgroup_env_param_for]. unfold bind at 1, ctl_subsys at 1.
  unfold bind at 1.
  destruct (cg_get_ctl _ s) as [[[r ctl] s1]|]; [|reflexivity].
  destruct (r =? -1); [reflexivity|]. cbv zeta.
  unfold bind at 1, get_ctl at 1.
  destruct (is_prvt _); [reflexivity|].
  destruct (negb (r =? 0)); [reflexivity|].
  unfold bind at 1.
  destruct (mount_map_entry _ _ _ s1) as [[entry s2]|]; [|reflexivity].
  destruct (append_at out p size entry) as [[out' p']|]; [|reflexivity].
  destruct (p' >? size); reflexivity.
Qed.

Lemma mount_map_for_extends n ctid : forall i full (s s' : St) rc text,
  mount_map_for n i ctid full s = Some ((rc, text), s') ->
  (rc = 0 \/ rc = 1) /\ exists more, text = full +++ more.
Proof.
  induction n as [|n IH]; intros i full s s' rc text.
  { intros [= <- <- _]. split; [auto|]. exists "". now rewrite append_nil_r. }
  rewrite mount_map_for_S.
  destruct (cg_get_ctl (subsys (ctl_at s i)) s) as [[[r ctl] s1]|]; [|discriminate].
  destruct (r =? -1).
  { intros [= <- <- _]. split; [auto|]. exists "". now rewrite append_nil_r. }
  cbv zeta. destruct (is_prvt _); [apply IH|].
  destruct (negb (r =? 0)); [apply IH|].
  destruct (mount_map_entry _ _ _ s1) as [[entry s2]|]; [|discriminate].
  intros H. apply IH in H. destruct H as [R [more ->]]. split; [exact R|].
  exists (entry +++ more). apply append_assoc3.
Qed.

(** [mount_map] is the loop over the whole table, from the header. *)
Lemma mount_map_unfold ctid (s : St) :
  mount_map ctid s = mount_map_for NCTL 0 ctid "VE_CGROUP_MOUNT_MAP=" s.
Proof. reflexivity. Qed.

(** The loop on a buffer against the loop without one. *)
Lemma cg_get_cgroup_env_param_for_map n ctid size :
  forall i full (s s' : St) rc text,
  0 < size -> strlen full <= size ->
  mount_map_for n i ctid full s = Some ((rc, text), s') ->
  exists s'',
    cg_get_cgroup_env_param_for n i ctid (snprintf size full) (strlen full) size s
    = Some ((if strlen text <=? size then rc else VZCTL_E_INVAL,
             snprintf size text), s'')
    /\ (strlen text <= size -> s'' = s').
Proof.
  induction n as [|n IH]; intros i full s s' rc text Sz L.
  { intros [= <- <- <-]. exists s. destruct (Z.leb_spec (strlen full) size); [|lia].
    split; [reflexivity | auto]. }
  rewrite mount_map_for_S, cg_get_cgroup_env_param_for_S.
  destruct (cg_get_ctl (subsys (ctl_at s i)) s) as [[[r ctl] s1]|]; [|discriminate].
  destruct (r =? -1).
  { intros [= <- <- <-]. exists s1. destruct (Z.leb_spec (strlen full) size); [|lia].
    split; [reflexivity | auto]. }
  cbv zeta. destruct (is_prvt _); [now apply IH|].
  destruct (negb (r =? 0)); [now apply IH|].
  destruct (mount_map_entry _ _ _ s1) as [[entry s2]|]; [|discriminate].
  rewrite (append_at_whole full entry size Sz L).
  destruct (Z.gtb_spec (strlen (full +++ entry)) size) as [G|G].
  - intros H. destruct (mount_map_for_extends _ _ _ _ _ _ _ _ H) as [_ [more ->]].
    eexists.
    assert (Long : size < strlen ((full +++ entry) +++ more)).
    { rewrite (strlen_app (full +++ entry) more). unfold strlen at 2. lia. }
    destruct (Z.leb_spec (strlen ((full +++ entry) +++ more)) size); [lia|].
    split; [|lia]. unfold snprintf.
    rewrite (substring_app_short (full +++ entry) more); [reflexivity|].
    unfold strlen in G. lia.
  - intros H. apply IH; [exact Sz | lia | exact H].
Qed.

(** X22.  [cg_get_cgroup_env_param] against the mount map itself, the
    text "VE_CGROUP_MOUNT_MAP=" followed by an entry for every controller
    that resolves and is not private.  In a buffer of [size] bytes, at
    least the 20 of the header, the function leaves the map cut to
    [size - 1] characters.  Its result is that of the loop (0, or 1 when
    a controller ends it) when the map has at most [size] characters,
    and VZCTL_E_INVAL when it has more.  So a map shorter than [size] is
    stored whole, and a map of exactly [size] characters is stored
    without its last character while the result is 0 all the same. *)
Theorem cg_get_cgroup_env_param_text (ctid : option string) (out : string)
  (size : Z) (s s' : St) (rc : Z) (text : string) :
  20 <= size ->
  mount_map ctid s = Some ((rc, text), s') ->
  (exists s'',
      cg_get_cgroup_env_param ctid out size s
      = Some ((if strlen text <=? size then rc else VZCTL_E_INVAL,
               snprintf size text), s'')
      /\ (strlen text <= size -> s'' = s'))
  /\ (rc = 0 \/ rc = 1)
  /\ (strlen text < size -> snprintf size text = text)
  /\ (strlen text = size -> strlen (snprintf size text) = size - 1).
Proof.
  intros Sz Mm. rewrite mount_map_unfold in Mm.
  pose proof (mount_map_for_extends NCTL ctid 0 "VE_CGROUP_MOUNT_MAP=" s s' rc text Mm)
    as [R _].
  split; [|split; [exact R|split]].
  - unfold cg_get_cgroup_env_param.
    assert (A : append_at out 0 size "VE_CGROUP_MOUNT_MAP="
                = Some (snprintf size "VE_CGROUP_MOUNT_MAP=",
                        strlen "VE_CGROUP_MOUNT_MAP=")).
    { unfold append_at. rewrite Z.sub_0_r.
      destruct (Z.ltb_spec size 0); [lia|]. destruct (Z.eqb_spec size 0); [lia|].
      change (Z.to_nat 0) with 0%nat. rewrite substring_0_0. reflexivity. }
    rewrite A.
    assert (L : strlen "VE_CGROUP_MOUNT_MAP=" <= size)
      by (change (strlen "VE_CGROUP_MOUNT_MAP=") with 20; lia).
    destruct (cg_get_cgroup_env_param_for_map NCTL ctid size 0
                "VE_CGROUP_MOUNT_MAP=" s s' rc text ltac:(lia) L Mm)
      as (s'' & E & Q).
    exists s''. split; [exact E | exact Q].
  - intros Lt. unfold snprintf. apply substring_whole. unfold strlen in Lt. lia.
  - clear Mm R. intros E. unfold snprintf, strlen in *.
    rewrite <- (append_nil_r text) at 1.
    rewrite substring_app_short by lia.
    assert (G : forall t n, (n <= String.length t)%nat ->
                            String.length (substring 0 n t) = n).
    { induction t as [|c t IH]; intros [|n] Ln; cbn in Ln |- *;
        try reflexivity; [lia|]. f_equal. apply IH. lia. }
    rewrite G by lia. lia.
Qed.

(** ** The mount path in its buffer *)

Lemma scan_token_length n : forall s,
  (String.length (fst (scan_token n s)) <= n)%nat.
Proof.
  induction n as [|n IH]; intros [|c r]; cbn [scan_token fst String.length];
    try lia.
  destruct (isspace c); cbn [fst String.length]; [lia|].
  specialize (IH r). destruct (scan_token n r) as [t rest].
  cbn [fst String.length] in IH |- *. lia.
Qed.

Lemma sscanf_mounts_target_length buf :
  (String.length (snd (fst (sscanf_mounts buf))) <= 4095)%nat.
Proof.
  unfold sscanf_mounts. cbv zeta.
  destruct (String.eqb (skip_ws buf) (scan_skip (skip_ws buf)));
    [cbn [fst snd String.length]; lia|].
  pose proof (scan_token_length 4095 (skip_ws (scan_skip (skip_ws buf)))) as H.
  destruct (scan_token 4095 (skip_ws (scan_skip (skip_ws buf)))) as [target s2].
  cbn [fst] in H.
  destruct (String.eqb target ""); [cbn [fst snd String.length]; lia|].
  destruct (scan_lit "cgroup" (skip_ws s2)) as [s3|]; [|exact H].
  destruct (scan_token 4095 (skip_ws s3)) as [ops rest].
  destruct (String.eqb ops ""); exact H.
Qed.

Lemma scan_mounts_some subsys lines : forall t,
  scan_mounts subsys lines = Some t ->
  exists line ops,
    In line lines /\ sscanf_mounts line = (2, t, ops)
    /\ has_substr ops (if negb (cg_is_systemd subsys) then subsys
                       else "name=systemd") = true.
Proof.
  induction lines as [|buf lines IH]; intros t; [discriminate|].
  cbn [scan_mounts]. destruct (sscanf_mounts buf) as [[n target] ops] eqn:E.
  assert (Later : scan_mounts subsys lines = Some t ->
                  exists line ops0,
                    In line (buf :: lines) /\ sscanf_mounts line = (2, t, ops0)
                    /\ has_substr ops0 (if negb (cg_is_systemd subsys) then subsys
                                        else "name=systemd") = true).
  { intros H. destruct (IH t H) as (line & o & I & Sc & Hs).
    exists line, o. split; [right; exact I | auto]. }
  destruct (Z.eqb_spec n 2) as [->|NE]; cbn [negb]; [|exact Later].
  destruct (has_substr ops _) eqn:Hs; [|exact Later].
  intros [= <-]. exists buf, ops. split; [left; reflexivity | auto].
Qed.

(** X23.  [get_mount_path] returns 0, 1 or -1.  With 0 the path it
    stores is the whole target that [sscanf] took from a buffer filled by
    [fgets], a buffer that holds a cgroup line whose options hold the
    name looked for: a target has at most 4095 characters and the buffer
    of PATH_MAX bytes does not cut it.  That buffer is a line of the
    mount table when the lines have fewer than 4095 characters; of a
    longer line it is a piece, with the options as the cut left them.
    With 1 or -1 the buffer is left as it was. *)
Theorem get_mount_path_whole_target (subsys out : string) (s s' : St)
  (r : Z) (p : string) :
  get_mount_path subsys out PATH_MAX s = Some ((r, p), s') ->
  (r = 0 \/ r = 1 \/ r = -1)
  /\ (r <> 0 -> p = out)
  /\ (r = 0 ->
      exists lines buf ops,
        fst (os_proc_mounts (os s)) = Ok lines
        /\ In buf (fgets_all PATH_MAX lines)
        /\ sscanf_mounts buf = (2, p, ops)
        /\ has_substr ops (if negb (cg_is_systemd subsys) then subsys
                           else "name=systemd") = true
        /\ (forallb (short_line PATH_MAX) lines = true ->
            exists line, In line lines /\ buf = with_nl line)).
Proof.
  unfold get_mount_path, bind at 1, sys at 1.
  destruct (os_proc_mounts (os s)) as [[lines|e] w]; cbn [fst].
  - destruct (scan_mounts subsys (fgets_all PATH_MAX lines)) as [target|] eqn:Sc.
    + intros [= <- <- _]. split; [auto|]. split; [intros H; now contradiction H|].
      intros _. destruct (scan_mounts_some _ _ _ Sc) as (buf & ops & I & E & Hs).
      exists lines, buf, ops. split; [reflexivity|]. split; [exact I|].
      assert (T : snprintf PATH_MAX target = target).
      { unfold snprintf. apply substring_whole.
        change (Z.to_nat (PATH_MAX - 1)) with 4095%nat.
        pose proof (sscanf_mounts_target_length buf) as L. rewrite E in L.
        exact L. }
      rewrite T. split; [exact E|]. split; [exact Hs|].
      intros Sh. rewrite (fgets_all_short _ _ Sh) in I.
      apply in_map_iff in I. destruct I as (line & <- & I). now exists line.
    + intros [= <- <- _]. split; [auto|]. split; [reflexivity | discriminate].
  - unfold vzctl_err, bind, logger, ret. intros [= <- <- _].
    split; [auto|]. split; [reflexivity | discriminate].
Qed.

End Properties.

(** * The properties on the sample hosts *)

Module OnSamples.
Import Sim Samples.

(** C9.  On an empty file [read] returns 0 and [cg_read] tests
    [out[r-1]], the byte below the array: index -1 of an array whose
    indices start at 0.  When that byte is a newline it is overwritten
    with NUL and [out[0]] is left as it was, so the result is not even
    terminated. *)
Theorem cg_read_empty_file_reads_below_buffer :
  let out := mkBuf LF (repeat "x"%char 32) in
  exists out' w',
    run (cg_read "/empty" out 32) empty_file_world = Some ((0, out'), w')
    /\ out' = fst (cg_read_strip out 0)
    /\ snd (cg_read_strip out 0) = [-1; -1]
    /\ buf_in_bounds out (-1) = false
    /\ below out' = NUL
    /\ cells out' = repeat "x"%char 32.
Proof.
  vm_compute. eexists _, _. repeat split.
Qed.

(** C10.  [a] vanishes after its [fstatat] and is skipped at its
    [openat].  [b] answers ENOENT to [fstatat], which leaves in [st] the
    stat of [a], a directory; so [b] is not skipped but opened.  When
    the [openat] works the walk descends into [b]; when it fails, here
    for lack of descriptors, the walk is aborted with -1 and a message
    about [b].  Had [b] been skipped the scan would have ended with 1. *)
Theorem goto_next_dir_enoent_entry_not_skipped :
  (exists w',
     run (goto_next_dir (-1) 3 "" PATH_MAX junk_stat) (racy_world [])
     = Some ((0, 3, 4, "b"), w')
     /\ fds w' = [(4, ["cg"; "101"; "b"]); (3, ["cg"; "101"])])
  /\ (exists s',
        goto_next_dir (-1) 3 "" PATH_MAX junk_stat
                      (start (racy_world [mkFault "openat" "b" EMFILE 1]))
        = Some ((-1, -1, 3, ""), s')
        /\ log s' = [mkLog (-1) EMFILE "openat b"]).
Proof.
  split; vm_compute; eexists; split; reflexivity.
Qed.

(** C7.  The sysfs of the skeleton is mounted and the tmpfs then fails:
    [cg_bindmount_cgroup] returns the error at once.  No [umount] is
    called and the sysfs stays mounted at <root>/sys. *)
Theorem cg_bindmount_cgroup_tmpfs_failure_keeps_sysfs :
  exists w',
    run (cg_bindmount_cgroup ve_root "101" []) tmpfs_fails
    = Some ((VZCTL_E_RESOURCE, []), w')
    /\ mounts w' = [(["vz"; "root"; "101"; "sys"], "sysfs")]
    /\ trace w' = [("make_dir", "/vz/root/101/sys");
                   ("mount", "/vz/root/101/sys");
                   ("make_dir", "/vz/root/101/sys/fs/cgroup")].
Proof.
  vm_compute. eexists. repeat split.
Qed.

(** From the loop over the controllers on, a failure is unwound: the
    binds made so far, then the tmpfs, then the sysfs, and nothing is
    left mounted under the container root. *)
Example cg_bindmount_cgroup_unwinds_third_of_five :
  exists w',
    run (cg_bindmount_cgroup ve_root "101" []) third_bind_fails
    = Some ((VZCTL_E_RESOURCE,
             ["/sys/fs/cgroup/cpu,cpuacct"; "/sys/fs/cgroup/cpuset";
              "/sys/fs/cgroup/memory"]), w')
    /\ mounts w' = []
    /\ filter (fun e => prefix "umount" (fst e)) (trace w')
       = [("umount", "/vz/root/101//sys/fs/cgroup/cpu,cpuacct");
          ("umount", "/vz/root/101//sys/fs/cgroup/cpuset");
          ("umount-failed", "/vz/root/101//sys/fs/cgroup/memory");
          ("umount", "/vz/root/101/sys/fs/cgroup");
          ("umount", "/vz/root/101/sys")].
Proof.
  vm_compute. eexists. repeat split.
Qed.

(** *** Removal with retry *)

(** A directory that stays busy: 65 attempts, 30.13s of sleep, then -1;
    and one that is busy three times: 70ms of sleep, then 0. *)
Lemma rmdir_retry_backoff_budget_witness :
  (exists s',
     rmdir_retry 65 3 "busy" (start (busy_world 1000)) = Some (-1, s')
     /\ clock (os s') = 30130000
     /\ has_dir "/cg/busy" (os s') = true)
  /\ (exists s',
        rmdir_retry 65 3 "busy" (start (busy_world 3)) = Some (0, s')
        /\ clock (os s') = 70000
        /\ has_dir "/cg/busy" (os s') = false).
Proof.
  split.
  - destruct (rmdir_retry_backoff_budget 3 "busy" (start (busy_world 1000)))
      as (_ & H & _).
    eexists. split; [apply H; [vm_compute; reflexivity | lia]|].
    split; vm_compute; reflexivity.
  - destruct (rmdir_retry_backoff_budget 3 "busy" (start (busy_world 3)))
      as (H & _).
    eexists. split.
    + eassert (R : refused 3 0 3 "busy" (os (start (busy_world 3))) = Some _)
        by (vm_compute; reflexivity).
      generalize (H 3%nat _ 65%nat R ltac:(vm_compute; reflexivity) ltac:(lia)).
      vm_compute. intros X. exact X.
    + split; vm_compute; reflexivity.
Defined.

(** *** Freezer *)

(** Already frozen: "FROZEN" is written, and the first poll gives success
    with no time slept.  Frozen at the third poll: one write, two seconds
    slept.  With fuel for two polls only the function has not returned. *)
Lemma cg_set_freezer_state_polls_until_converged_witness :
  (exists s',
     cg_set_freezer_state 1 "101" "FROZEN" (junk_buf 512)
                          (start (freezer_world ["FROZEN"])) = Some (0, s')
     /\ clock (os s') = 0
     /\ trace (os s') = [("write", "freezer.state=FROZEN")])
  /\ (exists s',
        cg_set_freezer_state 3 "101" "FROZEN" (junk_buf 512)
          (start (freezer_world ["FREEZING"; "FREEZING"; "FROZEN"])) = Some (0, s')
        /\ clock (os s') = 2000000
        /\ trace (os s') = [("write", "freezer.state=FROZEN")])
  /\ cg_set_freezer_state 2 "101" "FROZEN" (junk_buf 512)
       (start (freezer_world ["FREEZING"; "FREEZING"; "FROZEN"])) = None
  /\ (exists fd w1 w2,
        os_open (cg "freezer" "101/freezer.state") O_WRONLY
                (freezer_world ["FROZEN"]) = (Ok fd, w1)
        /\ os_write fd "FROZEN" 6 w1 = (Ok 6, w2)
        /\ trace w2 = [("write", "freezer.state=FROZEN")]).
Proof.
  split; [|split; [|split]].
  - eassert (Wr : cg_set_param (Some "101") CG_FREEZER "freezer.state" "FROZEN"
                    (start (freezer_world ["FROZEN"])) = Some (0, _))
      by (vm_compute; reflexivity).
    match type of Wr with
    | _ = Some (_, ?s1) =>
        eassert (U : unconverged 0 "101" "FROZEN" (junk_buf 512) s1 = Some (_, _))
          by reflexivity
    end.
    destruct (cg_set_freezer_state_polls_until_converged
                "101" "FROZEN" (junk_buf 512) _ _ 0 _ _ eq_refl Wr U)
      as (_ & H & _).
    eexists. split.
    + eapply (H 1%nat); [lia | vm_compute; reflexivity | reflexivity
                         | vm_compute; reflexivity].
    + split; vm_compute; reflexivity.
  - eassert (Wr : cg_set_param (Some "101") CG_FREEZER "freezer.state" "FROZEN"
                    (start (freezer_world ["FREEZING"; "FREEZING"; "FROZEN"]))
                  = Some (0, _))
      by (vm_compute; reflexivity).
    match type of Wr with
    | _ = Some (_, ?s1) =>
        eassert (U : unconverged 2 "101" "FROZEN" (junk_buf 512) s1 = Some (_, _))
          by (vm_compute; reflexivity)
    end.
    destruct (cg_set_freezer_state_polls_until_converged
                "101" "FROZEN" (junk_buf 512) _ _ 2 _ _ eq_refl Wr U)
      as (_ & H & _).
    eexists. split.
    + eapply (H 3%nat); [lia | vm_compute; reflexivity | reflexivity
                         | vm_compute; reflexivity].
    + split; vm_compute; reflexivity.
  - eassert (Wr : cg_set_param (Some "101") CG_FREEZER "freezer.state" "FROZEN"
                    (start (freezer_world ["FREEZING"; "FREEZING"; "FROZEN"]))
                  = Some (0, _))
      by (vm_compute; reflexivity).
    match type of Wr with
    | _ = Some (_, ?s1) =>
        eassert (U : unconverged 2 "101" "FROZEN" (junk_buf 512) s1 = Some (_, _))
          by (vm_compute; reflexivity)
    end.
    exact (proj1 (cg_set_freezer_state_polls_until_converged
                    "101" "FROZEN" (junk_buf 512) _ _ 2 _ _ eq_refl Wr U)).
  - eexists _, _, _. split; [vm_compute; reflexivity|].
    split; vm_compute; reflexivity.
Defined.

(** *** Hierarchy creation *)

(** Container 102 on a host where the memory directory cannot be made:
    cpu and cpuset are created, net_cls does not resolve and is passed
    over, memory (index 3) fails with VZCTL_E_CREATE_DIR.  The function
    returns that code after it removed cpuset, then cpu, and no
    directory of 102 is left. *)
Lemma cg_new_cgroup_rolls_back_witness :
  exists w',
    run (cg_new_cgroup 100 junk_stat "102") memory_fails
    = Some (VZCTL_E_CREATE_DIR, w')
    /\ map (fun c => has_dir (cg c "102") w')
           ["cpu,cpuacct"; "cpuset"; "memory"; "devices"; "freezer"]
       = [false; false; false; false; false]
    /\ trace w' = [("make_dir", cg "cpu,cpuacct" "102");
                   ("make_dir", cg "cpuset" "102");
                   ("rmdir", cg "cpuset" "102");
                   ("rmdir", cg "cpu,cpuacct" "102")].
Proof.
  eexists. split.
  - unfold run.
    erewrite (proj1 (cg_new_cgroup_rolls_back 100 junk_stat "102")
                    (start memory_fails) _ _ _ 3%nat); cycle 1.
    all: first [ vm_compute; reflexivity | vm_compute; lia | discriminate ].
  - split; vm_compute; reflexivity.
Defined.

(** C1, against "no partial hierarchy persists".  Container 102 on a
    host where the memory directory cannot be made and where, when the
    creation is taken back, the directory just made under cpuset cannot
    be opened.  [cg_destroy] of cpuset fails, its result is dropped, and
    [cg_new_cgroup] returns the error of the creation with the directory
    of 102 under cpuset still there. *)
Theorem cg_new_cgroup_rollback_leaves_directory :
  exists w',
    run (cg_new_cgroup 100 junk_stat "102") memory_fails_cpuset_stays
    = Some (VZCTL_E_CREATE_DIR, w')
    /\ has_dir (cg "cpuset" "102") memory_fails_cpuset_stays = false
    /\ map (fun c => has_dir (cg c "102") w')
           ["cpu,cpuacct"; "cpuset"; "memory"; "devices"; "freezer"]
       = [false; true; false; false; false]
    /\ trace w' = [("make_dir", cg "cpu,cpuacct" "102");
                   ("make_dir", cg "cpuset" "102");
                   ("rmdir", cg "cpu,cpuacct" "102")].
Proof.
  vm_compute. eexists. repeat split.
Qed.

(** *** Hierarchy destruction *)

(** Container 999 was never created: nothing to remove, result 0.

    The directory of 101 under cpuset, the second controller, cannot be
    opened: the step of cpuset is VZCTL_E_SYSTEM and so is the result,
    and the directories under the five other controllers are removed all
    the same. *)
Lemma cg_destroy_cgroup_best_effort_witness :
  (exists s',
     cg_destroy_cgroup 100 junk_stat "999" (start (host [])) = Some (0, s')
     /\ root (os s') = host_tree
     /\ trace (os s') = [])
  /\ (exists rs s',
        destroy_all 100 junk_stat "101" (seq 0 NCTL) (start cpuset_denied)
        = Some (rs, s')
        /\ rs = [0; VZCTL_E_SYSTEM; 0; 0; 0; 0; 0; 0; 0; 0; 0; 0; 0]
        /\ cg_destroy_cgroup 100 junk_stat "101" (start cpuset_denied)
           = Some (VZCTL_E_SYSTEM, s')
        /\ filter (fun p => has_dir p (os s'))
                  [cg "cpu,cpuacct" "101"; cg "cpuset" "101"; cg "memory" "101";
                   cg "devices" "101"; cg "freezer" "101"; cg "systemd" "101.scope"]
           = [cg "cpuset" "101"]
        /\ trace (os s') = [("rmdir", cg "cpu,cpuacct" "101");
                            ("rmdir", cg "memory" "101");
                            ("rmdir", cg "devices" "101");
                            ("rmdir", cg "freezer" "101");
                            ("rmdir", "/sys/fs/cgroup/systemd/machine.slice/101.scope")])
  /\ (exists s',
        rm_tree 100 junk_stat (cg "cpuset" "101") (start cpuset_denied)
        = Some (-1, s')
        /\ map log_msg (log s') = ["Can't open " +++ cg "cpuset" "101"]).
Proof.
  split; [|split].
  - destruct (cg_destroy_cgroup_best_effort 100 junk_stat "999" (start (host [])))
      as (_ & _ & _ & _ & H & _).
    destruct (H ltac:(vm_compute; reflexivity)) as [s' E].
    exists s'. split; [exact E|].
    revert E. vm_compute. intros [= <-]. split; reflexivity.
  - destruct (cg_destroy_cgroup_best_effort 100 junk_stat "101" (start cpuset_denied))
      as (_ & _ & _ & _ & _ & _ & _ & _ & Any).
    eassert (A : destroy_all 100 junk_stat "101" (seq 0 NCTL) (start cpuset_denied)
                 = Some (_, _)) by (vm_compute; reflexivity).
    eexists _, _. split; [exact A|]. split; [reflexivity|].
    split; [exact (Any _ _ A (or_intror (or_introl eq_refl)))|].
    split; vm_compute; reflexivity.
  - destruct (cg_destroy_cgroup_best_effort 100 junk_stat "101" (start cpuset_denied))
      as (_ & _ & _ & _ & _ & _ & _ & H & _).
    eexists. split.
    + eapply H; [vm_compute; reflexivity | vm_compute; discriminate].
    + vm_compute. reflexivity.
Defined.

(** *** Tree removal *)

(** The walk descends from /cg/101 into [sub] and finds there the inode
    number of the root, on another device.  The loop ends at once with
    [ret = 0], in a directory that is not the root; nothing is removed,
    and [rm_tree] returns 0 with [sub] still in place. *)
Lemma rm_tree_stops_at_root_inode_of_other_device :
  (exists pfd fd s' st pst,
     fst (os_fstat 3 foreign_opened) = Ok st
     /\ rm_tree_loop 10 10 junk_stat st 0 (-1) 3 "" 0 (start foreign_opened)
        = Some ((0, pfd, fd), s')
     /\ fst (os_fstat fd (os s')) = Ok pst
     /\ same_identity pst st = false
     /\ st_ino pst = st_ino st)
  /\ (exists w',
        run (rm_tree 10 junk_stat "/cg/101") foreign_world = Some (0, w')
        /\ has_dir "/cg/101/sub" w' = true
        /\ trace w' = []).
Proof.
  split.
  - eexists _, _, _, (mkStat 1 50 true), _.
    split; [vm_compute; reflexivity|].
    split; [vm_compute; reflexivity|].
    split; [vm_compute; reflexivity|].
    split; vm_compute; reflexivity.
  - vm_compute. eexists. repeat split.
Qed.

(** /cg/101 with the nested directories x/y and z, and a kernel that
    refuses the final [rmdir] of /cg/101: the subdirectories are removed
    innermost first, the root stays, and the result is 0. *)
Lemma rm_tree_walk_ends_at_root_inode_witness :
  exists w',
    run (rm_tree 10 junk_stat "/cg/101")
        (nested_world [mkFault "rmdir" "/cg/101" EBUSY 1]) = Some (0, w')
    /\ trace w' = [("rmdir", "y"); ("rmdir", "x"); ("rmdir", "z")]
    /\ has_dir "/cg/101" w' = true.
Proof.
  edestruct (proj2 (proj2 (rm_tree_walk_ends_at_root_inode
                             10 10 junk_stat (mkStat 1 50 true)))
                   "/cg/101"
                   (start (nested_world [mkFault "rmdir" "/cg/101" EBUSY 1])))
    as (s4 & T & E); [vm_compute; reflexivity ..|].
  unfold run. rewrite E. clear E. vm_compute in T. injection T as <-.
  vm_compute. eexists. repeat split.
Defined.

(** *** CPU and NUMA masks *)

(** The slice permits cpus 1-3.  A request for {0,1,2} writes "1-2"; a
    request for {5} fails, writes nothing, and the message names 1-3. *)
Lemma cg_env_set_mask_writes_intersection_witness :
  (exists s',
     cg_env_set_cpumask "101" (Bitmap.of_list [0; 1; 2]) 8 (junk_buf 4096)
                        (start (host [])) = Some (0, s')
     /\ trace (os s') = [("write", "cpuset.cpus=1-2")])
  /\ (exists s',
        cg_env_set_cpumask "101" (Bitmap.of_list [5]) 8 (junk_buf 4096)
                           (start (host [])) = Some (VZCTL_E_CPUMASK, s')
        /\ trace (os s') = []
        /\ map log_msg (log s')
           = ["Unable to set cpus value 5, supported range: 1-3"]).
Proof.
  eassert (G : cg_get_param (Some "") CG_CPUSET (snprintf 64 ("cpuset." +++ "cpus"))
                 (junk_buf 4096) 4096 (start (host [])) = Some ((0, _), _))
    by (vm_compute; reflexivity).
  match type of G with
  | _ = Some ((_, ?b1), ?s1) =>
      eassert (A : os_alloc (os s1) = (true, _)) by (vm_compute; reflexivity);
      eassert (P : Bitmap.vzctl2_bitmap_parse (buf_str b1) 8 = Some _)
        by (vm_compute; reflexivity)
  end.
  split.
  - destruct (cg_env_set_mask_writes_intersection
                "101" "cpus" (Bitmap.of_list [0; 1; 2]) 8 _ _ _ _ _ _ G A P)
      as [_ H].
    unfold cg_env_set_cpumask. rewrite H by (vm_compute; discriminate).
    vm_compute. eexists. split; reflexivity.
  - destruct (cg_env_set_mask_writes_intersection
                "101" "cpus" (Bitmap.of_list [5]) 8 _ _ _ _ _ _ G A P)
      as [H _].
    unfold cg_env_set_cpumask. rewrite H by (vm_compute; reflexivity).
    vm_compute. eexists. repeat split.
Defined.

(** *** CPU rate limit *)



(** *** Mount resolver *)

(** "cpu" is an option of the line of cpu,cpuacct and no option of a line
    that only has "cpuacct". *)
Lemma has_substr_whole_option_witness :
  (has_substr "rw,nosuid,cpu,cpuacct" "cpu" = true <-> In "cpu" ["rw"; "nosuid"; "cpu"; "cpuacct"])
  /\ (has_substr "rw,nosuid,cpuacct" "cpu" = true <-> In "cpu" ["rw"; "nosuid"; "cpuacct"]).
Proof.
  split.
  - exact (has_substr_whole_option ["rw"; "nosuid"; "cpu"; "cpuacct"] "cpu"
             ltac:(discriminate) ltac:(reflexivity)).
  - exact (has_substr_whole_option ["rw"; "nosuid"; "cpuacct"] "cpu"
             ltac:(discriminate) ltac:(reflexivity)).
Defined.

(** On the sample host the fourth line of the mount table is the first
    cgroup line with the option "cpu"; no line has the option "blkio". *)
Lemma scan_mounts_first_match_witness :
  get_mount_path "cpu" "" PATH_MAX (start (host []))
  = Some ((0, "/sys/fs/cgroup/cpu,cpuacct"), start (host []))
  /\ get_mount_path "blkio" "old" PATH_MAX (start (host []))
     = Some ((1, "old"), start (host [])).
Proof.
  split.
  - exact (proj2 (scan_mounts_first_match "cpu" "" PATH_MAX (firstn 3 host_mounts)
                    (start (host [])) (host [])
                    ltac:(vm_compute; reflexivity) ltac:(vm_compute; reflexivity))
                 (nth 3 host_mounts "") (skipn 4 host_mounts)
                 ltac:(vm_compute; reflexivity) ltac:(vm_compute; reflexivity)
                 eq_refl).
  - exact (proj1 (scan_mounts_first_match "blkio" "old" PATH_MAX host_mounts
                    (start (host [])) (host [])
                    ltac:(vm_compute; reflexivity) ltac:(vm_compute; reflexivity))
                 eq_refl).
Defined.

(** *** The controller table *)

Lemma cg_get_ctl_resolves_once_witness :
  exists i s',
    cg_get_ctl CG_CPU (start (host [])) = Some ((0, Some i), s')
    /\ mount_path (ctl_at s' i) = Some "/sys/fs/cgroup/cpu,cpuacct"
    /\ cg_get_ctl CG_CPU s' = Some ((0, Some i), s').
Proof.
  eassert (E : cg_get_ctl CG_CPU (start (host [])) = Some ((0, Some _), _))
    by (vm_compute; reflexivity).
  destruct (cg_get_ctl_resolves_once _ _ _ _ _ E) as (_ & H & _).
  destruct (H eq_refl) as (i & p & Ei & _ & _ & Again).
  injection Ei as <-.
  eexists _, _. split; [exact E|]. split; [vm_compute; reflexivity | exact Again].
Defined.

(** The configuration sets VE_CGROUP_SLICE to vz.slice: the first call
    returns that name, and so does a call made after the configuration
    was changed to other.slice.  On the sample host, where the key is
    not set, the name is machine.slice. *)
Lemma cg_get_slice_name_fixed_witness :
  (exists s1,
      cg_get_slice_name (start (slice_host "vz.slice")) = Some ("vz.slice", s1)
      /\ "vz.slice" = match fst (os_get_global_param "VE_CGROUP_SLICE"
                                   (slice_host "vz.slice")) with
                      | Some p => snprintf 64 p
                      | None => "machine.slice"
                      end
      /\ (let s2 := with_os s1 (slice_host "other.slice") (errno s1) in
          cg_get_slice_name s2 = Some ("vz.slice", s2)))
  /\ (exists s1,
        cg_get_slice_name (start (host [])) = Some ("machine.slice", s1)
        /\ cg_get_slice_name s1 = Some ("machine.slice", s1)).
Proof.
  split.
  - eassert (E : cg_get_slice_name (start (slice_host "vz.slice")) = Some (_, _))
      by (vm_compute; reflexivity).
    destruct (cg_get_slice_name_fixed _ _ _ E) as (_ & F & V & _).
    eexists. split; [exact E|]. split; [exact (proj2 (V eq_refl))|].
    apply F. reflexivity.
  - eassert (E : cg_get_slice_name (start (host [])) = Some (_, _))
      by (vm_compute; reflexivity).
    destruct (cg_get_slice_name_fixed _ _ _ E) as (S1 & F & _).
    eexists. split; [exact E|]. apply F. exact S1.
Defined.

(** *** Parameter write *)

(** A file that does not exist: 1. *)
Lemma write_data_result_witness :
  exists s',
    write_data "/sys/fs/cgroup/cpu,cpuacct/machine.slice/999/tasks" "1"
               (start (host [])) = Some (1, s')
    /\ (1 = 1 <->
        fst (os_open "/sys/fs/cgroup/cpu,cpuacct/machine.slice/999/tasks" O_WRONLY
                     (os (start (host [])))) = Err ENOENT).
Proof.
  eassert (E : write_data "/sys/fs/cgroup/cpu,cpuacct/machine.slice/999/tasks" "1"
                 (start (host [])) = Some (_, _))
    by (vm_compute; reflexivity).
  eexists. split; [exact E|].
  exact (proj1 (proj2 (write_data_result _ _ _ _ _ E))).
Defined.

(** *** Removal with retry, its bound *)

Lemma rmdir_retry_returns_within_65_witness :
  exists r s',
    rmdir_retry 65 3 "busy" (start (busy_world 1000)) = Some (r, s')
    /\ (r = 0 \/ r = -1).
Proof.
  exact (rmdir_retry_returns_within_65 65 3 "busy" (start (busy_world 1000))
           ltac:(lia)).
Defined.

(** *** Per-controller symlinks *)

Lemma create_perctl_symlink_single_name_witness :
  create_perctl_symlink ve_root "/sys/fs/cgroup/memory" (start (host []))
  = Some (0, start (host [])).
Proof.
  apply create_perctl_symlink_single_name. vm_compute. reflexivity.
Defined.

(** *** CPU weight *)

(** 1000 units are the weight 1024; 2^22 + 1000 units as well. *)
Lemma cg_env_set_cpuunits_wraps_witness :
  cg_env_set_cpuunits (W := world) "101" 1000
  = cg_set_ul (Some "101") CG_CPU "cpu.shares" 1024
  /\ cg_env_set_cpuunits (W := world) "101" (2 ^ 22 + 1000)
     = cg_set_ul (Some "101") CG_CPU "cpu.shares" 1024.
Proof.
  split.
  - exact (proj2 (cg_env_set_cpuunits_wraps "101" 1000 ltac:(unfold UINT_MOD; lia))
                 ltac:(lia)).
  - exact (proj1 (cg_env_set_cpuunits_wraps "101" (2 ^ 22 + 1000)
                    ltac:(unfold UINT_MOD; lia))).
Defined.

(** *** Unsigned 64-bit parameters *)

(** cpu.rate of container 101 holds "0" and a newline. *)
Lemma cg_get_ull_reads_decimal_witness :
  exists s2,
    cg_get_ull (Some "101") CG_CPU "cpu.rate" (junk_buf 32) (start (host []))
    = Some ((0, Some 0), s2).
Proof.
  eassert (G : cg_get_param (Some "101") CG_CPU "cpu.rate" (junk_buf 32) 32
                 (start (host [])) = Some ((0, _), _))
    by (vm_compute; reflexivity).
  eexists.
  exact (proj1 (cg_get_ull_reads_decimal _ _ _ _ _ _ _ G) 0 ""
               ltac:(vm_compute; reflexivity) I).
Defined.


(** *** Tree removal: the result *)

(** /cg/101 with x/y and z, where the kernel refuses to remove z with
    another error than EBUSY: -1.  The directory of 101 under cpuset
    cannot be opened: -1; the one of 999 is not there: 0.  In a walk
    whose [goto_next_dir] fails, here at an [openat] for lack of
    descriptors, the turn ends with -1. *)
Lemma rm_tree_result_witness :
  (exists w',
      run (rm_tree 10 junk_stat "/cg/101")
          (nested_world [mkFault "unlinkat" "z" EACCES 1]) = Some (-1, w')
      /\ (-1 = 0 \/ -1 = -1))
  /\ (exists r s',
        rm_tree 10 junk_stat (cg "cpuset" "101") (start cpuset_denied) = Some (r, s')
        /\ r = -1)
  /\ (exists r s',
        rm_tree 10 junk_stat (cg "cpuset" "999") (start (host [])) = Some (r, s')
        /\ r = 0)
  /\ (exists s',
        rm_tree_loop 10 10 junk_stat (mkStat 1 4 true) 0 (-1) 3 "" 0
          (start (racy_world [mkFault "openat" "b" EMFILE 1]))
        = Some ((-1, -1, 3), s')).
Proof.
  split; [|split; [|split]].
  - eassert (E : rm_tree 10 junk_stat "/cg/101"
                   (start (nested_world [mkFault "unlinkat" "z" EACCES 1]))
                 = Some (_, _))
      by (vm_compute; reflexivity).
    eexists. split.
    + unfold run. rewrite E. reflexivity.
    + exact (proj1 (proj1 (rm_tree_result 10 junk_stat) _ _ _ _ E)).
  - eassert (E : rm_tree 10 junk_stat (cg "cpuset" "101") (start cpuset_denied)
                 = Some (_, _))
      by (vm_compute; reflexivity).
    eexists _, _. split; [exact E|].
    exact (proj1 (proj2 (proj1 (rm_tree_result 10 junk_stat) _ _ _ _ E))
                 EACCES _ ltac:(vm_compute; reflexivity)).
  - eassert (E : rm_tree 10 junk_stat (cg "cpuset" "999") (start (host []))
                 = Some (_, _))
      by (vm_compute; reflexivity).
    eexists _, _. split; [exact E|].
    exact (proj1 (proj2 (proj1 (rm_tree_result 10 junk_stat) _ _ _ _ E))
                 ENOENT _ ltac:(vm_compute; reflexivity)).
  - eassert (G : goto_next_dir (-1) 3 "" PATH_MAX junk_stat
                   (start (racy_world [mkFault "openat" "b" EMFILE 1]))
                 = Some ((-1, -1, 3, ""), _))
      by (vm_compute; reflexivity).
    eexists.
    exact (proj1 (proj2 (rm_tree_result 10 junk_stat) 9%nat 10%nat (mkStat 1 4 true) 0
                        (-1) 3 "" 0 _ _ _ _ _ _ G) eq_refl).
Defined.


(** *** Attaching a task *)

(** The tasks file of 101 under cpuset, the second controller, cannot be
    opened.  The write under cpu, which has no tasks file on this host, is
    passed over, and the failure under cpuset ends the call with -1.
    When cpuset is the excepted controller its file is not opened: the
    refusal is still pending on return, and the result is 0. *)
Lemma cg_attach_task_stops_at_first_failure_witness :
  let w := host [mkFault "open" (cg "cpuset" "101/tasks") EACCES 1] in
  (exists s',
      cg_attach_task "101" 4242 None (start w) = Some (-1, s')
      /\ map log_msg (log s')
         = ["Can't open /sys/fs/cgroup/cpu,cpuacct/machine.slice/101/tasks for writing";
            "Can't open /sys/fs/cgroup/cpuset/machine.slice/101/tasks for writing"])
  /\ (exists s1 s',
        cg_attach_task_for 1 0 "101" 4242 (Some "cpuset") (start w) = Some (0, s1)
        /\ cg_attach_task_for 12 1 "101" 4242 (Some "cpuset") s1
           = cg_attach_task_for 11 2 "101" 4242 (Some "cpuset") s1
        /\ cg_attach_task "101" 4242 (Some "cpuset") (start w) = Some (0, s')
        /\ faults (os s') = [mkFault "open" (cg "cpuset" "101/tasks") EACCES 1]
        /\ trace (os s') = []).
Proof.
  intros w. split.
  - eassert (P : cg_attach_task_for 1 0 "101" 4242 None (start w) = Some (0, _))
      by (vm_compute; reflexivity).
    match type of P with
    | _ = Some (_, ?s1) =>
        eassert (Wr : cg_set_ul (Some "101") (subsys (ctl_at s1 1)) "tasks" 4242 s1
                      = Some (-1, _))
          by (vm_compute; reflexivity)
    end.
    eexists. split.
    + exact (proj1 (proj2 (cg_attach_task_stops_at_first_failure "101" 4242 None))
                   _ _ _ 1%nat ltac:(vm_compute; lia) P eq_refl Wr).
    + vm_compute. reflexivity.
  - eassert (P : cg_attach_task_for 1 0 "101" 4242 (Some "cpuset") (start w)
                 = Some (0, _))
      by (vm_compute; reflexivity).
    match type of P with
    | _ = Some (_, ?s1) =>
        pose proof (proj2 (proj2 (proj2 (cg_attach_task_stops_at_first_failure
                                           "101" 4242 (Some "cpuset"))))
                          11%nat 1%nat s1 eq_refl) as Skip
    end.
    eexists _, _. split; [exact P|]. split; [exact Skip|].
    vm_compute. repeat split.
Defined.


(** *** Container state *)

(** The sample host has no mount of the "ve" controller: the answer is 1. *)
Lemma cg_env_get_ve_state_answers_witness :
  exists s',
    cg_env_get_ve_state "101" "x"%char (start (host [])) = Some (1, s').
Proof.
  exact (proj1 (proj2 (cg_env_get_ve_state_answers "101" "x"%char (start (host []))))
               8%nat host_mounts (host [])
               ltac:(vm_compute; reflexivity) ltac:(vm_compute; reflexivity)
               ltac:(vm_compute; reflexivity) ltac:(vm_compute; reflexivity)).
Defined.


(** *** The controllers of the kernel *)

(** On the sample host the names are the first words of the lines of
    /proc/cgroups.  A line of cpuset with 516 characters is read in two
    pieces, and the second piece gives a name of its own. *)
Lemma get_cgroups_names_witness :
  (exists s',
      get_cgroups (start (host []))
      = Some ((0, ["cpuset"; "cpu"; "cpuacct"; "memory"; "devices"; "freezer"]), s')
      /\ cgroup_names host_cgroups
         = ["cpuset"; "cpu"; "cpuacct"; "memory"; "devices"; "freezer"])
  /\ (exists head s',
        get_cgroups (start long_cgroups_host) = Some ((0, head), s')
        /\ head = cgroup_names (fgets_all STR_SIZE
                                  ["#subsys_name hierarchy num_cgroups enabled";
                                   long_cgroups_line; "memory	4	1	1"])
        /\ head = ["cpuset"; "2"; "memory"]).
Proof.
  split.
  - eassert (E : get_cgroups (start (host [])) = Some ((_, _), _))
      by (vm_compute; reflexivity).
    eexists. split; [exact E|].
    pose proof (get_cgroups_names _ _ _ _ E) as H. cbn [fst] in H.
    change (fst (os_proc_cgroups (os (start (host []))))) with (Ok host_cgroups) in H.
    destruct H as (_ & [[_ H]|[H _]] & Sh); [|discriminate H].
    rewrite <- (Sh ltac:(vm_compute; reflexivity)). symmetry. exact H.
  - eassert (E : get_cgroups (start long_cgroups_host) = Some ((_, _), _))
      by (vm_compute; reflexivity).
    eexists _, _. split; [exact E|].
    pose proof (get_cgroups_names _ _ _ _ E) as H.
    change (fst (os_proc_cgroups (os (start long_cgroups_host))))
      with (Ok ["#subsys_name hierarchy num_cgroups enabled";
                long_cgroups_line; "memory	4	1	1"]) in H.
    destruct H as (_ & [[_ H]|[H _]] & _); [|discriminate H].
    split; [exact H | vm_compute; reflexivity].
Defined.


(** *** A line of the mount table *)

Lemma sscanf_mounts_line_witness :
  sscanf_mounts
    (with_nl "cgroup /sys/fs/cgroup/cpuset cgroup rw,nosuid,nodev,noexec,relatime,cpuset 0 0")
  = (2, "/sys/fs/cgroup/cpuset", "rw,nosuid,nodev,noexec,relatime,cpuset")
  /\ sscanf_mounts
       (with_nl "tmpfs /sys/fs/cgroup tmpfs ro,nosuid,nodev,noexec,mode=755 0 0")
     = (1, "/sys/fs/cgroup", "")
  /\ fgets_all PATH_MAX
       ["tmpfs /sys/fs/cgroup tmpfs ro,nosuid,nodev,noexec,mode=755 0 0"]
     = [with_nl "tmpfs /sys/fs/cgroup tmpfs ro,nosuid,nodev,noexec,mode=755 0 0"].
Proof.
  split; [|split].
  - exact (proj1 (proj2 (sscanf_mounts_line "cgroup" "/sys/fs/cgroup/cpuset" "cgroup"
                    "rw,nosuid,nodev,noexec,relatime,cpuset" "0 0"
                    ltac:(discriminate) ltac:(discriminate) ltac:(discriminate)
                    ltac:(discriminate) eq_refl eq_refl eq_refl eq_refl
                    ltac:(vm_compute; reflexivity)))
                 eq_refl).
  - exact (proj2 (proj2 (sscanf_mounts_line "tmpfs" "/sys/fs/cgroup" "tmpfs"
                    "ro,nosuid,nodev,noexec,mode=755" "0 0"
                    ltac:(discriminate) ltac:(discriminate) ltac:(discriminate)
                    ltac:(discriminate) eq_refl eq_refl eq_refl eq_refl
                    ltac:(vm_compute; reflexivity)))
                 eq_refl).
  - exact (proj1 (sscanf_mounts_line "tmpfs" "/sys/fs/cgroup" "tmpfs"
                    "ro,nosuid,nodev,noexec,mode=755" "0 0"
                    ltac:(discriminate) ltac:(discriminate) ltac:(discriminate)
                    ltac:(discriminate) eq_refl eq_refl eq_refl eq_refl
                    ltac:(vm_compute; reflexivity))).
Defined.


(** *** Parameter read: the text *)

(** freezer.state of container 101 holds "THAWED" and a newline. *)
Lemma cg_read_strips_one_newline_witness :
  exists out' s',
    cg_read (cg "freezer" "101/freezer.state") (junk_buf 64) 64 (start (host []))
    = Some ((0, out'), s')
    /\ below out' = "x"%char
    /\ buf_str out' = "THAWED".
Proof.
  eassert (O : os_open (cg "freezer" "101/freezer.state") O_RDONLY
                       (os (start (host []))) = (Ok _, _))
    by (vm_compute; reflexivity).
  match type of O with
  | _ = (Ok ?fd, ?w1) =>
      eassert (R : os_read fd (64 - 1) w1 = (Ok _, _)) by (vm_compute; reflexivity)
  end.
  match type of R with
  | os_read ?fd _ _ = (_, ?w2) =>
      eassert (Cl : os_close fd w2 = (_, _)) by (vm_compute; reflexivity)
  end.
  destruct (cg_read_strips_one_newline _ (junk_buf 64) 64 _ _ _ _ _ _ _
              (list_ascii_of_string "THAWED") LF O R Cl
              ltac:(vm_compute; reflexivity) ltac:(vm_compute; discriminate)
              ltac:(vm_compute; reflexivity) ltac:(vm_compute; reflexivity))
    as (out' & E & B & T).
  exists out'. eexists. split; [exact E|]. split; [exact B | exact T].
Defined.

(** *** Parameters of a controller that is not there *)

(** The sample host has no mount of the "blkio" controller. *)
Lemma cg_param_needs_controller_witness :
  exists s1,
    cg_set_param (Some "101") "blkio" "blkio.weight" "500" (start (host []))
    = Some (1, s1)
    /\ trace (os s1) = [].
Proof.
  eexists. split.
  - exact (proj1 (proj2 (cg_param_needs_controller (Some "101") "blkio" "blkio.weight"
                           (start (host [])))
                        5%nat host_mounts (host [])
                        ltac:(vm_compute; reflexivity) ltac:(vm_compute; reflexivity)
                        ltac:(vm_compute; reflexivity) ltac:(vm_compute; reflexivity)
                        "500" (junk_buf 1) 1)).
  - reflexivity.
Defined.

(** *** One bind mount *)

(** The target is missing and cannot be made, for lack of permission:
    the message and the errno on return are those of [make_dir], not the
    ENOENT that [access] had left.  The source directory of container
    102, which does not exist, is not created, and nothing is mounted. *)
Lemma do_bindmount_result_witness :
  exists s',
    do_bindmount (cg "memory" "102") "/vz/root/101/sys/fs/cgroup/memory" MS_BIND
      (start (host [mkFault "make_dir" "/vz/root/101/sys/fs/cgroup/memory" EACCES 1]))
    = Some (VZCTL_E_RESOURCE, s')
    /\ fst (os_access "/vz/root/101/sys/fs/cgroup/memory"
              (host [mkFault "make_dir" "/vz/root/101/sys/fs/cgroup/memory" EACCES 1]))
       = Err ENOENT
    /\ errno s' = EACCES
    /\ log s' = [mkLog (-1) EACCES "Can't create /vz/root/101/sys/fs/cgroup/memory"]
    /\ has_dir (cg "memory" "102") (os s') = false
    /\ mounts (os s') = [].
Proof.
  eassert (A : os_access "/vz/root/101/sys/fs/cgroup/memory"
                 (os (start (host [mkFault "make_dir" "/vz/root/101/sys/fs/cgroup/memory"
                                           EACCES 1]))) = (Err _, _))
    by (vm_compute; reflexivity).
  match type of A with
  | _ = (_, ?w1) =>
      eassert (Mk : os_make_dir "/vz/root/101/sys/fs/cgroup/memory" w1 = (_, _, _))
        by (vm_compute; reflexivity)
  end.
  eexists. split.
  - exact (proj2 (do_bindmount_result (cg "memory" "102")
                    "/vz/root/101/sys/fs/cgroup/memory" MS_BIND _)
                 _ _ _ _ _ A Mk ltac:(vm_compute; discriminate)).
  - vm_compute. repeat split.
Defined.


(** *** Bind mounts: each mount once *)



(** *** Numbers in their buffers *)

(** The smallest [int] has eleven characters. *)
Lemma cg_set_veid_fits_witness :
  strlen (fmt_d (- 2 ^ 31)) <= 11 /\ fmt_d (- 2 ^ 31) = "-2147483648".
Proof.
  split.
  - exact (proj1 (cg_set_veid_fits (W := world) "101" (- 2 ^ 31) ltac:(lia))).
  - vm_compute. reflexivity.
Defined.


(** *** The mount map of a container *)

(** The map of container 101 on the sample host has 316 characters.  In
    a buffer of 400 bytes it is stored whole.  In a buffer of 316 bytes
    it loses its last character, and the result is 0; in one of 315
    bytes the result is VZCTL_E_INVAL. *)
Lemma cg_get_cgroup_env_param_text_witness :
  exists text s',
    mount_map (Some "101") (start (host [])) = Some ((0, text), s')
    /\ strlen text = 316
    /\ cg_get_cgroup_env_param (Some "101") "" 400 (start (host []))
       = Some ((0, text), s')
    /\ cg_get_cgroup_env_param (Some "101") "" 316 (start (host []))
       = Some ((0, snprintf 316 text), s')
    /\ strlen (snprintf 316 text) = 315
    /\ (exists s'',
          cg_get_cgroup_env_param (Some "101") "" 315 (start (host []))
          = Some ((VZCTL_E_INVAL, snprintf 315 text), s'')).
Proof.
  eassert (Mm : mount_map (Some "101") (start (host [])) = Some ((0, _), _))
    by (vm_compute; reflexivity).
  match type of Mm with
  | _ = Some ((_, ?text), ?s') =>
      assert (L : strlen text = 316) by (vm_compute; reflexivity);
      destruct (cg_get_cgroup_env_param_text (Some "101") "" 400 _ s' 0 text
                  ltac:(lia) Mm) as ((a & Ea & Qa) & _ & Wa & _);
      destruct (cg_get_cgroup_env_param_text (Some "101") "" 316 _ s' 0 text
                  ltac:(lia) Mm) as ((b & Eb & Qb) & _ & _ & Cb);
      destruct (cg_get_cgroup_env_param_text (Some "101") "" 315 _ s' 0 text
                  ltac:(lia) Mm) as ((c & Ec & _) & _)
  end.
  eexists _, _. split; [exact Mm|]. split; [exact L|].
  rewrite L in *. rewrite (Qa ltac:(lia)) in Ea. rewrite (Qb ltac:(lia)) in Eb.
  rewrite (Wa ltac:(lia)) in Ea.
  split; [exact Ea|]. split; [exact Eb|]. split; [exact (Cb eq_refl)|].
  exists c. exact Ec.
Defined.


(** *** The mount path in its buffer *)

(** On the sample host "cpuacct" resolves to the target of a line of the
    mount table.  With the cpuset line of 4102 characters, whose options
    do not hold "cpu", the name "cpu" resolves to the mount of cpuset
    all the same: the first buffer that [fgets] fills ends in ",cpu". *)
Lemma get_mount_path_whole_target_witness :
  (exists s',
      get_mount_path "cpuacct" "" PATH_MAX (start (host []))
      = Some ((0, "/sys/fs/cgroup/cpu,cpuacct"), s')
      /\ exists line ops,
           In line host_mounts
           /\ sscanf_mounts (with_nl line) = (2, "/sys/fs/cgroup/cpu,cpuacct", ops)
           /\ has_substr ops "cpuacct" = true)
  /\ (exists s',
        get_mount_path "cpu" "" PATH_MAX (start long_mounts_host)
        = Some ((0, "/sys/fs/cgroup/cpuset"), s')
        /\ qualifies "cpu" (with_nl long_mount_line) = false
        /\ short_line PATH_MAX long_mount_line = false
        /\ exists buf ops,
             In buf (fgets_all PATH_MAX [long_mount_line])
             /\ sscanf_mounts buf = (2, "/sys/fs/cgroup/cpuset", ops)
             /\ has_substr ops "cpu" = true).
Proof.
  split.
  - eassert (E : get_mount_path "cpuacct" "" PATH_MAX (start (host []))
                 = Some ((_, _), _))
      by (vm_compute; reflexivity).
    eexists. split; [exact E|].
    destruct (proj2 (proj2 (get_mount_path_whole_target _ _ _ _ _ _ E)) eq_refl)
      as (lines & buf & ops & L & _ & Sc & Has & Short).
    change (fst (os_proc_mounts (os (start (host []))))) with (Ok host_mounts) in L.
    injection L as <-.
    destruct (Short ltac:(vm_compute; reflexivity)) as (line & I & ->).
    exists line, ops. split; [exact I|]. split; [exact Sc | exact Has].
  - eassert (E : get_mount_path "cpu" "" PATH_MAX (start long_mounts_host)
                 = Some ((_, _), _))
      by (vm_compute; reflexivity).
    eexists. split; [exact E|].
    split; [vm_compute; reflexivity|]. split; [vm_compute; reflexivity|].
    destruct (proj2 (proj2 (get_mount_path_whole_target _ _ _ _ _ _ E)) eq_refl)
      as (lines & buf & ops & L & I & Sc & Has & _).
    change (fst (os_proc_mounts (os (start long_mounts_host))))
      with (Ok [long_mount_line]) in L.
    injection L as <-.
    exists buf, ops. split; [exact I|]. split; [exact Sc | exact Has].
Defined.


End OnSamples.
